(** * Verification of the Uniqlo listing scraper (scraper.py)

    A shallow embedding of [is_allowed], [scroll_and_click_load_more],
    [extract_product_info], [scrape_uniqlo_women_tops], [save_to_csv],
    [save_to_json] and the script, together with executable models of
    the Python built-ins and of the parts of [urllib.parse], [csv],
    [json] and Selenium that those functions call.

    Conventions.
    - A Python [str] is a [string]; a character stands for the code point
      with the same number, so the strings covered are those of code points
      below 256.
    - A Python value that may be [None] is an [option].
    - A call that may raise returns a [result]; [try]/[except] is [catch].
    - Console output ([print]) and pauses ([time.sleep]) are not modelled.
    - A file that is written is given by the text written to it. *)

From Stdlib Require Import String Ascii List ZArith Bool Arith Lia.
From Stdlib Require Import Floats.SpecFloat.
From Stdlib Require Decimal DecimalNat DecimalString.
Import ListNotations.

Local Open Scope string_scope.
Local Open Scope list_scope.
Local Open Scope nat_scope.

(** ** Exceptions *)

(** The exception classes that the modelled code can meet.  All of them are
    subclasses of Python's [Exception]. *)
Inductive exn : Type :=
| NoSuchElementException
| TimeoutException
| StaleElementReferenceException
| WebDriverException
| AttributeError
| TypeError
| ValueError
| ZeroDivisionError.

Inductive result (A : Type) : Type :=
| Ok (a : A)
| Raise (e : exn).

Arguments Ok {A} a.
Arguments Raise {A} e.

Definition bind {A B : Type} (c : result A) (k : A -> result B) : result B :=
  match c with
  | Ok a => k a
  | Raise e => Raise e
  end.

(** [try: c  except Exception as e: h e] *)
Definition catch {A : Type} (c : result A) (h : exn -> result A) : result A :=
  match c with
  | Ok a => Ok a
  | Raise e => h e
  end.

Declare Scope result_scope.
Delimit Scope result_scope with result.
Notation "x <- c ;; k" := (bind c (fun x => k))
  (at level 61, c at next level, right associativity) : result_scope.
Notation "' p <- c ;; k" := (bind c (fun p => k))
  (at level 61, p pattern, c at next level, right associativity)
  : result_scope.

(** [mapM f l]: evaluates [f] on the elements from left to right and stops
    at the first one that raises, as a comprehension or a [for] loop does. *)
Fixpoint mapM {A B : Type} (f : A -> result B) (l : list A) : result (list B) :=
  match l with
  | [] => Ok []
  | a :: l' =>
      (b <- f a ;;
       bs <- mapM f l' ;;
       Ok (b :: bs))%result
  end.

(** ** Python strings *)

(** String concatenation, [a + b] in Python. *)
Notation "a +++ b" := (String.append a b)
  (at level 60, right associativity).

Module PyStr.

Definition code (c : ascii) : nat := nat_of_ascii c.

Definition char_in (c : ascii) (chars : string) : bool :=
  existsb (Ascii.eqb c) (list_ascii_of_string chars).

(** [s.startswith(p)] *)
Definition startswith (s p : string) : bool := String.prefix p s.

(** [sub in s] *)
Fixpoint contains (sub s : string) : bool :=
  String.prefix sub s ||
  match s with
  | EmptyString => false
  | String _ s' => contains sub s'
  end.

(** [s[n:]] and [s[:n]] for [n >= 0] *)
Fixpoint drop (n : nat) (s : string) : string :=
  match n, s with
  | O, _ => s
  | S k, EmptyString => EmptyString
  | S k, String _ s' => drop k s'
  end.

Fixpoint take (n : nat) (s : string) : string :=
  match n, s with
  | O, _ => EmptyString
  | S k, EmptyString => EmptyString
  | S k, String c s' => String c (take k s')
  end.

(** [s.find(c)] for a single character; [None] stands for [-1]. *)
Fixpoint find (c : ascii) (s : string) : option nat :=
  match s with
  | EmptyString => None
  | String d s' =>
      if Ascii.eqb c d then Some O else option_map S (find c s')
  end.

(** [s.rfind(c)] for a single character. *)
Fixpoint rfind (c : ascii) (s : string) : option nat :=
  match s with
  | EmptyString => None
  | String d s' =>
      match rfind c s' with
      | Some i => Some (S i)
      | None => if Ascii.eqb c d then Some O else None
      end
  end.

(** [s.partition(c)]: the text before the first [c] and, when [c] occurs,
    the text after it. *)
Fixpoint partition (c : ascii) (s : string) : string * option string :=
  match s with
  | EmptyString => (EmptyString, None)
  | String d s' =>
      if Ascii.eqb c d then (EmptyString, Some s')
      else let '(a, b) := partition c s' in (String d a, b)
  end.

(** [s.rpartition(c)[2]]: the text after the last [c], all of [s] when
    [c] does not occur. *)
Definition after_last (c : ascii) (s : string) : string :=
  match rfind c s with
  | Some i => drop (S i) s
  | None => s
  end.

(** [s.split(c)] for a single character: never empty. *)
Fixpoint split_char (c : ascii) (s : string) : string * list string :=
  match s with
  | EmptyString => (EmptyString, [])
  | String d s' =>
      let '(p, ps) := split_char c s' in
      if Ascii.eqb c d then (EmptyString, p :: ps) else (String d p, ps)
  end.

Definition split1 (c : ascii) (s : string) : list string :=
  let '(p, ps) := split_char c s in p :: ps.

(** [s.split(sep)] for a separator of one or more characters: occurrences
    are found from the left and do not overlap.  [skip] counts the
    characters of a matched separator still to be passed over. *)
Fixpoint split_aux (sep : string) (skip : nat) (s : string)
  : string * list string :=
  match s with
  | EmptyString => (EmptyString, [])
  | String d s' =>
      match skip with
      | S k => split_aux sep k s'
      | O =>
          if String.prefix sep s then
            let '(p, ps) := split_aux sep (String.length sep - 1) s' in
            (EmptyString, p :: ps)
          else
            let '(p, ps) := split_aux sep O s' in (String d p, ps)
      end
  end.

Definition split (sep s : string) : list string :=
  let '(p, ps) := split_aux sep O s in p :: ps.

(** [s.replace(old, EmptyString)] for [old] of one or more characters. *)
Fixpoint remove_aux (old : string) (skip : nat) (s : string) : string :=
  match s with
  | EmptyString => EmptyString
  | String d s' =>
      match skip with
      | S k => remove_aux old k s'
      | O =>
          if String.prefix old s
          then remove_aux old (String.length old - 1) s'
          else String d (remove_aux old O s')
      end
  end.

Definition remove (old s : string) : string :=
  match old with
  | EmptyString => s
  | _ => remove_aux old O s
  end.

(** [sep.join(l)] *)
Fixpoint join (sep : string) (l : list string) : string :=
  match l with
  | [] => EmptyString
  | [a] => a
  | a :: l' => a +++ sep +++ join sep l'
  end.

(** [s.lstrip(chars)], [s.rstrip(chars)], [s.strip(chars)] with the set
    of characters given as a predicate. *)
Fixpoint lstrip_by (p : ascii -> bool) (s : string) : string :=
  match s with
  | EmptyString => EmptyString
  | String c s' => if p c then lstrip_by p s' else s
  end.

Fixpoint rstrip_by (p : ascii -> bool) (s : string) : string :=
  match s with
  | EmptyString => EmptyString
  | String c s' =>
      match rstrip_by p s' with
      | EmptyString => if p c then EmptyString else String c EmptyString
      | r => String c r
      end
  end.

Definition strip_by (p : ascii -> bool) (s : string) : string :=
  rstrip_by p (lstrip_by p s).

(** The white space of [str.strip()], [str.isspace()]: the code points
    below 256 that Python classifies as white space. *)
Definition isspace (c : ascii) : bool :=
  let n := code c in
  ((9 <=? n) && (n <=? 13)) || ((28 <=? n) && (n <=? 32))
  || (n =? 133) || (n =? 160).

(** [s.strip()] *)
Definition strip (s : string) : string := strip_by isspace s.

Definition is_upper (c : ascii) : bool :=
  let n := code c in (65 <=? n) && (n <=? 90).
Definition is_lower (c : ascii) : bool :=
  let n := code c in (97 <=? n) && (n <=? 122).
Definition is_digit (c : ascii) : bool :=
  let n := code c in (48 <=? n) && (n <=? 57).
Definition is_ascii_alpha (c : ascii) : bool := is_upper c || is_lower c.
Definition is_hex (c : ascii) : bool :=
  let n := code c in
  is_digit c || ((65 <=? n) && (n <=? 70)) || ((97 <=? n) && (n <=? 102)).

Definition all_chars (p : ascii -> bool) (s : string) : bool :=
  forallb p (list_ascii_of_string s).

(** [s.lower()] on the letters A to Z. *)
Definition lower_char (c : ascii) : ascii :=
  if is_upper c then ascii_of_nat (code c + 32) else c.

Fixpoint lower (s : string) : string :=
  match s with
  | EmptyString => EmptyString
  | String c s' => String (lower_char c) (lower s')
  end.

(** Truth value of a string: [bool(s)]. *)
Definition truthy (s : string) : bool :=
  match s with
  | EmptyString => false
  | _ => true
  end.

Definition mem (s : string) (l : list string) : bool :=
  existsb (String.eqb s) l.

End PyStr.

(** ** urllib.parse and ipaddress

    The functions of CPython 3.11's [urllib/parse.py] that the scraper
    calls, for [str] arguments, with the validation of bracketed hosts
    from [ipaddress.py].  Only the validity of an address is modelled, not
    its numeric value. *)

Module Urllib.
Import PyStr.

Definition uses_relative : list string :=
  [EmptyString; "ftp"; "http"; "gopher"; "nntp"; "imap";
   "wais"; "file"; "https"; "shttp"; "mms";
   "prospero"; "rtsp"; "rtspu"; "sftp";
   "svn"; "svn+ssh"; "ws"; "wss"].

Definition uses_netloc : list string :=
  [EmptyString; "ftp"; "http"; "gopher"; "nntp"; "telnet";
   "imap"; "wais"; "file"; "mms"; "https"; "shttp";
   "snews"; "prospero"; "rtsp"; "rtspu"; "rsync";
   "svn"; "svn+ssh"; "sftp"; "nfs"; "git"; "git+ssh";
   "ws"; "wss"].

Definition uses_params : list string :=
  [EmptyString; "ftp"; "hdl"; "prospero"; "http"; "imap";
   "https"; "shttp"; "rtsp"; "rtspu"; "sip"; "sips";
   "mms"; "sftp"; "tel"].

Definition scheme_chars : string :=
  "abcdefghijklmnopqrstuvwxyzABCDEFGHIJKLMNOPQRSTUVWXYZ0123456789+-.".

(** [_WHATWG_C0_CONTROL_OR_SPACE]: the code points 0 to 32. *)
Definition c0_control_or_space (c : ascii) : bool := code c <=? 32.

(** [_UNSAFE_URL_BYTES_TO_REMOVE]: tab, carriage return, line feed. *)
Definition unsafe_url_byte (c : ascii) : bool :=
  (code c =? 9) || (code c =? 13) || (code c =? 10).

Fixpoint remove_unsafe (s : string) : string :=
  match s with
  | EmptyString => EmptyString
  | String c s' =>
      if unsafe_url_byte c then remove_unsafe s'
      else String c (remove_unsafe s')
  end.

(** *** ipaddress *)

(** [IPv4Address._parse_octet] succeeds. *)
Definition octet_ok (o : string) : bool :=
  truthy o
  && all_chars is_digit o
  && (String.length o <=? 3)
  && (String.eqb o "0" || negb (String.prefix "0" o))
  && (Z.leb (fold_left (fun acc c => (acc * 10 + Z.of_nat (code c - 48))%Z)
                       (list_ascii_of_string o) 0%Z) 255).

(** [IPv4Address(s)] succeeds. *)
Definition ipv4_ok (s : string) : bool :=
  negb (char_in "/" s)
  && truthy s
  && (let octets := split1 "." s in
      (List.length octets =? 4) && forallb octet_ok octets).

(** [IPv6Address._parse_hextet] succeeds: hexadecimal digits only, at
    most four, and at least one for [int(_, 16)]. *)
Definition hextet_ok (h : string) : bool :=
  all_chars is_hex h && (String.length h <=? 4) && truthy h.

(** The index of the only empty part strictly between the first and the
    last part; [None] when there is none, an error when there are two. *)
Fixpoint skip_index (i : nat) (parts : list string) (found : option nat)
  : option (option nat) :=
  match parts with
  | [] => Some found
  | [_] => Some found
  | p :: rest =>
      if truthy p then skip_index (S i) rest found
      else match found with
           | Some _ => None
           | None => skip_index (S i) rest (Some i)
           end
  end.

(** [IPv6Address._ip_int_from_string(s)] succeeds. *)
Definition ipv6_int_ok (s : string) : bool :=
  truthy s &&
  let parts := split1 ":" s in
  (3 <=? List.length parts) &&
  let last_part := last parts EmptyString in
  let v4_suffix := char_in "." last_part in
  (negb v4_suffix || ipv4_ok last_part) &&
  (* an IPv4 suffix is replaced by two hextets, valid by construction *)
  let parts :=
    if v4_suffix then removelast parts ++ ["0"; "0"] else parts in
  let n := List.length parts in
  (n <=? 9) &&
  match skip_index 1 (tl parts) None with
  | None => false
  | Some (Some k) =>
      let first_empty := negb (truthy (hd EmptyString parts)) in
      let last_empty := negb (truthy (last parts EmptyString)) in
      let parts_hi := if first_empty then k - 1 else k in
      let parts_lo := if last_empty then n - k - 1 - 1 else n - k - 1 in
      (negb first_empty || (parts_hi =? 0)) &&
      (negb last_empty || (parts_lo =? 0)) &&
      (parts_hi + parts_lo <? 8) &&
      forallb hextet_ok (firstn parts_hi parts) &&
      forallb hextet_ok (skipn (n - parts_lo) parts)
  | Some None =>
      (n =? 8) && truthy (hd EmptyString parts) && truthy (last parts EmptyString) &&
      forallb hextet_ok parts
  end.

(** [IPv6Address(s)] succeeds: no slash, a well-formed scope id if any. *)
Definition ipv6_ok (s : string) : bool :=
  negb (char_in "/" s) &&
  match partition "%" s with
  | (addr, None) => ipv6_int_ok addr
  | (addr, Some scope) =>
      truthy scope && negb (char_in "%" scope) && ipv6_int_ok addr
  end.

Inductive ip_version : Type := IPv4 | IPv6.

(** [ipaddress.ip_address(s)]; [None] when it raises [ValueError]. *)
Definition ip_address (s : string) : option ip_version :=
  if ipv4_ok s then Some IPv4
  else if ipv6_ok s then Some IPv6
  else None.

(** *** urlsplit *)

(** [re.match(r"\Av[a-fA-F0-9]+\..+\Z", hostname)] *)
Definition ipvfuture_ok (hostname : string) : bool :=
  match hostname with
  | String "v" rest =>
      let after_hex := lstrip_by is_hex rest in
      negb (String.length after_hex =? String.length rest) &&
      match after_hex with
      | String "." tail =>
          truthy tail && all_chars (fun c => negb (code c =? 10)) tail
      | _ => false
      end
  | _ => false
  end.

Definition _check_bracketed_host (hostname : string) : result unit :=
  if String.prefix "v" hostname then
    if ipvfuture_ok hostname then Ok tt else Raise ValueError
  else
    match ip_address hostname with
    | Some IPv6 => Ok tt
    | Some IPv4 => Raise ValueError
    | None => Raise ValueError
    end.

Definition _check_bracketed_netloc (netloc : string) : result unit :=
  let hostname_and_port := after_last "@" netloc in
  match partition "[" hostname_and_port with
  | (before_bracket, Some bracketed) =>
      if truthy before_bracket then Raise ValueError
      else
        let '(hostname, port) := partition "]" bracketed in
        let port := match port with Some p => p | None => EmptyString end in
        if truthy port && negb (String.prefix ":" port)
        then Raise ValueError
        else _check_bracketed_host hostname
  | (_, None) =>
      _check_bracketed_host (fst (partition ":" hostname_and_port))
  end.

(** [_splitnetloc(url, 2)] *)
Fixpoint span_netloc (s : string) : string * string :=
  match s with
  | EmptyString => (EmptyString, EmptyString)
  | String c s' =>
      if char_in c "/?#" then (EmptyString, s)
      else let '(a, b) := span_netloc s' in (String c a, b)
  end.

Definition _splitnetloc (url : string) : string * string :=
  span_netloc (drop 2 url).

Record SplitResult : Type := mkSplit {
  s_scheme : string;
  s_netloc : string;
  s_path : string;
  s_query : string;
  s_fragment : string
}.

(** [urlsplit(url, scheme)].  [_checknetloc] is left out: on strings of
    code points below 256 NFKC normalisation introduces none of the
    characters it looks for, so it returns without raising. *)
Definition urlsplit (url scheme : string) : result SplitResult :=
  let url := lstrip_by c0_control_or_space url in
  let scheme := strip_by c0_control_or_space scheme in
  let url := remove_unsafe url in
  let scheme := remove_unsafe scheme in
  let '(scheme, url) :=
    match find ":" url with
    | Some (S i) =>
        if match url with
           | String c _ => is_ascii_alpha c
           | EmptyString => false
           end
           && all_chars (fun c => char_in c scheme_chars) (take (S i) url)
        then (lower (take (S i) url), drop (S (S i)) url)
        else (scheme, url)
    | _ => (scheme, url)
    end in
  bind
    (if String.prefix "//" url then
       let '(netloc, rest) := _splitnetloc url in
       let has_open := char_in "[" netloc in
       let has_close := char_in "]" netloc in
       if (has_open && negb has_close) || (has_close && negb has_open)
       then Raise ValueError
       else
         bind (if has_open && has_close
               then _check_bracketed_netloc netloc else Ok tt)
              (fun _ => Ok (netloc, rest))
     else Ok (EmptyString, url))
    (fun '(netloc, url) =>
       let '(url, fragment) :=
         match partition "#" url with
         | (u, Some f) => (u, f)
         | (u, None) => (u, EmptyString)
         end in
       let '(url, query) :=
         match partition "?" url with
         | (u, Some q) => (u, q)
         | (u, None) => (u, EmptyString)
         end in
       Ok (mkSplit scheme netloc url query fragment)).

(** *** urlparse *)

Record ParseResult : Type := mkParse {
  scheme : string;
  netloc : string;
  path : string;
  params : string;
  query : string;
  fragment : string
}.

(** [_splitparams(url)], called when [';' in url]. *)
Definition _splitparams (url : string) : string * string :=
  match rfind "/" url with
  | Some j =>
      match find ";" (drop j url) with
      | Some k => (take (j + k) url, drop (S (j + k)) url)
      | None => (url, EmptyString)
      end
  | None =>
      match find ";" url with
      | Some i => (take i url, drop (S i) url)
      | None => (url, EmptyString)
      end
  end.

Definition urlparse (url scheme : string) : result ParseResult :=
  bind (urlsplit url scheme) (fun r =>
    let '(url, params) :=
      if mem (s_scheme r) uses_params && char_in ";" (s_path r)
      then _splitparams (s_path r)
      else (s_path r, EmptyString) in
    Ok (mkParse (s_scheme r) (s_netloc r) url params
                (s_query r) (s_fragment r))).

(** *** urlunparse *)

Definition urlunsplit (scheme netloc url query fragment : string) : string :=
  let url :=
    if truthy netloc
       || (truthy scheme && mem scheme uses_netloc
           && negb (String.prefix "//" url))
    then
      let url :=
        if truthy url && negb (String.prefix "/" url)
        then "/" +++ url else url in
      "//" +++ netloc +++ url
    else url in
  let url := if truthy scheme then scheme +++ ":" +++ url else url in
  let url := if truthy query then url +++ "?" +++ query else url in
  if truthy fragment then url +++ "#" +++ fragment else url.

Definition urlunparse (r : ParseResult) : string :=
  let url :=
    if truthy (params r) then path r +++ ";" +++ params r else path r in
  urlunsplit (scheme r) (netloc r) url (query r) (fragment r).

(** *** urljoin *)

(** [segments[1:-1] = filter(None, segments[1:-1])] *)
Definition filter_inner (segments : list string) : list string :=
  match segments with
  | [] => []
  | [a] => [a]
  | a :: rest =>
      a :: filter truthy (removelast rest) ++ [last rest EmptyString]
  end.

(** The loop over [segments]; [resolved] is [resolved_path] reversed. *)
Fixpoint resolve (segments resolved : list string) : list string :=
  match segments with
  | [] => rev resolved
  | seg :: rest =>
      if String.eqb seg ".." then resolve rest (tl resolved)
      else if String.eqb seg "." then resolve rest resolved
      else resolve rest (seg :: resolved)
  end.

(** [urljoin(base, url)] for a [str] [base] and a [url] that is a [str]
    or [None]. *)
Definition urljoin (base : string) (url : option string)
  : result (option string) :=
  if negb (truthy base) then Ok url
  else
    match url with
    | None => Ok (Some base)
    | Some url =>
        if negb (truthy url) then Ok (Some base)
        else
          bind (urlparse base EmptyString) (fun b =>
          bind (urlparse url (scheme b)) (fun u =>
            if negb (String.eqb (scheme u) (scheme b))
               || negb (mem (scheme u) uses_relative)
            then Ok (Some url)
            else if mem (scheme u) uses_netloc && truthy (netloc u)
            then Ok (Some (urlunparse u))
            else
              let netloc' :=
                if mem (scheme u) uses_netloc then netloc b else netloc u in
              if negb (truthy (path u)) && negb (truthy (params u))
              then
                let query' :=
                  if truthy (query u) then query u else query b in
                Ok (Some (urlunparse
                            (mkParse (scheme u) netloc' (path b) (params b)
                                     query' (fragment u))))
              else
                let base_parts := split1 "/" (path b) in
                let base_parts :=
                  if truthy (last base_parts EmptyString)
                  then removelast base_parts else base_parts in
                let segments :=
                  if String.prefix "/" (path u)
                  then split1 "/" (path u)
                  else filter_inner (base_parts ++ split1 "/" (path u)) in
                let resolved_path := resolve segments [] in
                let resolved_path :=
                  if mem (last segments EmptyString) ["."; ".."]
                  then resolved_path ++ [EmptyString] else resolved_path in
                let joined := join "/" resolved_path in
                Ok (Some (urlunparse
                            (mkParse (scheme u) netloc'
                                     (if truthy joined then joined else "/")
                                     (params u) (query u) (fragment u))))))
    end.

End Urllib.

(** ** Python floats

    A Python [float] is an IEEE 754 binary64 number, here a [spec_float]
    with the precision and exponent range of binary64; arithmetic is the
    correctly rounded arithmetic of [SpecFloat]. *)

Module PyFloat.
Import PyStr.
Local Open Scope Z_scope.

Definition prec : Z := 53.
Definition emax : Z := 1024.

Definition float : Type := spec_float.

(** [x - y], [x * y] *)
Definition sub (x y : float) : float := SFsub prec emax x y.
Definition mul (x y : float) : float := SFmul prec emax x y.

(** [x / y]: division by a zero of either sign raises. *)
Definition truediv (x y : float) : result float :=
  match y with
  | S754_zero _ => Raise ZeroDivisionError
  | _ => Ok (SFdiv prec emax x y)
  end.

(** Number of decimal digits of a natural number, [0] for zero. *)
Fixpoint ndigits_aux (fuel : nat) (z : Z) : Z :=
  match fuel with
  | O => 0
  | S f => if z <=? 0 then 0 else 1 + ndigits_aux f (z / 10)
  end.

Definition ndigits (z : Z) : Z :=
  ndigits_aux (S (Z.to_nat (Z.log2 z))) z.

(** The binary64 number nearest to [m * 10^e] (ties to even), with the
    sign [neg]: what [strtod] returns for a decimal numeral. *)
Definition of_decimal (neg : bool) (m : Z) (e : Z) : float :=
  match m with
  | Zpos p =>
      if 310 <? ndigits m + e then S754_infinity neg
      else if ndigits m + e <? -330 then S754_zero neg
      else if 0 <=? e then
        match m * 10 ^ e with
        | Zpos q => binary_round prec emax neg q 0
        | _ => S754_zero neg
        end
      else
        match 10 ^ (- e) with
        | Zpos d =>
            SFdiv prec emax (S754_finite neg p 0) (S754_finite false d 0)
        | _ => S754_zero neg
        end
  | _ => S754_zero neg
  end.

(** The float of the integer literal [100]. *)
Definition hundred : float := of_decimal false 100 0.

(** *** float(str) *)

(** White space of the C locale, [Py_ISSPACE]. *)
Definition c_isspace (c : ascii) : bool :=
  let n := code c in (((9 <=? n) && (n <=? 13)) || (n =? 32))%nat.

(** [_PyUnicode_TransformDecimalAndSpaceToASCII]: beyond ASCII, white
    space becomes a blank and any other character, none of which is a
    decimal digit below code point 256, becomes a question mark. *)
Definition to_ascii_char (c : ascii) : ascii :=
  if (code c <? 128)%nat then c
  else if isspace c then " "%char else "?"%char.

Fixpoint to_ascii (s : string) : string :=
  match s with
  | EmptyString => EmptyString
  | String c s' => String (to_ascii_char c) (to_ascii s')
  end.

(** Underscores may only stand between two digits.  [prev] is the
    character before [s], if any. *)
Fixpoint underscores_ok (prev : option ascii) (s : string) : bool :=
  match s with
  | EmptyString =>
      match prev with
      | Some "_"%char => false
      | _ => true
      end
  | String c s' =>
      (if Ascii.eqb c "_"
       then match prev with
            | Some p => is_digit p
            | None => false
            end
       else match prev with
            | Some "_"%char => is_digit c
            | _ => true
            end)
      && underscores_ok (Some c) s'
  end.

(** Leading decimal digits of [s]: their value, their number, the rest. *)
Fixpoint digits (acc : Z) (n : Z) (s : string) : Z * Z * string :=
  match s with
  | String c s' =>
      if is_digit c
      then digits (acc * 10 + Z.of_nat (code c - 48)) (n + 1) s'
      else (acc, n, s)
  | EmptyString => (acc, n, s)
  end.

Definition sign_of (s : string) : bool * string :=
  match s with
  | String "-" s' => (true, s')
  | String "+" s' => (false, s')
  | _ => (false, s)
  end.

(** The exponent part: [e] or [E], an optional sign and at least one
    digit.  Without a digit the exponent is not part of the numeral. *)
Definition exponent (s : string) : Z * string :=
  match s with
  | String c s' =>
      if Ascii.eqb c "e" || Ascii.eqb c "E" then
        let '(neg, s1) := sign_of s' in
        let '(v, n, s2) := digits 0 0 s1 in
        if n =? 0 then (0, s) else ((if neg then - v else v), s2)
      else (0, s)
  | EmptyString => (0, s)
  end.

(** [_Py_dg_strtod] on the whole string: [None] unless all of it is a
    decimal numeral. *)
Definition strtod (s : string) : option float :=
  let '(neg, s1) := sign_of s in
  let '(ip, n1, s2) := digits 0 0 s1 in
  let '(m, n, fraclen, s3) :=
    match s2 with
    | String "." s2' =>
        let '(m, n2, s3) := digits ip 0 s2' in (m, n1 + n2, n2, s3)
    | _ => (ip, n1, 0, s2)
    end in
  if n =? 0 then None
  else
    let '(e, s4) := exponent s3 in
    match s4 with
    | EmptyString => Some (of_decimal neg m (e - fraclen))
    | _ => None
    end.

(** [_Py_parse_inf_or_nan] on the whole string. *)
Definition parse_inf_or_nan (s : string) : option float :=
  let '(neg, s1) := sign_of s in
  let l := lower s1 in
  if String.eqb l "inf" || String.eqb l "infinity"
  then Some (S754_infinity neg)
  else if String.eqb l "nan" then Some S754_nan
  else None.

Definition float_from_string_inner (s : string) : result float :=
  match strtod s with
  | Some x => Ok x
  | None =>
      match parse_inf_or_nan s with
      | Some x => Ok x
      | None => Raise ValueError
      end
  end.

(** [float(s)] for a string [s]. *)
Definition float_of_string (s : string) : result float :=
  let s := lstrip_by c_isspace (to_ascii s) in
  let body := rstrip_by c_isspace s in
  if negb (truthy s) then Raise ValueError
  else if negb (char_in "_" body) then float_from_string_inner body
  else if underscores_ok None body
  then float_from_string_inner (remove "_" body)
  else Raise ValueError.

(** *** round(x, 2) *)

(** [n / d] rounded to the nearest integer, ties to even, for [d > 0]. *)
Definition div_half_even (n d : Z) : Z :=
  let q := n / d in
  let r := n mod d in
  match 2 * r ?= d with
  | Lt => q
  | Gt => q + 1
  | Eq => if Z.even q then q else q + 1
  end.

(** [round(x, 2)]: the decimal with two places nearest to the exact
    value of [x] (ties to even), converted back to a float.  Infinities
    and nan round to themselves. *)
Definition round2 (x : float) : float :=
  match x with
  | S754_finite s m e =>
      let n :=
        if 0 <=? e then Zpos m * 2 ^ e * 100
        else div_half_even (Zpos m * 100) (2 ^ (- e)) in
      of_decimal s n (-2)
  | _ => x
  end.

(** *** repr(x) *)

Definition float_eqb (x y : float) : bool :=
  match x, y with
  | S754_finite s m e, S754_finite s' m' e' =>
      Bool.eqb s s' && Pos.eqb m m' && (e =? e')
  | _, _ => false
  end.

(** [m * 2^e < 10^k] *)
Definition below_pow10 (m : positive) (e k : Z) : bool :=
  let num := Zpos m * 2 ^ (Z.max e 0) * 10 ^ (Z.max (- k) 0) in
  let den := 2 ^ (Z.max (- e) 0) * 10 ^ (Z.max k 0) in
  num <? den.

(** The position of the decimal point: the [k] with
    [10^(k-1) <= m * 2^e < 10^k], searched upwards from an estimate
    below it. *)
Fixpoint decpt_from (fuel : nat) (m : positive) (e k : Z) : Z :=
  match fuel with
  | O => k
  | S f => if below_pow10 m e k then k else decpt_from f m e (k + 1)
  end.

Definition decpt (m : positive) (e : Z) : Z :=
  let b := Z.log2 (Zpos m) + 1 + e in
  decpt_from 8 m e ((b - 1) * 30103 / 100000 - 1).

(** The two decimals of [n] digits next to [m * 2^e]: the lower one and
    whether the exact value is nearer to the upper one. *)
Definition neighbours (m : positive) (e k n : Z) : Z * comparison :=
  let num := Zpos m * 2 ^ (Z.max e 0) * 10 ^ (Z.max (n - k) 0) in
  let den := 2 ^ (Z.max (- e) 0) * 10 ^ (Z.max (k - n) 0) in
  (num / den, 2 * (num mod den) ?= den).

(** The shortest decimal that converts back to the float, the nearest
    to it among those of that length: digits and exponent. *)
Fixpoint shortest (fuel : nat) (s : bool) (m : positive) (e k n : Z)
  : Z * Z :=
  let x := S754_finite s m e in
  let '(lo, c) := neighbours m e k n in
  let hi := lo + 1 in
  let lo_ok := float_eqb (of_decimal s lo (k - n)) x in
  let hi_ok := float_eqb (of_decimal s hi (k - n)) x in
  let nearest :=
    match c with
    | Lt => lo
    | Gt => hi
    | Eq => if Z.even lo then lo else hi
    end in
  match fuel with
  | O => (nearest, k - n)
  | S f =>
      if lo_ok && hi_ok then (nearest, k - n)
      else if lo_ok then (lo, k - n)
      else if hi_ok then (hi, k - n)
      else shortest f s m e k (n + 1)
  end.

(** Decimal digits of a natural number, most significant first. *)
Fixpoint digits_of (fuel : nat) (z : Z) (acc : string) : string :=
  match fuel with
  | O => acc
  | S f =>
      if z <=? 0 then acc
      else digits_of f (z / 10)
             (String (ascii_of_nat (48 + Z.to_nat (z mod 10))) acc)
  end.

Definition string_of_nat_Z (z : Z) : string :=
  if z <=? 0 then "0"
  else digits_of (S (Z.to_nat (Z.log2 z))) z EmptyString.

Fixpoint strip_zeros (fuel : nat) (d e : Z) : Z * Z :=
  match fuel with
  | O => (d, e)
  | S f =>
      if (0 <? d) && (d mod 10 =? 0) then strip_zeros f (d / 10) (e + 1)
      else (d, e)
  end.

Fixpoint zeros (n : nat) : string :=
  match n with
  | O => EmptyString
  | S k => String "0" (zeros k)
  end.

(** [format_float_short] with format code ['r'] and the flag that adds
    [.0] to a number without fraction. *)
Definition format_repr (ds : string) (k : Z) : string :=
  let nd := Z.of_nat (String.length ds) in
  if (k <=? -4) || (16 <? k) then
    let x := k - 1 in
    let xs := string_of_nat_Z (Z.abs x) in
    take 1 ds
    +++ (if 1 <? nd then "." +++ drop 1 ds else EmptyString)
    +++ "e" +++ (if x <? 0 then "-" else "+")
    +++ (if (String.length xs <? 2)%nat then "0" +++ xs else xs)
  else if k <=? 0 then "0." +++ zeros (Z.to_nat (- k)) +++ ds
  else if nd <=? k then ds +++ zeros (Z.to_nat (k - nd)) +++ ".0"
  else take (Z.to_nat k) ds +++ "." +++ drop (Z.to_nat k) ds.

(** [repr(x)], which is also [str(x)] and [format(x, EmptyString)]. *)
Definition repr (x : float) : string :=
  match x with
  | S754_nan => "nan"
  | S754_infinity s => if s then "-inf" else "inf"
  | S754_zero s => if s then "-0.0" else "0.0"
  | S754_finite s m e =>
      let k := decpt m e in
      let '(d, x10) := shortest 16 s m e k 1 in
      let '(d, x10) := strip_zeros 20 d x10 in
      let ds := string_of_nat_Z d in
      (if s then "-" else EmptyString)
      +++ format_repr ds (x10 + Z.of_nat (String.length ds))
  end.

End PyFloat.

(** ** Selenium: elements of a rendered page

    A [WebElement] is described by what its methods answer: its visible
    text, its attributes, and the elements that a CSS selector finds below
    it, in document order.  Every call may raise, as a call on a stale
    element does. *)

#[local] Unset Elimination Schemes.
Inductive WebElement : Type :=
  mkElement {
    text : result string;
    get_attribute : string -> result (option string);
    find_elements : string -> result (list WebElement)
  }.
#[local] Set Elimination Schemes.

(** [element.find_element(By.CSS_SELECTOR, sel)]: the first match. *)
Definition find_element (e : WebElement) (sel : string) : result WebElement :=
  (l <- find_elements e sel ;;
   match l with
   | x :: _ => Ok x
   | [] => Raise NoSuchElementException
   end)%result.

(** The double quote character, for selectors that contain one. *)
Definition dquote : string :=
  String (Ascii false true false false false true false false) EmptyString.

(** ** scraper.py: is_allowed *)

(** Disallowed paths according to the website's robots.txt file. *)
Definition disallowed_paths : list string :=
  ["/my/en/cms/";
   "/my/en/search";
   "/my/en/news/search";
   "/my/en/news/sp/search"].

Definition is_allowed (url : string) : result bool :=
  (parsed_url <- Urllib.urlparse url EmptyString ;;
   let path := Urllib.path parsed_url in
   Ok (negb (existsb (fun disallowed => PyStr.startswith path disallowed)
                     disallowed_paths)))%result.

(** ** scraper.py: extract_product_info *)

(** The dictionary that [extract_product_info] returns.  The keys are
    fixed; a field is an [option] where the value may be [None]. *)
Record ProductInfo : Type := mkProductInfo {
  product_id : string;
  title : string;
  image : option string;
  color_options : nat;
  size_info : string;
  original_price : option string;
  sale_price : option string;
  discount : option string;
  limited_offer : option string;
  additional_info : list string;
  product_url : string
}.

(** [v.split(sep)[-1]] for an attribute value [v]: [None] has no [split]. *)
Definition split_last (sep : string) (v : option string) : result string :=
  match v with
  | Some s => Ok (last (PyStr.split sep s) EmptyString)
  | None => Raise AttributeError
  end.

(** [sub not in v] for an attribute value [v]: [None] is not iterable. *)
Definition not_in (sub : string) (v : option string) : result bool :=
  match v with
  | Some s => Ok (negb (PyStr.contains sub s))
  | None => Raise TypeError
  end.

(** Truth value of a string that may be [None]. *)
Definition truthy_opt (v : option string) : bool :=
  match v with
  | Some s => PyStr.truthy s
  | None => false
  end.

(** [l[-1].text.strip() if l else None] *)
Definition last_text (l : list WebElement) : result (option string) :=
  match l with
  | [] => Ok None
  | x :: _ => (t <- text (last l x) ;; Ok (Some (PyStr.strip t)))%result
  end.

(** [l[0].text.strip() if l else None] *)
Definition first_text (l : list WebElement) : result (option string) :=
  match l with
  | [] => Ok None
  | x :: _ => (t <- text x ;; Ok (Some (PyStr.strip t)))%result
  end.

Local Open Scope result_scope.

(** Line 157: the product id. *)
Definition extract_product_id (product : WebElement) : result string :=
  data_test <- get_attribute product "data-test" ;;
  split_last "product-card-" data_test.

(** Lines 158-160: the image URL. *)
Definition extract_image (product : WebElement) : result (option string) :=
  img <- find_element product ".fr-product-image img" ;;
  get_attribute img "src".

(** Whether a colour swatch counts: its class lacks "extra". *)
Definition is_real_color (tip : WebElement) : result bool :=
  class <- get_attribute tip "class" ;;
  not_in "extra" class.

(** Lines 163-166: the number of colour options. *)
Definition extract_color_options (product : WebElement) : result nat :=
  color_tips <- find_elements product ".color-tips .color-tip" ;;
  flags <- mapM is_real_color color_tips ;;
  Ok (List.length (filter (fun b => b) flags)).

(** Line 168: the title. *)
Definition extract_title (product : WebElement) : result string :=
  h2 <- find_element product "h2.description" ;;
  t <- text h2 ;;
  Ok (PyStr.strip t).

(** Lines 171-173: the size information. *)
Definition extract_size_info (product : WebElement) : result string :=
  el <- find_element product
          ("[data-test=" +++ dquote +++ "product-card-size" +++ dquote
           +++ "]") ;;
  t <- text el ;;
  Ok (PyStr.strip t).

(** Lines 175-194: the original price and the sale price. *)
Definition extract_prices (product : WebElement)
  : result (option string * option string) :=
  price_element <- find_element product ".fr-product-price" ;;
  original_price_element <-
    find_elements price_element ".price-original .fr-price-currency span" ;;
  original_price <- last_text original_price_element ;;
  limited_price_element <-
    find_elements price_element ".price-limited .fr-price-currency span" ;;
  sale_price <- last_text limited_price_element ;;
  let sale_price :=
    if negb (truthy_opt sale_price) then None else sale_price in
  Ok (original_price, sale_price).

(** [float(price.replace(",", "").replace("RM", ""))] *)
Definition price_float (price : string) : result PyFloat.float :=
  PyFloat.float_of_string (PyStr.remove "RM" (PyStr.remove "," price)).

(** Lines 204-209: [round((o - s) / o * 100, 2)] *)
Definition discount_value (o s : PyFloat.float) : result PyFloat.float :=
  q <- PyFloat.truediv (PyFloat.sub o s) o ;;
  Ok (PyFloat.round2 (PyFloat.mul q PyFloat.hundred)).

(** Lines 196-213: the discount; only [ValueError] is handled here. *)
Definition compute_discount (original_price sale_price : option string)
  : result (option PyFloat.float) :=
  match original_price, sale_price with
  | Some o, Some s =>
      if PyStr.truthy o && PyStr.truthy s then
        catch
          (original_price_float <- price_float o ;;
           sale_price_float <- price_float s ;;
           d <- discount_value original_price_float sale_price_float ;;
           Ok (Some d))
          (fun e =>
             match e with
             | ValueError => Ok None
             | _ => Raise e
             end)
      else Ok None
  | _, _ => Ok None
  end.

(** Lines 216-219: the limited-offer label. *)
Definition extract_limited_offer (product : WebElement)
  : result (option string) :=
  limited_offer <-
    find_elements product
      ".fr-status-flag-text[data-test^='limited-offer-from']" ;;
  first_text limited_offer.

(** Lines 223-227: the comprehension over the flag items. *)
Fixpoint additional_texts (items : list WebElement) : result (list string) :=
  match items with
  | [] => Ok []
  | info :: rest =>
      data_test <- get_attribute info "data-test" ;;
      keep <- not_in "limited-offer" data_test ;;
      here <- (if keep
               then t <- text info ;; Ok [PyStr.strip t]
               else Ok []) ;;
      others <- additional_texts rest ;;
      Ok (here ++ others)
  end.

(** Lines 222-227: the additional tags. *)
Definition extract_additional_info (product : WebElement)
  : result (list string) :=
  additional_info <- find_elements product "ul.fr-status-flag li" ;;
  additional_texts additional_info.

(** Lines 229-231: the product URL, before the policy check. *)
Definition extract_product_url (product : WebElement) (base_url : string)
  : result (option string) :=
  a <- find_element product "a" ;;
  href <- get_attribute a "href" ;;
  Urllib.urljoin base_url href.

(** [f"{discount}%" if discount is not None else None] *)
Definition discount_field (d : option PyFloat.float) : option string :=
  match d with
  | Some x => Some (PyFloat.repr x +++ "%")
  | None => None
  end.

(** Lines 233-252: the policy check and the assembly of the record.  A
    [product_url] of [None] makes [is_allowed] raise: [urlparse(None)]
    gives a result of [bytes], whose [startswith] rejects a [str]. *)
Definition check_and_assemble
    (product_id : string) (image : option string) (color_options : nat)
    (title size_info : string) (original_price sale_price : option string)
    (discount : option PyFloat.float) (limited_offer : option string)
    (additional_info : list string) (product_url : option string)
  : result (option ProductInfo) :=
  match product_url with
  | None => Raise TypeError
  | Some url =>
      allowed <- is_allowed url ;;
      if negb allowed then Ok None
      else
        Ok (Some (mkProductInfo product_id title image color_options
                    size_info original_price sale_price
                    (discount_field discount) limited_offer
                    additional_info url))
  end.

(** The body of the [try] block, lines 157-252. *)
Definition extract_body (product : WebElement) (base_url : string)
  : result (option ProductInfo) :=
  product_id <- extract_product_id product ;;
  image <- extract_image product ;;
  color_options <- extract_color_options product ;;
  title <- extract_title product ;;
  size_info <- extract_size_info product ;;
  '(original_price, sale_price) <- extract_prices product ;;
  discount <- compute_discount original_price sale_price ;;
  limited_offer <- extract_limited_offer product ;;
  additional_info <- extract_additional_info product ;;
  product_url <- extract_product_url product base_url ;;
  check_and_assemble product_id image color_options title size_info
    original_price sale_price discount limited_offer additional_info
    product_url.

(** [try: ... except Exception: return None] *)
Definition extract_product_info (product : WebElement) (base_url : string)
  : result (option ProductInfo) :=
  catch (extract_body product base_url) (fun _ => Ok None).

(** Lines 291-296: the loop over the product elements. *)
Fixpoint collect_products (product_list : list WebElement) (url : string)
  : result (list ProductInfo) :=
  match product_list with
  | [] => Ok []
  | product :: rest =>
      product_info <- extract_product_info product url ;;
      products <- collect_products rest url ;;
      Ok (match product_info with
          | Some info => info :: products
          | None => products
          end)
  end.

Local Close Scope result_scope.

(** ** Selenium: the browser session

    The session is a state machine: every call takes the state of the
    browser, answers or raises, and leaves a new state.  [D] is the type of
    the states and [B] the type of the handles to the load-more control. *)

Record WebDriver (D B : Type) : Type := mkWebDriver {
  (** [webdriver.Chrome(...)] as wrapped by [setup_driver()] *)
  drv_setup : result D;
  (** [driver.get(url)] *)
  drv_get : string -> D -> result unit * D;
  (** [driver.execute_script(script, *args)] *)
  drv_execute_script : string -> option B -> D -> result unit * D;
  (** [driver.title] *)
  drv_title : D -> result unit * D;
  (** [WebDriverWait(driver, 10).until(EC.presence_of_element_located(
      (By.XPATH, xpath)))]: raises [TimeoutException] when the element is
      still absent after the timeout. *)
  drv_wait_presence : string -> D -> result B * D;
  (** [button.is_displayed()] *)
  drv_is_displayed : B -> D -> result bool * D;
  (** [button.click()] *)
  drv_click : B -> D -> result unit * D;
  (** [driver.find_elements(By.CSS_SELECTOR, sel)] *)
  drv_find_elements : string -> D -> result (list WebElement) * D;
  (** [driver.quit()] *)
  drv_quit : D -> result unit * D
}.

Arguments drv_setup {D B} _.
Arguments drv_get {D B} _ _ _.
Arguments drv_execute_script {D B} _ _ _ _.
Arguments drv_title {D B} _ _.
Arguments drv_wait_presence {D B} _ _ _.
Arguments drv_is_displayed {D B} _ _ _.
Arguments drv_click {D B} _ _ _.
Arguments drv_find_elements {D B} _ _ _.
Arguments drv_quit {D B} _ _.

(** The calls made on the session, in order. *)
Inductive event : Type :=
| EvSetup
| EvGet (url : string)
| EvScript (script : string)
| EvTitle
| EvWait
| EvIsDisplayed
| EvClick
| EvFindElements (sel : string)
| EvQuit.

Definition event_eqb (a b : event) : bool :=
  match a, b with
  | EvSetup, EvSetup | EvTitle, EvTitle | EvWait, EvWait
  | EvIsDisplayed, EvIsDisplayed | EvClick, EvClick | EvQuit, EvQuit => true
  | EvGet u, EvGet v => String.eqb u v
  | EvScript u, EvScript v => String.eqb u v
  | EvFindElements u, EvFindElements v => String.eqb u v
  | _, _ => false
  end.

Section Session.
Context {D B : Type}.
Variable driver : WebDriver D B.

(** A running session: the state of the browser and the calls so far. *)
Record session : Type := mkSession {
  browser : D;
  trace : list event
}.

(** A computation on the session.  [None] means that the fuel of a loop
    ran out before the computation ended; an exception leaves the
    session as it was when it was raised. *)
Definition Drv (A : Type) : Type := session -> option (result A * session).

Definition ret {A : Type} (a : A) : Drv A := fun s => Some (Ok a, s).

Definition lift {A : Type} (r : result A) : Drv A := fun s => Some (r, s).

Definition bindD {A C : Type} (c : Drv A) (k : A -> Drv C) : Drv C :=
  fun s =>
    match c s with
    | None => None
    | Some (Ok a, s') => k a s'
    | Some (Raise e, s') => Some (Raise e, s')
    end.

Definition catchD {A : Type} (c : Drv A) (h : exn -> Drv A) : Drv A :=
  fun s =>
    match c s with
    | Some (Raise e, s') => h e s'
    | r => r
    end.

(** A call on the session, recorded in the trace. *)
Definition call {A : Type} (ev : event) (op : D -> result A * D) : Drv A :=
  fun s =>
    let '(r, d) := op (browser s) in
    Some (r, mkSession d (trace s ++ [ev])).

Definition get (url : string) : Drv unit :=
  call (EvGet url) (drv_get driver url).
Definition execute_script (script : string) (arg : option B) : Drv unit :=
  call (EvScript script) (drv_execute_script driver script arg).
Definition driver_title : Drv unit :=
  call EvTitle (drv_title driver).
Definition wait_presence (xpath : string) : Drv B :=
  call EvWait (drv_wait_presence driver xpath).
Definition is_displayed (b : B) : Drv bool :=
  call EvIsDisplayed (drv_is_displayed driver b).
Definition click (b : B) : Drv unit :=
  call EvClick (drv_click driver b).
Definition driver_find_elements (sel : string) : Drv (list WebElement) :=
  call (EvFindElements sel) (drv_find_elements driver sel).
Definition quit : Drv unit :=
  call EvQuit (drv_quit driver).

(** ** scraper.py: scroll_and_click_load_more *)

Definition load_more_xpath : string :=
  "//a[@href='#' and @target='_self'][.//div[contains(@class, 'fr-load-more')]]".

(** How one pass through the [try] statement ends. *)
Inductive step : Type :=
| Break (load_more_count : nat)
| Continue (load_more_count : nat)
| Next (load_more_count : nat).

Notation "x <- c ;; k" := (bindD c (fun x => k))
  (at level 61, c at next level, right associativity).

(** Lines 99-128: the [try] statement of the loop body. *)
Definition try_load_more (load_more_count : nat) : Drv step :=
  catchD
    (load_more_button <- wait_presence load_more_xpath ;;
     _ <- is_displayed load_more_button ;;
     displayed <- is_displayed load_more_button ;;
     if negb displayed then ret (Break load_more_count)
     else
       _ <- execute_script "arguments[0].scrollIntoView();"
              (Some load_more_button) ;;
       _ <- click load_more_button ;;
       ret (Next (load_more_count + 1)))
    (fun e =>
       match e with
       | TimeoutException => ret (Break load_more_count)
       | NoSuchElementException => ret (Break load_more_count)
       | StaleElementReferenceException => ret (Continue load_more_count)
       | _ => ret (Break load_more_count)
       end).

(** Lines 89-132: the [while True] loop, with [fuel] bounding the number
    of passes.  The Python function returns [None]; the model returns the
    value of [load_more_count] when the loop is left. *)
Fixpoint load_more_loop (fuel : nat) (load_more_count : nat) : Drv nat :=
  match fuel with
  | O => fun _ => None
  | S fuel' =>
      _ <- execute_script
             "window.scrollTo(0, document.body.scrollHeight);" None ;;
      _ <- execute_script "return document.body.scrollHeight" None ;;
      r <- try_load_more load_more_count ;;
      match r with
      | Break n => ret n
      | Continue n => load_more_loop fuel' n
      | Next n => load_more_loop fuel' n
      end
  end.

Definition scroll_and_click_load_more (fuel : nat) : Drv nat :=
  load_more_loop fuel 0.

(** ** scraper.py: scrape_uniqlo_women_tops *)

(** Lines 274-301, once the session exists. *)
Definition scrape_session (fuel : nat) (url : string)
  : Drv (list ProductInfo) :=
  _ <- get url ;;
  _ <- execute_script "return document.body.scrollHeight" None ;;
  _ <- driver_title ;;
  _ <- scroll_and_click_load_more fuel ;;
  product_list <- driver_find_elements "article.fr-grid-item.w4" ;;
  products <- lift (collect_products product_list url) ;;
  _ <- quit ;;
  ret products.

(** [scrape_uniqlo_women_tops(url)]: what is returned or raised, and the
    calls made on the session; [None] when the fuel ran out. *)
Definition scrape_uniqlo_women_tops (fuel : nat) (url : string)
  : option (result (list ProductInfo) * list event) :=
  match is_allowed url with
  | Raise e => Some (Raise e, [])
  | Ok false => Some (Ok [], [])
  | Ok true =>
      match drv_setup driver with
      | Raise e => Some (Raise e, [])
      | Ok d =>
          match scrape_session fuel url (mkSession d [EvSetup]) with
          | None => None
          | Some (r, s) => Some (r, trace s)
          end
      end
  end.

End Session.

(** ** Python values written to the files

    The values that a product dictionary holds: [None], an [int] that is
    not negative, a [str], and a [list] of such values.  A dictionary is
    the list of its items in insertion order; its keys are distinct. *)
#[local] Unset Elimination Schemes.
Inductive pyval : Type :=
| PNone
| PInt (n : nat)
| PStr (s : string)
| PList (l : list pyval).
#[local] Set Elimination Schemes.

Definition pydict : Type := list (string * pyval).

Definition of_optional (v : option string) : pyval :=
  match v with
  | Some s => PStr s
  | None => PNone
  end.

(** The dictionary literal of lines 236-248, for a record of the model. *)
Definition as_dict (p : ProductInfo) : pydict :=
  [ ("product_id", PStr (product_id p));
    ("title", PStr (title p));
    ("image", of_optional (image p));
    ("color_options", PInt (color_options p));
    ("size_info", PStr (size_info p));
    ("original_price", of_optional (original_price p));
    ("sale_price", of_optional (sale_price p));
    ("discount", of_optional (discount p));
    ("limited_offer", of_optional (limited_offer p));
    ("additional_info", PList (map PStr (additional_info p)));
    ("product_url", PStr (product_url p)) ].

(** [d.keys()] and [d.get(key, default)] *)
Definition dict_keys (d : pydict) : list string := map fst d.

Fixpoint dict_get (d : pydict) (key : string) (default : pyval) : pyval :=
  match d with
  | [] => default
  | (k, v) :: d' => if String.eqb k key then v else dict_get d' key default
  end.

Module PyRepr.

Definition backslash : ascii := ascii_of_nat 92.
Definition apostrophe : ascii := ascii_of_nat 39.
Definition double_quote : ascii := ascii_of_nat 34.

Definition str1 (c : ascii) : string := String c EmptyString.

(** One lower-case hexadecimal digit. *)
Definition hex_digit (n : nat) : ascii :=
  if n <? 10 then ascii_of_nat (48 + n) else ascii_of_nat (87 + n).

(** [format(n, "02x")] for a code point below 256. *)
Definition hex2 (n : nat) : string :=
  String (hex_digit (n / 16)) (String (hex_digit (n mod 16)) EmptyString).

(** [repr(n)] and [str(n)] for an [int] that is not negative. *)
Definition of_nat (n : nat) : string :=
  DecimalString.NilZero.string_of_uint (Nat.to_uint n).

(** [str.isprintable] on the code points from 128 to 255: all but the
    C1 controls, the no-break space and the soft hyphen. *)
Definition printable_high (n : nat) : bool :=
  (160 <? n) && negb (n =? 173).

(** [unicode_repr]: the quote is the apostrophe unless the string holds
    an apostrophe and no double quote. *)
Definition quote_of (s : string) : ascii :=
  if PyStr.char_in apostrophe s && negb (PyStr.char_in double_quote s)
  then double_quote else apostrophe.

Definition repr_char (q c : ascii) : string :=
  let n := PyStr.code c in
  if Ascii.eqb c q || Ascii.eqb c backslash then String backslash (str1 c)
  else if n =? 9 then String backslash "t"
  else if n =? 10 then String backslash "n"
  else if n =? 13 then String backslash "r"
  else if (n <? 32) || (n =? 127) then String backslash ("x" +++ hex2 n)
  else if n <? 127 then str1 c
  else if printable_high n then str1 c
  else String backslash ("x" +++ hex2 n).

Fixpoint repr_chars (q : ascii) (s : string) : string :=
  match s with
  | EmptyString => EmptyString
  | String c s' => repr_char q c +++ repr_chars q s'
  end.

(** [repr(s)] for a [str]. *)
Definition of_str (s : string) : string :=
  let q := quote_of s in
  String q (repr_chars q s +++ str1 q).

(** [repr(v)]; a list shows the [repr] of its elements. *)
Fixpoint repr (v : pyval) : string :=
  match v with
  | PNone => "None"
  | PInt n => of_nat n
  | PStr s => of_str s
  | PList l => "[" +++ PyStr.join ", " (map repr l) +++ "]"
  end.

(** [str(v)] *)
Definition str (v : pyval) : string :=
  match v with
  | PStr s => s
  | _ => repr v
  end.

End PyRepr.

(** ** json.dump with [ensure_ascii=False] and [indent=4]

    The encoder with an indent is the one of [json/encoder.py]
    ([_make_iterencode]); the text is the concatenation of the chunks it
    yields.  The separators are [","] and [": "]. *)
Module Json.

(** [ESCAPE_DCT]: the two-character escapes, and [\u00xx] for the other
    control characters. *)
Definition escape_char (c : ascii) : string :=
  let n := PyStr.code c in
  if Ascii.eqb c PyRepr.double_quote
  then String PyRepr.backslash (PyRepr.str1 c)
  else if Ascii.eqb c PyRepr.backslash
  then String PyRepr.backslash (PyRepr.str1 c)
  else if n =? 8 then String PyRepr.backslash "b"
  else if n =? 9 then String PyRepr.backslash "t"
  else if n =? 10 then String PyRepr.backslash "n"
  else if n =? 12 then String PyRepr.backslash "f"
  else if n =? 13 then String PyRepr.backslash "r"
  else if n <? 32 then String PyRepr.backslash ("u00" +++ PyRepr.hex2 n)
  else PyRepr.str1 c.

Fixpoint escape (s : string) : string :=
  match s with
  | EmptyString => EmptyString
  | String c s' => escape_char c +++ escape s'
  end.

(** [encode_basestring(s)] *)
Definition encode_basestring (s : string) : string :=
  String PyRepr.double_quote (escape s +++ PyRepr.str1 PyRepr.double_quote).

Fixpoint spaces (n : nat) : string :=
  match n with
  | O => EmptyString
  | S k => String " " (spaces k)
  end.

(** ['\n' + indent * level] *)
Definition newline_indent (level : nat) : string :=
  String (ascii_of_nat 10) (spaces (4 * level)).

(** [_iterencode] at the current indent level, for a value. *)
Fixpoint iterencode (level : nat) (v : pyval) : string :=
  match v with
  | PNone => "null"
  | PInt n => PyRepr.of_nat n
  | PStr s => encode_basestring s
  | PList [] => "[]"
  | PList l =>
      "[" +++ newline_indent (S level)
      +++ PyStr.join ("," +++ newline_indent (S level))
            (map (iterencode (S level)) l)
      +++ newline_indent level +++ "]"
  end.

Definition iterencode_item (level : nat) (item : string * pyval) : string :=
  encode_basestring (fst item) +++ ": " +++ iterencode level (snd item).

(** [_iterencode_dict] *)
Definition iterencode_dict (level : nat) (d : pydict) : string :=
  match d with
  | [] => "{}"
  | _ =>
      "{" +++ newline_indent (S level)
      +++ PyStr.join ("," +++ newline_indent (S level))
            (map (iterencode_item (S level)) d)
      +++ newline_indent level +++ "}"
  end.

(** [json.dumps(products, ensure_ascii=False, indent=4)] for a list of
    dictionaries. *)
Definition dumps (products : list pydict) : string :=
  match products with
  | [] => "[]"
  | _ =>
      "[" +++ newline_indent 1
      +++ PyStr.join ("," +++ newline_indent 1)
            (map (iterencode_dict 1) products)
      +++ newline_indent 0 +++ "]"
  end.

End Json.

(** ** csv.DictWriter with the default dialect

    The dialect is [excel]: the delimiter is a comma, the quote character
    the double quote, doubled inside a quoted field; a field is quoted
    when it must be ([QUOTE_MINIMAL]); a line ends in CR LF. *)
Module Csv.

Definition lineterminator : string :=
  String (ascii_of_nat 13) (String (ascii_of_nat 10) EmptyString).

(** The text of a field: nothing for [None], the string itself for a
    [str], [str(v)] for the rest. *)
Definition field_text (v : pyval) : string :=
  match v with
  | PNone => EmptyString
  | _ => PyRepr.str v
  end.

(** The characters that force the quotes: the delimiter, the quote
    character and the characters of the line terminator. *)
Definition special (c : ascii) : bool :=
  let n := PyStr.code c in
  (n =? 44) || (n =? 34) || (n =? 13) || (n =? 10).

Definition needs_quotes (f : string) : bool :=
  existsb special (list_ascii_of_string f).

Fixpoint double_quotes (f : string) : string :=
  match f with
  | EmptyString => EmptyString
  | String c f' =>
      if Ascii.eqb c PyRepr.double_quote
      then String c (String c (double_quotes f'))
      else String c (double_quotes f')
  end.

Definition quoted (f : string) : string :=
  String PyRepr.double_quote
    (double_quotes f +++ PyRepr.str1 PyRepr.double_quote).

Definition field (f : string) : string :=
  if needs_quotes f then quoted f else f.

(** [writer.writerow(row)]: the line written.  A row whose only field is
    empty is written as a pair of quotes. *)
Definition writerow (row : list pyval) : string :=
  let rec := PyStr.join "," (map (fun v => field (field_text v)) row) in
  (if (0 <? length row) && (String.length rec =? 0)
   then quoted EmptyString else rec)
  +++ lineterminator.

(** [DictWriter._dict_to_list]: a key of the row that is no field name
    raises [ValueError]; a field name that the row lacks gives the empty
    string. *)
Definition dict_to_list (fieldnames : list string) (rowdict : pydict)
  : result (list pyval) :=
  if existsb (fun k => negb (PyStr.mem k fieldnames)) (dict_keys rowdict)
  then Raise ValueError
  else Ok (map (fun key => dict_get rowdict key (PStr EmptyString)) fieldnames).

(** [DictWriter.writeheader] *)
Definition writeheader (fieldnames : list string) : string :=
  writerow (map PStr fieldnames).

(** [DictWriter.writerows]: the lines written, and how the call ends.
    The rows are converted one by one: the lines of the rows before one
    that raises are written. *)
Fixpoint writerows (fieldnames : list string) (rowdicts : list pydict)
  : string * result unit :=
  match rowdicts with
  | [] => (EmptyString, Ok tt)
  | rowdict :: rest =>
      match dict_to_list fieldnames rowdict with
      | Raise e => (EmptyString, Raise e)
      | Ok row =>
          let '(text, r) := writerows fieldnames rest in
          (writerow row +++ text, r)
      end
  end.

End Csv.

(** ** scraper.py: save_to_csv and save_to_json

    Each function is given by the text it writes to the file it opens,
    the file being replaced by that text, and by how the call ends.
    [None] stands for no file opened.  The text is the one handed to the
    text layer of the file, before its encoding to UTF-8. *)
Definition save_to_csv (products : list pydict)
  : option string * result unit :=
  match products with
  | [] => (None, Ok tt)
  | first :: _ =>
      let fieldnames := dict_keys first in
      let '(text, r) := Csv.writerows fieldnames products in
      (Some (Csv.writeheader fieldnames +++ text), r)
  end.

Definition save_to_json (products : list pydict) : option string :=
  match products with
  | [] => None
  | _ => Some (Json.dumps products)
  end.

(** ** scraper.py: the script

    Lines 340-356.  A run ends with the checks passed, with a failed
    [assert] or with an exception that nothing catches; it leaves the
    files written, in order, and the calls made on the browser session. *)
Inductive run_end : Type :=
| ChecksPassed
| AssertionError (message : string)
| Uncaught (e : exn).

Definition entry_url : string :=
  "https://www.uniqlo.com/my/en/women/tops/tops-collections".

(** [key in p] *)
Definition has_key (key : string) (p : pydict) : bool :=
  PyStr.mem key (dict_keys p).

(** The final sanity checks, lines 350-355. *)
Definition sanity_checks (products : list pydict) : run_end :=
  if negb (0 <? length products)
  then AssertionError "No products were scraped"
  else if negb (forallb (has_key "product_id") products)
  then AssertionError "Some products are missing product_id"
  else if negb (forallb (has_key "title") products)
  then AssertionError "Some products are missing title"
  else if negb (forallb (has_key "image") products)
  then AssertionError "Some products are missing image URL"
  else ChecksPassed.

(** The file that a sink leaves, if it opened one. *)
Definition written (filename : string) (text : option string)
  : list (string * string) :=
  match text with
  | Some t => [(filename, t)]
  | None => []
  end.

Definition main {D B : Type} (driver : WebDriver D B) (fuel : nat)
  : option (run_end * list (string * string) * list event) :=
  match scrape_uniqlo_women_tops driver fuel entry_url with
  | None => None
  | Some (Raise e, calls) => Some (Uncaught e, [], calls)
  | Some (Ok products, calls) =>
      let dicts := map as_dict products in
      let '(csv, r) := save_to_csv dicts in
      let files := written "uniqlo_women_tops.csv" csv in
      match r with
      | Raise e => Some (Uncaught e, files, calls)
      | Ok _ =>
          Some (sanity_checks dicts,
                files ++ written "uniqlo_women_tops.json" (save_to_json dicts),
                calls)
      end
  end.

(** ** Vocabulary of the properties *)

(** The first and the last character of a string, if any. *)
Definition first_char (s : string) : option ascii :=
  match s with
  | EmptyString => None
  | String c _ => Some c
  end.

Fixpoint last_char (s : string) : option ascii :=
  match s with
  | EmptyString => None
  | String c EmptyString => Some c
  | String _ s' => last_char s'
  end.

(** Every lookup of the extractor returned, and [info] holds what the
    lookups returned. *)
Definition extracted (product : WebElement) (base_url : string)
    (info : ProductInfo) : Prop :=
  extract_product_id product = Ok (product_id info)
  /\ extract_image product = Ok (image info)
  /\ extract_color_options product = Ok (color_options info)
  /\ extract_title product = Ok (title info)
  /\ extract_size_info product = Ok (size_info info)
  /\ extract_prices product = Ok (original_price info, sale_price info)
  /\ (exists d,
         compute_discount (original_price info) (sale_price info) = Ok d
         /\ discount info = discount_field d)
  /\ extract_limited_offer product = Ok (limited_offer info)
  /\ extract_additional_info product = Ok (additional_info info)
  /\ extract_product_url product base_url = Ok (Some (product_url info)).

(** What one item contributes to the batch. *)
Definition contribution (url : string) (product : WebElement)
  : list ProductInfo :=
  match extract_product_info product url with
  | Ok (Some info) => [info]
  | _ => []
  end.

(** The discount field as the amended C2 words it: present exactly when
    both prices are present and parse as floats, and then the decimal
    rendering of [(original - sale) / original * 100] rounded to two
    places, followed by a percent sign. *)
Definition discount_spec (original sale : option string) : option string :=
  match original, sale with
  | Some o, Some s =>
      match price_float o, price_float s with
      | Ok fo, Ok fs =>
          Some (PyFloat.repr
                  (PyFloat.round2
                     (PyFloat.mul
                        (SFdiv PyFloat.prec PyFloat.emax
                           (PyFloat.sub fo fs) fo)
                        PyFloat.hundred))
                +++ "%")
      | _, _ => None
      end
  | _, _ => None
  end.

(** [v] is the trimmed text of the last of [spans], [None] without spans. *)
Definition last_span_text (spans : list WebElement) (v : option string)
  : Prop :=
  (spans = [] /\ v = None)
  \/ (exists front x t,
         spans = front ++ [x] /\ text x = Ok t /\ v = Some (PyStr.strip t)).

(** An empty string counts as absent. *)
Definition empty_to_none (v : option string) : option string :=
  match v with
  | Some EmptyString => None
  | _ => v
  end.

(** The classes of the swatches [tips] are [classes], in order. *)
Definition swatch_classes (tips : list WebElement) (classes : list string)
  : Prop :=
  Forall2 (fun tip c => get_attribute tip "class" = Ok (Some c)) tips classes.

(** A class carries the "extra" marker. *)
Definition carries_extra (class : string) : bool :=
  PyStr.contains "extra" class.

(** The path starts with one of the disallowed prefixes. *)
Definition starts_with_disallowed (path : string) : Prop :=
  exists disallowed rest,
    In disallowed disallowed_paths /\ path = disallowed +++ rest.

(** Every script call on the session returns. *)
Definition scripts_succeed {D B : Type} (driver : WebDriver D B) : Prop :=
  forall script arg d, fst (drv_execute_script driver script arg d) = Ok tt.


(** A computation on the session that does not call [driver.quit()]. *)
Definition quiet {D A : Type} (c : @Drv D A) : Prop :=
  forall s r s',
    c s = Some (r, s') ->
    exists calls, trace s' = trace s ++ calls /\ ~ In EvQuit calls.

(** A computation on the session that ends with the call of
    [driver.quit()], unless an exception leaves it before that call. *)
Definition releases {D A : Type} (c : @Drv D A) : Prop :=
  forall s r s',
    c s = Some (r, s') ->
    exists calls,
      ~ In EvQuit calls
      /\ (trace s' = trace s ++ calls ++ [EvQuit]
          \/ (trace s' = trace s ++ calls /\ exists e, r = Raise e)).

(** ** Sample pages and sessions

    Concrete elements and browser sessions on which the functions above
    are run in the examples. *)

Fixpoint assoc {A : Type} (k : string) (l : list (string * A)) : option A :=
  match l with
  | [] => None
  | (k', v) :: l' => if String.eqb k k' then Some v else assoc k l'
  end.

(** An element with the given text, attributes and descendants by selector. *)
Definition element (t : string) (attrs : list (string * string))
    (children : list (string * list WebElement)) : WebElement :=
  mkElement (Ok t)
    (fun name => Ok (assoc name attrs))
    (fun sel => Ok (match assoc sel children with
                    | Some l => l
                    | None => []
                    end)).

Definition span (t : string) : WebElement := element t [] [].

Definition color_tip (class : string) : WebElement :=
  element EmptyString [("class", class)] [].

Definition price_box (original limited : list string) : WebElement :=
  element EmptyString
    [("class", "fr-product-price")]
    [(".price-original .fr-price-currency span", map span original);
     (".price-limited .fr-price-currency span", map span limited)].

Definition flag_item (t data_test : string) : WebElement :=
  element t [("data-test", data_test)] [].

(** A product card put together from its parts. *)
Definition card (attrs : list (string * string))
    (imgs tips titles sizes prices offers flags anchors : list WebElement)
  : WebElement :=
  element EmptyString attrs
    [(".fr-product-image img", imgs);
     (".color-tips .color-tip", tips);
     ("h2.description", titles);
     ("[data-test=" +++ dquote +++ "product-card-size" +++ dquote +++ "]",
      sizes);
     (".fr-product-price", prices);
     (".fr-status-flag-text[data-test^='limited-offer-from']", offers);
     ("ul.fr-status-flag li", flags);
     ("a", anchors)].

Definition sample_url : string :=
  "https://www.uniqlo.com/my/en/women/tops/tops-collections".

Definition sample_img : WebElement :=
  element EmptyString [("src", "https://image.uniqlo.com/UQ/ST3/465755/item.jpg")] [].

Definition sample_tips : list WebElement :=
  [color_tip "color-tip"; color_tip "color-tip"; color_tip "color-tip extra"].

Definition sample_anchor : WebElement :=
  element EmptyString
    [("href", "https://www.uniqlo.com/my/en/products/E465755-000")] [].

Definition sample_offer : WebElement :=
  element " Limited Offer From 1 Jan "
    [("data-test", "limited-offer-from")] [].

Definition sample_flags : list WebElement :=
  [flag_item "Limited Offer From 1 Jan" "limited-offer-from";
   flag_item " New " "new-flag";
   flag_item "Online Only" "online-only-flag"].

(** A complete card: original price RM100.00, sale price RM75.00. *)
Definition sample_card : WebElement :=
  card [("data-test", "product-card-E465755-000")]
    [sample_img] sample_tips [span " AIRism Cotton T-Shirt "]
    [span "XS-XXL"] [price_box ["RM100.00"] ["RM75.00"]]
    [sample_offer] sample_flags [sample_anchor].

(** The same card without a sale price. *)
Definition card_no_sale : WebElement :=
  card [("data-test", "product-card-E465755-000")]
    [sample_img] sample_tips [span " AIRism Cotton T-Shirt "]
    [span "XS-XXL"] [price_box ["RM100.00"] []]
    [] [] [sample_anchor].



(** The same card without the title element. *)
Definition card_no_title : WebElement :=
  card [("data-test", "product-card-E465755-000")]
    [sample_img] sample_tips []
    [span "XS-XXL"] [price_box ["RM100.00"] ["RM75.00"]]
    [sample_offer] sample_flags [sample_anchor].

(** The same card without the price container. *)
Definition card_no_price : WebElement :=
  card [("data-test", "product-card-E465755-000")]
    [sample_img] sample_tips [span " AIRism Cotton T-Shirt "]
    [span "XS-XXL"] []
    [sample_offer] sample_flags [sample_anchor].

(** The same card with a flag item that has no [data-test] attribute. *)
Definition card_bare_flag : WebElement :=
  card [("data-test", "product-card-E465755-000")]
    [sample_img] sample_tips [span " AIRism Cotton T-Shirt "]
    [span "XS-XXL"] [price_box ["RM100.00"] ["RM75.00"]]
    [sample_offer] [flag_item " New " "new-flag"; element "Sale" [] []]
    [sample_anchor].

(** The same card without colour swatches. *)
Definition card_no_tips : WebElement :=
  card [("data-test", "product-card-E465755-000")]
    [sample_img] [] [span " AIRism Cotton T-Shirt "]
    [span "XS-XXL"] [price_box ["RM100.00"] ["RM75.00"]]
    [sample_offer] sample_flags [sample_anchor].

(** The same card with a sale price of blanks only. *)
Definition card_blank_sale : WebElement :=
  card [("data-test", "product-card-E465755-000")]
    [sample_img] sample_tips [span " AIRism Cotton T-Shirt "]
    [span "XS-XXL"] [price_box ["RM120.00"; " RM100.00 "] ["RM75.00"; "  "]]
    [sample_offer] sample_flags [sample_anchor].

(** The same card whose link leads to a disallowed path. *)
Definition card_disallowed : WebElement :=
  card [("data-test", "product-card-E465755-000")]
    [sample_img] sample_tips [span " AIRism Cotton T-Shirt "]
    [span "XS-XXL"] [price_box ["RM100.00"] ["RM75.00"]]
    [sample_offer] sample_flags
    [element EmptyString [("href", "/my/en/cms/campaign")] []].

(** The record of [sample_card]. *)
Definition sample_info : ProductInfo :=
  mkProductInfo "E465755-000" "AIRism Cotton T-Shirt"
    (Some "https://image.uniqlo.com/UQ/ST3/465755/item.jpg") 2 "XS-XXL"
    (Some "RM100.00") (Some "RM75.00") (Some "25.0%")
    (Some "Limited Offer From 1 Jan") ["New"; "Online Only"]
    "https://www.uniqlo.com/my/en/products/E465755-000".

(** Sessions whose state counts the clicks on the load-more control.  The
    control is found and displayed while fewer than [pages] clicks were
    made; after that the wait for it times out ([hidden = false]) or it is
    found but not displayed ([hidden = true]).  [get_fails] makes the
    navigation raise. *)
Definition sample_driver (pages : nat) (hidden get_fails : bool)
    (products : list WebElement) : WebDriver nat unit :=
  mkWebDriver nat unit
    (Ok 0)
    (fun _ d => (if get_fails then Raise WebDriverException else Ok tt, d))
    (fun _ _ d => (Ok tt, d))
    (fun d => (Ok tt, d))
    (fun _ d =>
       (if (d <? pages) || hidden then Ok tt else Raise TimeoutException, d))
    (fun _ d => (Ok (d <? pages), d))
    (fun _ d => (Ok tt, S d))
    (fun _ d => (Ok products, d))
    (fun d => (Ok tt, d)).

(** The calls of a run on a page without load-more control and without
    products. *)
Definition sample_calls : list event :=
  [EvSetup; EvGet sample_url; EvScript "return document.body.scrollHeight";
   EvTitle; EvScript "window.scrollTo(0, document.body.scrollHeight);";
   EvScript "return document.body.scrollHeight"; EvWait;
   EvFindElements "article.fr-grid-item.w4"; EvQuit].

(** ** Vocabulary of the further properties *)

(** The two scripts that the reveal loop runs outside its [try] block. *)
Definition scroll_script : string :=
  "window.scrollTo(0, document.body.scrollHeight);".
Definition height_script : string := "return document.body.scrollHeight".

(** The number of [click()] calls among [calls]. *)
Definition clicks (calls : list event) : nat :=
  List.length (filter (event_eqb EvClick) calls).

(** Every [click()] on the session returns. *)
Definition clicks_succeed {D B : Type} (driver : WebDriver D B) : Prop :=
  forall b d, fst (drv_click driver b d) = Ok tt.

(** The load-more control is always found, and asking whether it is
    displayed always raises [StaleElementReferenceException]. *)
Definition control_always_stale {D B : Type} (driver : WebDriver D B)
  : Prop :=
  forall d,
    exists b,
      fst (drv_wait_presence driver load_more_xpath d) = Ok b
      /\ forall d',
           fst (drv_is_displayed driver b d')
           = Raise StaleElementReferenceException.

(** The load-more control is always found and always displayed. *)
Definition control_always_visible {D B : Type} (driver : WebDriver D B)
  : Prop :=
  forall d,
    exists b,
      fst (drv_wait_presence driver load_more_xpath d) = Ok b
      /\ forall d', fst (drv_is_displayed driver b d') = Ok true.

(** A session on which the control is always found; [is_displayed()]
    raises [StaleElementReferenceException] when [stale] is set and answers
    [True] otherwise. *)
Definition endless_driver (stale : bool) : WebDriver nat unit :=
  mkWebDriver nat unit
    (Ok 0)
    (fun _ d => (Ok tt, d))
    (fun _ _ d => (Ok tt, d))
    (fun d => (Ok tt, d))
    (fun _ d => (Ok tt, d))
    (fun _ d =>
       (if stale then Raise StaleElementReferenceException else Ok true, d))
    (fun _ d => (Ok tt, S d))
    (fun _ d => (Ok [], d))
    (fun d => (Ok tt, d)).

(** A session whose scripts raise once the control was clicked. *)
Definition crashing_driver : WebDriver nat unit :=
  mkWebDriver nat unit
    (Ok 0)
    (fun _ d => (Ok tt, d))
    (fun _ _ d => (if 0 <? d then Raise WebDriverException else Ok tt, d))
    (fun d => (Ok tt, d))
    (fun _ d => (Ok tt, d))
    (fun _ d => (Ok true, d))
    (fun _ d => (Ok tt, S d))
    (fun _ d => (Ok [], d))
    (fun d => (Ok tt, d)).

(** A string without white space at either end. *)
Definition trimmed (s : string) : Prop :=
  (forall c, first_char s = Some c -> PyStr.isspace c = false)
  /\ (forall c, last_char s = Some c -> PyStr.isspace c = false).

(** A flag item that is kept as an additional tag: it has a [data-test]
    attribute without "limited-offer" in it. *)
Definition keeps_flag (item : WebElement) : bool :=
  match get_attribute item "data-test" with
  | Ok (Some data_test) => negb (PyStr.contains "limited-offer" data_test)
  | _ => false
  end.

(** A card with an original price of zero. *)
Definition card_free : WebElement :=
  card [("data-test", "product-card-E465755-000")]
    [sample_img] sample_tips [span "Gift"] [span "One size"]
    [price_box ["RM0.00"] ["RM5.00"]] [] [] [sample_anchor].

(** A card whose sale price equals its original price. *)
Definition card_same_price : WebElement :=
  card [("data-test", "product-card-E465755-000")]
    [sample_img] sample_tips [span " AIRism Cotton T-Shirt "]
    [span "XS-XXL"] [price_box ["RM59.90"] ["RM 59.90"]]
    [] sample_flags [sample_anchor].

(** The site of the scraper. *)
Definition site : string := "https://www.uniqlo.com".

(** A path prefix that starts with a slash and holds none of the
    characters that end a path or that [urlsplit] removes. *)
Definition clean_path (d : string) : bool :=
  String.prefix "/" d
  && PyStr.all_chars
       (fun c =>
          negb (PyStr.char_in c "#?;") && negb (Urllib.unsafe_url_byte c))
       d.

(** [P a] can be read back from the front of a text: followed by a rest
    that [ok] admits, it determines [a] and the rest. *)
Definition delimited {A : Type} (ok : string -> Prop) (P : A -> string)
  (a : A) : Prop :=
  forall b r1 r2, ok r1 -> ok r2 -> P a +++ r1 = P b +++ r2 ->
                  a = b /\ r1 = r2.

(** The rest does not go on with a character of the class [p]. *)
Definition stops (p : ascii -> bool) (r : string) : Prop :=
  match r with
  | EmptyString => True
  | String c _ => p c = false
  end.

Definition any_rest (r : string) : Prop := True.

(** The value of a lower-case hexadecimal digit. *)
Definition hex_value (c : ascii) : option nat :=
  let n := PyStr.code c in
  if PyStr.is_digit c then Some (n - 48)
  else if (97 <=? n) && (n <=? 102) then Some (n - 87)
  else None.

(** Reads one character of the body of a JSON string: [None] at the
    closing quote and on what the encoder never writes. *)
Definition json_read1 (s : string) : option (ascii * string) :=
  match s with
  | EmptyString => None
  | String c s' =>
      if Ascii.eqb c PyRepr.double_quote then None
      else if Ascii.eqb c PyRepr.backslash then
        match s' with
        | String "u" (String "0" (String "0" (String h (String l r)))) =>
            match hex_value h, hex_value l with
            | Some x, Some y => Some (ascii_of_nat (16 * x + y), r)
            | _, _ => None
            end
        | String "b" r => Some (ascii_of_nat 8, r)
        | String "t" r => Some (ascii_of_nat 9, r)
        | String "n" r => Some (ascii_of_nat 10, r)
        | String "f" r => Some (ascii_of_nat 12, r)
        | String "r" r => Some (ascii_of_nat 13, r)
        | String e r => Some (e, r)
        | EmptyString => None
        end
      else Some (c, s')
  end.

(** Reads one character of the body of a [repr] between quotes [q]. *)
Definition repr_read1 (q : ascii) (s : string) : option (ascii * string) :=
  match s with
  | EmptyString => None
  | String c s' =>
      if Ascii.eqb c q then None
      else if Ascii.eqb c PyRepr.backslash then
        match s' with
        | String "x" (String h (String l r)) =>
            match hex_value h, hex_value l with
            | Some x, Some y => Some (ascii_of_nat (16 * x + y), r)
            | _, _ => None
            end
        | String "t" r => Some (ascii_of_nat 9, r)
        | String "n" r => Some (ascii_of_nat 10, r)
        | String "r" r => Some (ascii_of_nat 13, r)
        | String e r => Some (e, r)
        | EmptyString => None
        end
      else Some (c, s')
  end.

(** The kind of value that the first character of a JSON text announces,
    and the kind of a value. *)
Definition kind_of_char (c : ascii) : nat :=
  if Ascii.eqb c "n" then 0
  else if PyStr.is_digit c then 1
  else if Ascii.eqb c PyRepr.double_quote then 2
  else 3.

Definition kind (v : pyval) : nat :=
  match v with
  | PNone => 0
  | PInt _ => 1
  | PStr _ => 2
  | PList _ => 3
  end.

(** What follows a field in a CSV line: the delimiter or the line
    terminator. *)
Definition after_field (r : string) : Prop :=
  match r with
  | EmptyString => False
  | String c _ =>
      Csv.special c = true /\ Ascii.eqb c PyRepr.double_quote = false
  end.

Definition plain (c : ascii) : bool := negb (Csv.special c).

(** The texts of the fields of a row. *)
Definition field_texts (row : list pyval) : list string :=
  map Csv.field_text row.

(** The record with every optional text that is empty made absent. *)
Definition absent_if_empty (p : ProductInfo) : ProductInfo :=
  mkProductInfo (product_id p) (title p) (empty_to_none (image p))
    (color_options p) (size_info p) (empty_to_none (original_price p))
    (empty_to_none (sale_price p)) (empty_to_none (discount p))
    (empty_to_none (limited_offer p)) (additional_info p) (product_url p).

(** The header line of the CSV file and the line of a record. *)
Definition csv_header : string :=
  "product_id,title,image,color_options,size_info,original_price,"
  +++ "sale_price,discount,limited_offer,additional_info,product_url"
  +++ Csv.lineterminator.

Definition csv_line (p : ProductInfo) : string :=
  Csv.writerow (map snd (as_dict p)).

Fixpoint csv_lines (ps : list ProductInfo) : string :=
  match ps with
  | [] => EmptyString
  | p :: ps' => csv_line p +++ csv_lines ps'
  end.

(** The two files of a run that scraped [products]. *)
Definition files_of (products : list ProductInfo) : list (string * string) :=
  [("uniqlo_women_tops.csv", csv_header +++ csv_lines products);
   ("uniqlo_women_tops.json", Json.dumps (map as_dict products))].

(** A computation on the session whose calls, taken together, satisfy
    [Q]. *)
Definition traces {D A : Type} (Q : list event -> Prop) (c : @Drv D A)
  : Prop :=
  forall s r s',
    c s = Some (r, s') -> exists calls, trace s' = trace s ++ calls /\ Q calls.

(** A call that neither opens a session nor navigates. *)
Definition stays_on_page (ev : event) : Prop :=
  match ev with
  | EvSetup | EvGet _ => False
  | _ => True
  end.

(** The calls that come before a click on the load-more control. *)
Definition click_prelude : list event :=
  [EvWait; EvIsDisplayed; EvIsDisplayed;
   EvScript "arguments[0].scrollIntoView();"].

(** Every click in [calls] comes right after the calls of
    [click_prelude]. *)
Definition clicks_prepared (calls : list event) : Prop :=
  forall before after,
    calls = before ++ EvClick :: after ->
    exists earlier, before = earlier ++ click_prelude.

(** The sample card whose link is an absolute URL of the site under a
    disallowed path. *)
Definition card_site_disallowed : WebElement :=
  card [("data-test", "product-card-E465755-000")]
    [sample_img] sample_tips [span " AIRism Cotton T-Shirt "]
    [span "XS-XXL"] [price_box ["RM100.00"] ["RM75.00"]]
    [sample_offer] sample_flags
    [element EmptyString
       [("href", "https://www.uniqlo.com/my/en/cms/campaign")] []].

(** * Properties *)

(** ** Python strings *)

Lemma prefix_append (p s : string) :
  String.prefix p s = true <-> exists rest, s = p +++ rest.
Proof.
  revert s. induction p as [| c p IH]; intros s; simpl.
  - split; [intros _; exists s; reflexivity |].
    intros _. destruct s; reflexivity.
  - destruct s as [| d s].
    + split; [discriminate | intros [rest H]; discriminate H].
    + simpl. destruct (ascii_dec c d) as [-> | Hne].
      * rewrite IH. split; intros [rest H]; exists rest.
        -- rewrite H. reflexivity.
        -- injection H as H. exact H.
      * split; [discriminate |].
        intros [rest H]. injection H as H _. congruence.
Qed.

(** [sub in s] holds exactly when [sub] occurs in [s]. *)
Lemma contains_occurs (sub s : string) :
  PyStr.contains sub s = true <-> exists pre post, s = pre +++ sub +++ post.
Proof.
  split.
  - induction s as [| c s IH].
    + cbn [PyStr.contains]. rewrite orb_false_r. intros H.
      apply prefix_append in H. destruct H as [rest H].
      exists EmptyString, rest. exact H.
    + cbn [PyStr.contains]. intros H. apply orb_true_iff in H.
      destruct H as [H | H].
      * apply prefix_append in H. destruct H as [rest H].
        exists EmptyString, rest. exact H.
      * destruct (IH H) as [pre [post E]].
        exists (String c pre), post. rewrite E. reflexivity.
  - intros [pre [post E]]. revert s E.
    induction pre as [| c pre IH]; intros s E.
    + assert (Hp : String.prefix sub s = true)
        by (apply prefix_append; exists post; exact E).
      destruct s; cbn [PyStr.contains]; rewrite Hp; reflexivity.
    + destruct s as [| d s]; [discriminate E |].
      injection E as -> E.
      cbn [PyStr.contains]. rewrite (IH s E). apply orb_true_r.
Qed.

Lemma lstrip_by_spec (p : ascii -> bool) (s : string) :
  (exists pre,
      s = pre +++ PyStr.lstrip_by p s /\ PyStr.all_chars p pre = true)
  /\ (forall c, first_char (PyStr.lstrip_by p s) = Some c -> p c = false).
Proof.
  induction s as [| c s [[pre [E Hpre]] Hfirst]]; simpl.
  - split; [exists EmptyString; split; reflexivity | discriminate].
  - destruct (p c) eqn:Hc.
    + split; [| exact Hfirst].
      exists (String c pre). split.
      * simpl. rewrite <- E. reflexivity.
      * unfold PyStr.all_chars in *. simpl. rewrite Hc, Hpre. reflexivity.
    + split; [exists EmptyString; split; reflexivity |].
      simpl. intros d [= <-]. exact Hc.
Qed.

Lemma rstrip_by_spec (p : ascii -> bool) (s : string) :
  (exists post,
      s = PyStr.rstrip_by p s +++ post /\ PyStr.all_chars p post = true)
  /\ (forall c, last_char (PyStr.rstrip_by p s) = Some c -> p c = false)
  /\ (forall c, first_char (PyStr.rstrip_by p s) = Some c ->
                first_char s = Some c).
Proof.
  induction s as [| c s [[post [E Hpost]] [Hlast Hfirst]]]; simpl.
  - split; [exists EmptyString; split; reflexivity |].
    split; discriminate.
  - destruct (PyStr.rstrip_by p s) as [| d r] eqn:Er.
    + destruct (p c) eqn:Hc.
      * split; [| split; discriminate].
        exists (String c post). split.
        -- simpl in E. rewrite <- E. reflexivity.
        -- unfold PyStr.all_chars in *. simpl. rewrite Hc, Hpost.
           reflexivity.
      * split; [| split].
        -- exists post. split; [| exact Hpost].
           simpl in *. rewrite <- E. reflexivity.
        -- simpl. intros d [= <-]. exact Hc.
        -- simpl. intros d H. exact H.
    + split; [| split].
      * exists post. split; [| exact Hpost].
        simpl in *. rewrite <- E. reflexivity.
      * intros e H. apply Hlast. simpl in *. exact H.
      * simpl. intros e H. exact H.
Qed.

(** [s.strip()] removes white space, and only white space, from both ends
    of [s] and leaves no white space at either end. *)
Lemma strip_trims (s : string) :
  (exists pre post,
      s = pre +++ PyStr.strip s +++ post
      /\ PyStr.all_chars PyStr.isspace pre = true
      /\ PyStr.all_chars PyStr.isspace post = true)
  /\ (forall c, first_char (PyStr.strip s) = Some c ->
                PyStr.isspace c = false)
  /\ (forall c, last_char (PyStr.strip s) = Some c ->
                PyStr.isspace c = false).
Proof.
  unfold PyStr.strip, PyStr.strip_by.
  destruct (lstrip_by_spec PyStr.isspace s) as [[pre [E Hpre]] Hfirst].
  destruct (rstrip_by_spec PyStr.isspace (PyStr.lstrip_by PyStr.isspace s))
    as [[post [E' Hpost]] [Hlast Hfirst']].
  split; [| split].
  - exists pre, post. split; [| split; assumption].
    rewrite <- E'. exact E.
  - intros c H. apply Hfirst, Hfirst', H.
  - exact Hlast.
Qed.

(** ** The result monad *)

Lemma bind_Ok_inv {A C : Type} (c : result A) (k : A -> result C) (v : C) :
  bind c k = Ok v -> exists a, c = Ok a /\ k a = Ok v.
Proof.
  destruct c as [a | e]; simpl; intros H.
  - exists a; split; [reflexivity | exact H].
  - discriminate H.
Qed.

(** ** extract_product_info: the item boundary *)

(** The handler of [extract_product_info] turns every exception of the
    body into "no record". *)
Lemma extract_product_info_total (product : WebElement) (base_url : string) :
  extract_product_info product base_url = Ok None \/
  exists info, extract_product_info product base_url = Ok (Some info).
Proof.
  unfold extract_product_info.
  destruct (extract_body product base_url) as [[info |] | e]; simpl.
  - right; exists info; reflexivity.
  - left; reflexivity.
  - left; reflexivity.
Qed.


Lemma extract_Some_body (product : WebElement) (base_url : string)
    (info : ProductInfo) :
  extract_product_info product base_url = Ok (Some info) <->
  extract_body product base_url = Ok (Some info).
Proof.
  unfold extract_product_info.
  destruct (extract_body product base_url) as [[i |] | e]; simpl;
    split; intros H; try discriminate H; exact H.
Qed.

(** A step of the body that raises makes the whole body raise or, when an
    earlier step raised first, raise earlier: in both cases there is no
    record. *)
Ltac no_record :=
  unfold extract_product_info, extract_body;
  repeat
    match goal with
    | H : ?c = Raise _ |- context [bind ?c _] => rewrite H; reflexivity
    | |- context [bind ?c _] =>
        let E := fresh "E" in
        destruct c as [? | ?] eqn:E; cbn [bind catch]; [| reflexivity]
    | |- context [let '(_, _) := ?p in _] => destruct p
    end.


Lemma price_container_missing (product : WebElement) :
  find_elements product ".fr-product-price" = Ok [] ->
  extract_prices product = Raise NoSuchElementException.
Proof.
  intros H. unfold extract_prices, find_element. rewrite H. reflexivity.
Qed.

(** ** The batch loop *)

Lemma collect_products_flat_map (product_list : list WebElement)
    (url : string) :
  collect_products product_list url
  = Ok (flat_map (contribution url) product_list).
Proof.
  induction product_list as [| product rest IH]; simpl.
  - reflexivity.
  - rewrite IH. unfold contribution.
    destruct (extract_product_info_total product url) as [E | [info E]];
      rewrite E; reflexivity.
Qed.



(** C9. An item element without a [.fr-product-price] container yields no
    record, whatever the rest of the element holds. *)
Theorem no_price_container_no_record (product : WebElement)
    (base_url : string) :
  find_elements product ".fr-product-price" = Ok [] ->
  extract_product_info product base_url = Ok None.
Proof.
  intros H. apply price_container_missing in H. no_record.
Qed.

Lemma no_price_container_no_record_witness :
  extract_product_info card_no_price sample_url = Ok None.
Proof.
  apply (no_price_container_no_record card_no_price sample_url).
  reflexivity.
Defined.

(** ** Flag items without a data-test attribute *)

Lemma additional_texts_bare_item (items : list WebElement) :
  (exists item, In item items /\ get_attribute item "data-test" = Ok None) ->
  exists e, additional_texts items = Raise e.
Proof.
  induction items as [| info rest IH]; intros [item [Hin Hattr]].
  - destruct Hin.
  - simpl.
    destruct (get_attribute info "data-test") as [dt | e] eqn:Edt;
      [| exists e; reflexivity].
    destruct dt as [dt |]; [| exists TypeError; reflexivity].
    cbn [bind not_in].
    destruct (if negb (PyStr.contains "limited-offer" dt)
              then bind (text info) (fun t => Ok [PyStr.strip t])
              else Ok []) as [here | e]; [| exists e; reflexivity].
    cbn [bind].
    destruct Hin as [-> | Hin]; [congruence |].
    destruct IH as [e He]; [exists item; split; assumption |].
    exists e. rewrite He. reflexivity.
Qed.

(** C10. When some promotional-flag list item has no [data-test]
    attribute, building the additional tags raises, and the handler at the
    item boundary turns this into "no record" for the whole item. *)
Theorem bare_flag_item_drops_item (product : WebElement) (base_url : string)
    (items : list WebElement) :
  find_elements product "ul.fr-status-flag li" = Ok items ->
  (exists item, In item items /\ get_attribute item "data-test" = Ok None) ->
  (exists e, extract_additional_info product = Raise e)
  /\ extract_product_info product base_url = Ok None.
Proof.
  intros Hfind Hbare.
  destruct (additional_texts_bare_item items Hbare) as [e He].
  assert (Hinfo : extract_additional_info product = Raise e).
  { unfold extract_additional_info. rewrite Hfind. exact He. }
  split; [exists e; exact Hinfo |].
  no_record.
Qed.

Lemma bare_flag_item_drops_item_witness :
  (exists e, extract_additional_info card_bare_flag = Raise e)
  /\ extract_product_info card_bare_flag sample_url = Ok None.
Proof.
  apply (bare_flag_item_drops_item card_bare_flag sample_url
           [flag_item " New " "new-flag"; element "Sale" [] []]).
  - reflexivity.
  - exists (element "Sale" [] []). split.
    + simpl. right. left. reflexivity.
    + reflexivity.
Defined.

(** ** When a record is emitted *)

Lemma extract_body_Some (product : WebElement) (base_url : string)
    (info : ProductInfo) :
  extract_body product base_url = Ok (Some info) <->
  extracted product base_url info
  /\ is_allowed (product_url info) = Ok true.
Proof.
  split.
  - intros H. unfold extract_body in H.
    apply bind_Ok_inv in H; destruct H as [pid [Hid H]].
    apply bind_Ok_inv in H; destruct H as [img [Himg H]].
    apply bind_Ok_inv in H; destruct H as [col [Hcol H]].
    apply bind_Ok_inv in H; destruct H as [ttl [Htitle H]].
    apply bind_Ok_inv in H; destruct H as [size [Hsize H]].
    apply bind_Ok_inv in H; destruct H as [[original sale] [Hprice H]].
    apply bind_Ok_inv in H; destruct H as [d [Hd H]].
    apply bind_Ok_inv in H; destruct H as [offer [Hoffer H]].
    apply bind_Ok_inv in H; destruct H as [tags [Htags H]].
    apply bind_Ok_inv in H; destruct H as [purl [Hurl H]].
    unfold check_and_assemble in H.
    destruct purl as [url |]; [| discriminate H].
    apply bind_Ok_inv in H; destruct H as [allowed [Hallowed H]].
    destruct allowed; simpl in H; [| discriminate H].
    injection H as <-. simpl.
    unfold extracted; simpl.
    repeat split; try assumption.
    exists d. split; [assumption | reflexivity].
  - intros [[Hid [Himg [Hcol [Htitle [Hsize [Hprice [[d [Hd Hfield]]
             [Hoffer [Hadd Hurl]]]]]]]]] Hallowed].
    unfold extract_body.
    rewrite Hid, Himg, Hcol, Htitle, Hsize, Hprice. cbn [bind].
    rewrite Hd, Hoffer, Hadd, Hurl. cbn [bind].
    unfold check_and_assemble. rewrite Hallowed. cbn [bind negb].
    rewrite <- Hfield. destruct info; reflexivity.
Qed.




(** ** The discount *)

Lemma float_from_string_inner_error (s : string) (e : exn) :
  PyFloat.float_from_string_inner s = Raise e -> e = ValueError.
Proof.
  unfold PyFloat.float_from_string_inner.
  destruct (PyFloat.strtod s); [discriminate |].
  destruct (PyFloat.parse_inf_or_nan s); [discriminate |].
  intros [= <-]. reflexivity.
Qed.

(** [float(s)] raises nothing but [ValueError]. *)
Lemma float_of_string_error (s : string) (e : exn) :
  PyFloat.float_of_string s = Raise e -> e = ValueError.
Proof.
  unfold PyFloat.float_of_string. cbv zeta.
  repeat match goal with
         | |- context [if ?b then _ else _] => destruct b
         end;
    intros H;
    first [ injection H as <-; reflexivity
          | eapply float_from_string_inner_error; exact H ].
Qed.

Lemma price_float_empty : price_float EmptyString = Raise ValueError.
Proof. vm_compute. reflexivity. Qed.

Lemma compute_discount_spec (original sale : option string)
    (d : option PyFloat.float) :
  compute_discount original sale = Ok d ->
  discount_field d = discount_spec original sale.
Proof.
  unfold compute_discount, discount_spec.
  destruct original as [o |], sale as [s |];
    try (intros [= <-]; reflexivity).
  destruct (PyStr.truthy o) eqn:To; cbn [andb].
  - destruct (PyStr.truthy s) eqn:Ts.
    + destruct (price_float o) as [fo | eo] eqn:Eo; cbn [bind catch].
      * destruct (price_float s) as [fs | es] eqn:Es; cbn [bind catch].
        -- unfold discount_value, PyFloat.truediv.
           destruct fo; cbn [bind catch];
             intros H; try discriminate H;
             injection H as <-; reflexivity.
        -- apply float_of_string_error in Es. subst es.
           intros [= <-]. reflexivity.
      * apply float_of_string_error in Eo. subst eo.
        intros [= <-]. reflexivity.
    + destruct s; [| discriminate Ts].
      rewrite price_float_empty.
      intros [= <-]. destruct (price_float o); reflexivity.
  - destruct o; [| discriminate To].
    rewrite price_float_empty.
    intros [= <-]. reflexivity.
Qed.

(** C2 (amended). The discount field of an emitted record is an optional
    string: it is present exactly when both prices are present and parse
    as floats (after removing "," and "RM"), and is then the decimal
    rendering of (original - sale) / original * 100 rounded to two places
    followed by "%".  Original "RM100.00" and sale "RM75.00" give "25.0%";
    without a sale price the field is [None], as on the sample card that
    has an original price only. *)
Theorem discount_is_percent_text :
  (forall product base_url info,
      extract_product_info product base_url = Ok (Some info) ->
      discount info = discount_spec (original_price info) (sale_price info))
  /\ discount_spec (Some "RM100.00") (Some "RM75.00") = Some "25.0%"
  /\ (forall original, discount_spec original None = None)
  /\ (exists info,
         extract_product_info card_no_sale sample_url = Ok (Some info)
         /\ original_price info = Some "RM100.00"
         /\ sale_price info = None
         /\ discount info = None).
Proof.
  split; [| split; [| split]].
  - intros product base_url info H.
    apply extract_Some_body, extract_body_Some in H.
    destruct H as [[_ [_ [_ [_ [_ [_ [[d [Hd Hfield]] _]]]]]]] _].
    rewrite Hfield. apply compute_discount_spec. exact Hd.
  - vm_compute. reflexivity.
  - intros [o |]; reflexivity.
  - eexists. split; [vm_compute; reflexivity |].
    repeat split.
Qed.

Lemma discount_is_percent_text_witness :
  discount sample_info
  = discount_spec (original_price sample_info) (sale_price sample_info).
Proof.
  destruct discount_is_percent_text as [H _].
  apply (H sample_card sample_url sample_info).
  vm_compute. reflexivity.
Defined.

(** C2, as stated, fails: for original "RM100.00" and sale "RM75.00" the
    field is not a number but the text "25.0%", the rendering "25.0" of
    the number with a percent sign after it. *)
Lemma discount_field_is_text_not_number :
  exists info,
    extract_product_info sample_card sample_url = Ok (Some info)
    /\ discount info = Some "25.0%"
    /\ PyFloat.repr (PyFloat.of_decimal false 25 0) = "25.0"
    /\ discount info <> Some (PyFloat.repr (PyFloat.of_decimal false 25 0)).
Proof.
  eexists. split; [vm_compute; reflexivity |].
  split; [reflexivity |].
  split; [vm_compute; reflexivity |].
  vm_compute. discriminate.
Qed.

(** ** The prices *)

Lemma last_text_spec (spans : list WebElement) (v : option string) :
  last_text spans = Ok v -> last_span_text spans v.
Proof.
  destruct spans as [| x rest]; simpl.
  - intros [= <-]. left. split; reflexivity.
  - intros H. apply bind_Ok_inv in H. destruct H as [t [Ht H]].
    injection H as <-. right.
    exists (removelast (x :: rest)), (last (x :: rest) x), t.
    split; [| split; [exact Ht | reflexivity]].
    apply app_removelast_last. discriminate.
Qed.

Lemma normalised_sale_price (v : option string) :
  (if negb (truthy_opt v) then None else v) = empty_to_none v.
Proof. destruct v as [[| c s] |]; reflexivity. Qed.

(** C7. In an emitted record each price is the trimmed text of the last
    currency span of its fragment, [None] when the fragment has no such
    span; a sale price that is empty after trimming is stored as [None],
    never as the empty string. *)
Theorem prices_from_last_span (product : WebElement) (base_url : string)
    (info : ProductInfo) :
  extract_product_info product base_url = Ok (Some info) ->
  exists price_element originals limiteds sale,
    find_element product ".fr-product-price" = Ok price_element
    /\ find_elements price_element ".price-original .fr-price-currency span"
       = Ok originals
    /\ find_elements price_element ".price-limited .fr-price-currency span"
       = Ok limiteds
    /\ last_span_text originals (original_price info)
    /\ last_span_text limiteds sale
    /\ sale_price info = empty_to_none sale
    /\ sale_price info <> Some EmptyString.
Proof.
  intros H.
  apply extract_Some_body, extract_body_Some in H.
  destruct H as [[_ [_ [_ [_ [_ [Hprice _]]]]]] _].
  unfold extract_prices in Hprice.
  apply bind_Ok_inv in Hprice; destruct Hprice as [pe [Hpe H]].
  apply bind_Ok_inv in H; destruct H as [originals [Ho H]].
  apply bind_Ok_inv in H; destruct H as [original [Hot H]].
  apply bind_Ok_inv in H; destruct H as [limiteds [Hl H]].
  apply bind_Ok_inv in H; destruct H as [sale [Hlt H]].
  rewrite normalised_sale_price in H.
  injection H as Horig Hsale.
  exists pe, originals, limiteds, sale.
  repeat (split; [assumption |]).
  split; [rewrite <- Horig; apply last_text_spec; exact Hot |].
  split; [apply last_text_spec; exact Hlt |].
  split; [symmetry; exact Hsale |].
  rewrite <- Hsale. destruct sale as [[| c s] |]; discriminate.
Qed.

(** On the card with two original spans and a blank last sale span the
    original price is the text of the second span, trimmed, and the sale
    price is absent. *)
Lemma prices_from_last_span_witness :
  exists price_element originals limiteds sale,
    find_element card_blank_sale ".fr-product-price" = Ok price_element
    /\ find_elements price_element ".price-original .fr-price-currency span"
       = Ok originals
    /\ find_elements price_element ".price-limited .fr-price-currency span"
       = Ok limiteds
    /\ last_span_text originals (Some "RM100.00")
    /\ last_span_text limiteds sale
    /\ None = empty_to_none sale
    /\ None <> Some EmptyString.
Proof.
  apply (prices_from_last_span card_blank_sale sample_url
           (mkProductInfo "E465755-000" "AIRism Cotton T-Shirt"
              (Some "https://image.uniqlo.com/UQ/ST3/465755/item.jpg") 2
              "XS-XXL" (Some "RM100.00") None None
              (Some "Limited Offer From 1 Jan") ["New"; "Online Only"]
              "https://www.uniqlo.com/my/en/products/E465755-000")).
  vm_compute. reflexivity.
Defined.

(** ** The colour options *)

Lemma is_real_color_flags (tips : list WebElement) (flags : list bool) :
  mapM is_real_color tips = Ok flags ->
  exists classes,
    swatch_classes tips classes
    /\ flags = map (fun c => negb (carries_extra c)) classes.
Proof.
  revert flags.
  induction tips as [| tip rest IH]; simpl; intros flags H.
  - injection H as <-. exists []. split; [constructor | reflexivity].
  - apply bind_Ok_inv in H; destruct H as [b [Hb H]].
    apply bind_Ok_inv in H; destruct H as [bs [Hbs H]].
    injection H as <-.
    destruct (IH bs Hbs) as [classes [Hcl ->]].
    unfold is_real_color in Hb.
    apply bind_Ok_inv in Hb; destruct Hb as [v [Hv Hb]].
    destruct v as [c |]; [| discriminate Hb].
    injection Hb as <-.
    exists (c :: classes). split; [constructor; assumption | reflexivity].
Qed.

Lemma count_true_map {A : Type} (f : A -> bool) (l : list A) :
  List.length (filter (fun b => b) (map f l)) = List.length (filter f l).
Proof.
  induction l as [| a l IH]; simpl; [reflexivity |].
  destruct (f a); simpl; rewrite IH; reflexivity.
Qed.

(** C8. In an emitted record [color_options] is the number of colour
    swatches whose class does not carry the "extra" marker: 0 without
    swatches, 2 for three swatches of which one carries the marker. *)
Theorem color_options_counts_real_swatches :
  (forall product base_url info,
      extract_product_info product base_url = Ok (Some info) ->
      exists tips classes,
        find_elements product ".color-tips .color-tip" = Ok tips
        /\ swatch_classes tips classes
        /\ color_options info
           = List.length (filter (fun c => negb (carries_extra c)) classes))
  /\ (exists info,
         extract_product_info card_no_tips sample_url = Ok (Some info)
         /\ color_options info = 0)
  /\ (exists info,
         extract_product_info sample_card sample_url = Ok (Some info)
         /\ find_elements sample_card ".color-tips .color-tip"
            = Ok [color_tip "color-tip"; color_tip "color-tip";
                  color_tip "color-tip extra"]
         /\ color_options info = 2).
Proof.
  split; [| split].
  - intros product base_url info H.
    apply extract_Some_body, extract_body_Some in H.
    destruct H as [[_ [_ [Hcol _]]] _].
    unfold extract_color_options in Hcol.
    apply bind_Ok_inv in Hcol; destruct Hcol as [tips [Htips H]].
    apply bind_Ok_inv in H; destruct H as [flags [Hflags H]].
    injection H as H.
    destruct (is_real_color_flags tips flags Hflags) as [classes [Hcl ->]].
    exists tips, classes.
    split; [exact Htips |]. split; [exact Hcl |].
    rewrite <- H. apply count_true_map.
  - eexists. split; [vm_compute; reflexivity | reflexivity].
  - eexists. split; [vm_compute; reflexivity |].
    split; reflexivity.
Qed.

Lemma color_options_counts_real_swatches_witness :
  exists tips classes,
    find_elements sample_card ".color-tips .color-tip" = Ok tips
    /\ swatch_classes tips classes
    /\ 2 = List.length (filter (fun c => negb (carries_extra c)) classes).
Proof.
  destruct color_options_counts_real_swatches as [H _].
  apply (H sample_card sample_url sample_info).
  vm_compute. reflexivity.
Defined.

(** ** The path policy *)

Lemma disallowed_prefix_found (path : string) :
  existsb (fun disallowed => PyStr.startswith path disallowed)
          disallowed_paths = true
  <-> starts_with_disallowed path.
Proof.
  unfold starts_with_disallowed, PyStr.startswith.
  rewrite existsb_exists. split.
  - intros [d [Hin Hp]]. apply prefix_append in Hp.
    destruct Hp as [rest Hp]. exists d, rest. split; assumption.
  - intros [d [rest [Hin Hp]]]. exists d. split; [exact Hin |].
    apply prefix_append. exists rest. exact Hp.
Qed.

(** [urlparse] raises nothing but [ValueError]. *)
Lemma check_bracketed_host_error (hostname : string) (e : exn) :
  Urllib._check_bracketed_host hostname = Raise e -> e = ValueError.
Proof.
  unfold Urllib._check_bracketed_host.
  destruct (String.prefix "v" hostname).
  - destruct (Urllib.ipvfuture_ok hostname); intros [= <-]; reflexivity.
  - destruct (Urllib.ip_address hostname) as [[|] |];
      intros [= <-]; reflexivity.
Qed.

Lemma check_bracketed_netloc_error (netloc : string) (e : exn) :
  Urllib._check_bracketed_netloc netloc = Raise e -> e = ValueError.
Proof.
  unfold Urllib._check_bracketed_netloc.
  destruct (PyStr.partition "[" _) as [before [bracketed |]].
  - destruct (PyStr.truthy before); [intros [= <-]; reflexivity |].
    destruct (PyStr.partition "]" bracketed) as [hostname port].
    destruct (_ && _); [intros [= <-]; reflexivity |].
    apply check_bracketed_host_error.
  - apply check_bracketed_host_error.
Qed.

Ltac finish_split :=
  repeat match goal with
         | |- context [PyStr.partition ?c ?x] =>
             destruct (PyStr.partition c x) as [? [? |]]
         end;
  discriminate.

Lemma urlsplit_error (url scheme : string) (e : exn) :
  Urllib.urlsplit url scheme = Raise e -> e = ValueError.
Proof.
  unfold Urllib.urlsplit. cbv zeta.
  match goal with
  | |- context [match ?x with pair _ _ => _ end] => destruct x as [sch u]
  end.
  destruct (String.prefix "//" u); cbn [bind].
  - destruct (Urllib._splitnetloc u) as [netloc rest].
    destruct (_ || _); cbn [bind]; [intros [= <-]; reflexivity |].
    destruct (_ && _); cbn [bind].
    + destruct (Urllib._check_bracketed_netloc netloc) eqn:E; cbn [bind].
      * finish_split.
      * intros [= <-]. eapply check_bracketed_netloc_error. exact E.
    + finish_split.
  - finish_split.
Qed.

Lemma urlparse_error (url scheme : string) (e : exn) :
  Urllib.urlparse url scheme = Raise e -> e = ValueError.
Proof.
  unfold Urllib.urlparse.
  destruct (Urllib.urlsplit url scheme) eqn:E; cbn [bind].
  - destruct (_ && _); [destruct (Urllib._splitparams _) |]; discriminate.
  - intros [= <-]. eapply urlsplit_error. exact E.
Qed.

(** C4 (amended). For every URL that [urlparse] accepts, [is_allowed]
    returns [False] when the parsed path starts with one of the disallowed
    prefixes and [True] otherwise; for a URL that [urlparse] rejects it
    raises [ValueError], as [urlparse] did.  A path starting with
    [/my/en/cms/] is disallowed, [/my/en/women/tops] is allowed, and the
    empty string, with an empty path, is allowed. *)
Theorem is_allowed_by_parsed_path :
  (forall url parsed,
      Urllib.urlparse url EmptyString = Ok parsed ->
      (starts_with_disallowed (Urllib.path parsed) ->
       is_allowed url = Ok false)
      /\ (~ starts_with_disallowed (Urllib.path parsed) ->
          is_allowed url = Ok true))
  /\ (forall url e,
         Urllib.urlparse url EmptyString = Raise e ->
         e = ValueError /\ is_allowed url = Raise ValueError)
  /\ is_allowed "/my/en/cms/x" = Ok false
  /\ is_allowed "/my/en/women/tops" = Ok true
  /\ is_allowed EmptyString = Ok true.
Proof.
  split; [| split; [| split; [| split]]].
  - intros url parsed Hparse. unfold is_allowed. rewrite Hparse. cbn [bind].
    split; intros H.
    + apply disallowed_prefix_found in H. rewrite H. reflexivity.
    + destruct (existsb _ disallowed_paths) eqn:E; [| reflexivity].
      exfalso. apply H, disallowed_prefix_found, E.
  - intros url e Hparse.
    assert (He : e = ValueError) by (eapply urlparse_error; exact Hparse).
    split; [exact He |]. subst e.
    unfold is_allowed. rewrite Hparse. reflexivity.
  - vm_compute. reflexivity.
  - vm_compute. reflexivity.
  - vm_compute. reflexivity.
Qed.

Lemma is_allowed_by_parsed_path_witness :
  is_allowed "https://www.uniqlo.com/my/en/cms/x" = Ok false
  /\ is_allowed "https://[www.uniqlo.com/my/en/women/tops" = Raise ValueError.
Proof.
  destruct is_allowed_by_parsed_path as [Hpath [Hraise _]].
  split.
  - apply (Hpath "https://www.uniqlo.com/my/en/cms/x"
             (Urllib.mkParse "https" "www.uniqlo.com" "/my/en/cms/x"
                EmptyString EmptyString EmptyString)).
    + vm_compute. reflexivity.
    + exists "/my/en/cms/", "x". split; [left; reflexivity | reflexivity].
  - refine (proj2 (Hraise _ ValueError _)). vm_compute. reflexivity.
Defined.

(** C4, as stated, fails: [is_allowed] is not total.  On a URL whose
    authority has an unmatched square bracket [urlparse] raises
    [ValueError], and so does [is_allowed], instead of returning [True]. *)
Lemma is_allowed_raises_on_unmatched_bracket :
  is_allowed "https://[www.uniqlo.com/my/en/women/tops" = Raise ValueError.
Proof. vm_compute. reflexivity. Qed.

(** ** The reveal loop *)

Lemma call_inv {D A : Type} (ev : event) (op : D -> result A * D)
    (s s' : session) (r : result A) :
  call ev op s = Some (r, s') ->
  r = fst (op (browser s)) /\ trace s' = trace s ++ [ev].
Proof.
  unfold call. destruct (op (browser s)) as [r0 d]. intros [= <- <-].
  split; reflexivity.
Qed.

Lemma bindD_inv {D A C : Type} (c : @Drv D A) (k : A -> @Drv D C)
    (s s' : session) (r : result C) :
  bindD c k s = Some (r, s') ->
  (exists a s1, c s = Some (Ok a, s1) /\ k a s1 = Some (r, s'))
  \/ (exists e, c s = Some (Raise e, s') /\ r = Raise e).
Proof.
  unfold bindD. destruct (c s) as [[[a | e] s1] |]; intros H.
  - left. exists a, s1. split; [reflexivity | exact H].
  - right. injection H as <- <-. exists e. split; reflexivity.
  - discriminate H.
Qed.

Lemma catchD_inv {D A : Type} (c : @Drv D A) (h : exn -> @Drv D A)
    (s s' : session) (r : result A) :
  catchD c h s = Some (r, s') ->
  (exists a, c s = Some (Ok a, s') /\ r = Ok a)
  \/ (exists e s1, c s = Some (Raise e, s1) /\ h e s1 = Some (r, s')).
Proof.
  unfold catchD. destruct (c s) as [[[a | e] s1] |]; intros H.
  - left. injection H as <- <-. exists a. split; reflexivity.
  - right. exists e, s1. split; [reflexivity | exact H].
  - discriminate H.
Qed.



(** ** The release of the session *)

Lemma quiet_ret {D A : Type} (a : A) : quiet (@ret D A a).
Proof.
  intros s r s' [= <- <-]. exists []. rewrite app_nil_r.
  split; [reflexivity | intros []].
Qed.

Lemma quiet_lift {D A : Type} (c : result A) : quiet (@lift D A c).
Proof.
  intros s r s' [= <- <-]. exists []. rewrite app_nil_r.
  split; [reflexivity | intros []].
Qed.

Lemma quiet_call {D A : Type} (ev : event) (op : D -> result A * D) :
  ev <> EvQuit -> quiet (call ev op).
Proof.
  intros Hev s r s' H. apply call_inv in H. destruct H as [_ H].
  exists [ev]. split; [exact H |].
  intros [E | []]. apply Hev. exact E.
Qed.

Lemma quiet_bindD {D A C : Type} (c : @Drv D A) (k : A -> @Drv D C) :
  quiet c -> (forall a, quiet (k a)) -> quiet (bindD c k).
Proof.
  intros Hc Hk s r s' H.
  apply bindD_inv in H. destruct H as [[a [s1 [H1 H2]]] | [e [H1 _]]].
  - destruct (Hc _ _ _ H1) as [l1 [E1 N1]].
    destruct (Hk a _ _ _ H2) as [l2 [E2 N2]].
    exists (l1 ++ l2). rewrite E2, E1, app_assoc.
    split; [reflexivity |].
    intros Hin. apply in_app_or in Hin. tauto.
  - exact (Hc _ _ _ H1).
Qed.

Lemma quiet_catchD {D A : Type} (c : @Drv D A) (h : exn -> @Drv D A) :
  quiet c -> (forall e, quiet (h e)) -> quiet (catchD c h).
Proof.
  intros Hc Hh s r s' H.
  apply catchD_inv in H. destruct H as [[a [H1 _]] | [e [s1 [H1 H2]]]].
  - exact (Hc _ _ _ H1).
  - destruct (Hc _ _ _ H1) as [l1 [E1 N1]].
    destruct (Hh e _ _ _ H2) as [l2 [E2 N2]].
    exists (l1 ++ l2). rewrite E2, E1, app_assoc.
    split; [reflexivity |].
    intros Hin. apply in_app_or in Hin. tauto.
Qed.

Lemma quiet_try_load_more {D B : Type} (driver : WebDriver D B) (n : nat) :
  quiet (try_load_more driver n).
Proof.
  unfold try_load_more.
  apply quiet_catchD.
  - apply quiet_bindD; [apply quiet_call; discriminate | intros b].
    apply quiet_bindD; [apply quiet_call; discriminate | intros _].
    apply quiet_bindD; [apply quiet_call; discriminate | intros displayed].
    destruct (negb displayed); [apply quiet_ret |].
    apply quiet_bindD; [apply quiet_call; discriminate | intros _].
    apply quiet_bindD; [apply quiet_call; discriminate | intros _].
    apply quiet_ret.
  - intros e. destruct e; apply quiet_ret.
Qed.

Lemma quiet_load_more_loop {D B : Type} (driver : WebDriver D B)
    (fuel n : nat) :
  quiet (load_more_loop driver fuel n).
Proof.
  revert n. induction fuel as [| fuel IH]; intros n.
  - intros s r s' H. discriminate H.
  - simpl.
    apply quiet_bindD; [apply quiet_call; discriminate | intros _].
    apply quiet_bindD; [apply quiet_call; discriminate | intros _].
    apply quiet_bindD; [apply quiet_try_load_more | intros st].
    destruct st; [apply quiet_ret | apply IH | apply IH].
Qed.

Lemma releases_bindD {D A C : Type} (c : @Drv D A) (k : A -> @Drv D C) :
  quiet c -> (forall a, releases (k a)) -> releases (bindD c k).
Proof.
  intros Hc Hk s r s' H.
  apply bindD_inv in H. destruct H as [[a [s1 [H1 H2]]] | [e [H1 Hr]]].
  - destruct (Hc _ _ _ H1) as [l1 [E1 N1]].
    destruct (Hk a _ _ _ H2) as [l2 [N2 E2]].
    exists (l1 ++ l2).
    split; [intros Hin; apply in_app_or in Hin; tauto |].
    destruct E2 as [E2 | [E2 He]].
    + left. rewrite E2, E1, <- !app_assoc. reflexivity.
    + right. split; [| exact He]. rewrite E2, E1, app_assoc. reflexivity.
  - destruct (Hc _ _ _ H1) as [l1 [E1 N1]].
    exists l1. split; [exact N1 |].
    right. split; [exact E1 | exists e; exact Hr].
Qed.

Lemma releases_quit {D B A : Type} (driver : WebDriver D B) (a : A) :
  releases (bindD (quit driver) (fun _ => ret a)).
Proof.
  intros s r s' H. exists []. split; [intros [] |]. left. simpl.
  apply bindD_inv in H. destruct H as [[u [s1 [H1 H2]]] | [e [H1 _]]].
  - injection H2 as _ <-. apply call_inv in H1. apply H1.
  - apply call_inv in H1. apply H1.
Qed.

Lemma releases_scrape_session {D B : Type} (driver : WebDriver D B)
    (fuel : nat) (url : string) :
  releases (scrape_session driver fuel url).
Proof.
  unfold scrape_session.
  apply releases_bindD; [apply quiet_call; discriminate | intros _].
  apply releases_bindD; [apply quiet_call; discriminate | intros _].
  apply releases_bindD; [apply quiet_call; discriminate | intros _].
  apply releases_bindD; [apply quiet_load_more_loop | intros _].
  apply releases_bindD; [apply quiet_call; discriminate | intros l].
  apply releases_bindD; [apply quiet_lift | intros products].
  apply releases_quit.
Qed.

(** C6 (amended). Every run of the scrape that ends is of one of three
    kinds: no session was created (the entry URL was not allowed, or
    [is_allowed] or [setup_driver] raised) and no call was made on one;
    or [driver.quit()] was called, once, as the last call on the session;
    or an exception raised by an earlier call on the session propagated to
    the caller and [driver.quit()] was never called.  A run that returns
    normally is of one of the first two kinds. *)
Theorem session_released_unless_exception_propagates {D B : Type}
    (driver : WebDriver D B) (fuel : nat) (url : string)
    (r : result (list ProductInfo)) (calls : list event) :
  scrape_uniqlo_women_tops driver fuel url = Some (r, calls) ->
  (calls = []
   /\ (is_allowed url <> Ok true \/ exists e, drv_setup driver = Raise e))
  \/ (exists mid, calls = EvSetup :: mid ++ [EvQuit] /\ ~ In EvQuit mid)
  \/ (exists e mid,
        r = Raise e /\ calls = EvSetup :: mid /\ ~ In EvQuit mid).
Proof.
  unfold scrape_uniqlo_women_tops.
  destruct (is_allowed url) as [[|] | e] eqn:Eallowed.
  - destruct (drv_setup driver) as [d | e] eqn:Esetup.
    + destruct (scrape_session driver fuel url (mkSession d [EvSetup]))
        as [[r0 s'] |] eqn:Erun; [| discriminate].
      intros [= <- <-].
      destruct (releases_scrape_session driver fuel url _ _ _ Erun)
        as [mid [Hmid [Htrace | [Htrace [e He]]]]].
      * right. left. exists mid. split; [exact Htrace | exact Hmid].
      * right. right. exists e, mid.
        split; [exact He | split; [exact Htrace | exact Hmid]].
    + intros [= <- <-]. left. split; [reflexivity |].
      right. exists e. reflexivity.
  - intros [= <- <-]. left. split; [reflexivity |]. left. discriminate.
  - intros [= <- <-]. left. split; [reflexivity |]. left. discriminate.
Qed.

(** A run that returns normally: the session is released at the end. *)
Lemma session_released_unless_exception_propagates_witness :
  (sample_calls = []
   /\ (is_allowed sample_url <> Ok true
       \/ exists e, drv_setup (sample_driver 0 false false []) = Raise e))
  \/ (exists mid,
        sample_calls = EvSetup :: mid ++ [EvQuit] /\ ~ In EvQuit mid)
  \/ (exists e mid,
        @Ok (list ProductInfo) [] = Raise e
        /\ sample_calls = EvSetup :: mid /\ ~ In EvQuit mid).
Proof.
  apply (session_released_unless_exception_propagates
           (sample_driver 0 false false []) 1 sample_url).
  vm_compute. reflexivity.
Defined.

(** C6, as stated, fails: when the navigation raises, the exception
    leaves the scrape after the session was created and [driver.quit()]
    is not among the calls made on it. *)
Lemma session_not_released_when_navigation_fails :
  scrape_uniqlo_women_tops (sample_driver 2 false true [sample_card]) 5
    sample_url
  = Some (Raise WebDriverException, [EvSetup; EvGet sample_url])
  /\ existsb (event_eqb EvQuit) [EvSetup; EvGet sample_url] = false.
Proof. split; vm_compute; reflexivity. Qed.

(** ** Fuel *)

Lemma bindD_mono {D A C : Type} (c : @Drv D A) (k k' : A -> @Drv D C)
    (s : session) (res : result C * session) :
  (forall a s1, k a s1 = Some res -> k' a s1 = Some res) ->
  bindD c k s = Some res -> bindD c k' s = Some res.
Proof.
  intros Hk. unfold bindD.
  destruct (c s) as [[[a | e] s1] |]; intros H.
  - apply Hk. exact H.
  - exact H.
  - discriminate H.
Qed.

(** A pass of the loop that ends with some fuel ends in the same way with
    more fuel. *)
Lemma load_more_loop_more_fuel {D B : Type} (driver : WebDriver D B)
    (fuel extra n : nat) (s : session) (res : result nat * session) :
  load_more_loop driver fuel n s = Some res ->
  load_more_loop driver (fuel + extra) n s = Some res.
Proof.
  revert n s. induction fuel as [| fuel IH]; intros n s.
  - intros H. discriminate H.
  - cbn [load_more_loop Nat.add].
    apply bindD_mono. intros _ s1.
    apply bindD_mono. intros _ s2.
    apply bindD_mono. intros st s3.
    destruct st; [intros H; exact H | apply IH | apply IH].
Qed.

Lemma scrape_more_fuel {D B : Type} (driver : WebDriver D B)
    (fuel extra : nat) (url : string)
    (res : result (list ProductInfo) * list event) :
  scrape_uniqlo_women_tops driver fuel url = Some res ->
  scrape_uniqlo_women_tops driver (fuel + extra) url = Some res.
Proof.
  unfold scrape_uniqlo_women_tops.
  destruct (is_allowed url) as [[|] | e]; try (intros H; exact H).
  destruct (drv_setup driver) as [d | e]; [| intros H; exact H].
  destruct (scrape_session driver fuel url (mkSession d [EvSetup]))
    as [[r s'] |] eqn:E; [| discriminate].
  intros H.
  assert (E' : scrape_session driver (fuel + extra) url
                 (mkSession d [EvSetup]) = Some (r, s')).
  { revert E. unfold scrape_session.
    apply bindD_mono. intros _ s1.
    apply bindD_mono. intros _ s2.
    apply bindD_mono. intros _ s3.
    intros E. unfold bindD in *.
    unfold scroll_and_click_load_more in *.
    destruct (load_more_loop driver fuel 0 s3) as [res0 |] eqn:El;
      [| discriminate E].
    rewrite (load_more_loop_more_fuel driver fuel extra 0 s3 res0 El).
    exact E. }
  rewrite E'. exact H.
Qed.

(** ** Runs of the model *)

(** Parsed paths, as CPython 3.11 gives them. *)
Example urlparse_paths :
  map (fun url =>
         match Urllib.urlparse url EmptyString with
         | Ok parsed => Some (Urllib.path parsed)
         | Raise _ => None
         end)
      ["https://www.uniqlo.com/my/en/women/tops/tops-collections";
       "https://www.uniqlo.com/my/en/search?q=shirt";
       "//www.uniqlo.com/my/en/cms/x;y#z";
       "  /my/en/cms/";
       "www.uniqlo.com";
       "http://[::1]:8080/a";
       "http://[www.uniqlo.com]/a";
       "http://[/a"]
  = [Some "/my/en/women/tops/tops-collections";
     Some "/my/en/search";
     Some "/my/en/cms/x";
     Some "/my/en/cms/";
     Some "www.uniqlo.com";
     Some "/a";
     None;
     None].
Proof. vm_compute. reflexivity. Qed.

(** Joined URLs, as CPython 3.11 gives them. *)
Example urljoin_results :
  map (Urllib.urljoin sample_url)
      [Some "/my/en/products/E465755-000";
       Some "E465755-000?colorCode=COL09";
       Some "../../cms/x";
       Some "https://www.uniqlo.com/my/en/products/E1#top";
       Some EmptyString;
       None]
  = [Ok (Some "https://www.uniqlo.com/my/en/products/E465755-000");
     Ok (Some "https://www.uniqlo.com/my/en/women/tops/E465755-000?colorCode=COL09");
     Ok (Some "https://www.uniqlo.com/my/en/cms/x");
     Ok (Some "https://www.uniqlo.com/my/en/products/E1#top");
     Ok (Some sample_url);
     Ok (Some sample_url)].
Proof. vm_compute. reflexivity. Qed.

(** [repr(float(s))] and [repr(round(float(s), 2))], as CPython gives
    them; [None] stands for [ValueError]. *)
Example float_round_repr :
  map (fun s =>
         match PyFloat.float_of_string s with
         | Ok x => Some (PyFloat.repr x, PyFloat.repr (PyFloat.round2 x))
         | Raise _ => None
         end)
      ["100.00"; " 75.5 "; "1_299.90"; "0.125"; "2.675"; "1e23"; "-0.001";
       "inf"; "RM5"; "1,299.90"; EmptyString]
  = [Some ("100.0", "100.0"); Some ("75.5", "75.5");
     Some ("1299.9", "1299.9"); Some ("0.125", "0.12");
     Some ("2.675", "2.67"); Some ("1e+23", "1e+23");
     Some ("-0.001", "-0.0"); Some ("inf", "inf"); None; None; None].
Proof. vm_compute. reflexivity. Qed.

(** Discounts of some pairs of prices. *)
Example discounts :
  map (fun '(o, s) => compute_discount (Some o) (Some s))
      [("RM100.00", "RM75.00"); ("RM1,299.90", "RM999.90");
       ("RM59.90", "RM39.90"); ("RM30.00", "RM30.00");
       ("RM50.00", "from RM39.90"); ("RM0.00", "RM5.00")]
  = [Ok (Some (PyFloat.of_decimal false 25 0));
     Ok (Some (PyFloat.of_decimal false 2308 (-2)));
     Ok (Some (PyFloat.of_decimal false 3339 (-2)));
     Ok (Some (PyFloat.of_decimal false 0 0));
     Ok None;
     Raise ZeroDivisionError].
Proof. vm_compute. reflexivity. Qed.

(** An original price that parses to zero makes the division raise
    [ZeroDivisionError], which the handler for [ValueError] lets pass: the
    whole item is dropped. *)
Example zero_original_price_drops_item :
  extract_product_info
    (card [("data-test", "product-card-E465755-000")]
       [sample_img] sample_tips [span "Gift"] [span "One size"]
       [price_box ["RM0.00"] ["RM5.00"]] [] [] [sample_anchor])
    sample_url
  = Ok None.
Proof. vm_compute. reflexivity. Qed.

(** The records of the sample cards. *)
Example sample_card_record :
  extract_product_info sample_card sample_url = Ok (Some sample_info).
Proof. vm_compute. reflexivity. Qed.

Example disallowed_link_no_record :
  extract_product_info card_disallowed sample_url = Ok None.
Proof. vm_compute. reflexivity. Qed.

(** With a control that is displayed twice the loop clicks twice and ends
    at the third wait; two passes of fuel are not enough for that run. *)
Example reveal_clicks_twice :
  scroll_and_click_load_more (sample_driver 2 false false []) 3
    (mkSession 0 [])
  = Some (Ok 2,
          mkSession 2
            [EvScript "window.scrollTo(0, document.body.scrollHeight);";
             EvScript "return document.body.scrollHeight"; EvWait;
             EvIsDisplayed; EvIsDisplayed;
             EvScript "arguments[0].scrollIntoView();"; EvClick;
             EvScript "window.scrollTo(0, document.body.scrollHeight);";
             EvScript "return document.body.scrollHeight"; EvWait;
             EvIsDisplayed; EvIsDisplayed;
             EvScript "arguments[0].scrollIntoView();"; EvClick;
             EvScript "window.scrollTo(0, document.body.scrollHeight);";
             EvScript "return document.body.scrollHeight"; EvWait])
  /\ scroll_and_click_load_more (sample_driver 2 false false []) 2
       (mkSession 0 [])
     = None.
Proof. split; vm_compute; reflexivity. Qed.

(** A whole run: the card without title is skipped, the session is
    released at the end. *)
Example scrape_sample_page :
  scrape_uniqlo_women_tops
    (sample_driver 0 false false [sample_card; card_no_title]) 1 sample_url
  = Some (Ok [sample_info], sample_calls).
Proof. vm_compute. reflexivity. Qed.

(** A disallowed entry URL gives an empty result and no session; an entry
    URL that [urlparse] rejects makes the scrape raise. *)
Example scrape_refuses_or_raises :
  scrape_uniqlo_women_tops (sample_driver 0 false false [sample_card]) 1
    "https://www.uniqlo.com/my/en/search?q=tops"
  = Some (Ok [], [])
  /\ scrape_uniqlo_women_tops (sample_driver 0 false false [sample_card]) 1
       "https://[www.uniqlo.com/my/en/women/tops"
     = Some (Raise ValueError, []).
Proof. split; vm_compute; reflexivity. Qed.

(** * Further properties *)

(** ** The reveal loop: what leaves it *)

Lemma try_load_more_returns {D B : Type} (driver : WebDriver D B) (n : nat)
    (s s' : session) (r : result step) :
  try_load_more driver n s = Some (r, s') -> exists st, r = Ok st.
Proof.
  unfold try_load_more. intros H.
  apply catchD_inv in H. destruct H as [[a [_ ->]] | [e [s1 [_ H]]]].
  - exists a. reflexivity.
  - destruct e; injection H as <- _; eexists; reflexivity.
Qed.

(** X1. An exception leaves the reveal loop only from one of the two
    scripts that run outside the [try] block: when the loop raises, the
    last call on the session is the scroll script or the height script.
    Whatever is raised inside the [try] block is handled there. *)
Theorem reveal_raises_only_from_outer_scripts {D B : Type}
    (driver : WebDriver D B) (fuel n : nat) (s s' : session) (e : exn) :
  load_more_loop driver fuel n s = Some (Raise e, s') ->
  exists before script,
    trace s' = trace s ++ before ++ [EvScript script]
    /\ (script = scroll_script \/ script = height_script).
Proof.
  revert n s. induction fuel as [| fuel IH]; intros n s H.
  - discriminate H.
  - cbn [load_more_loop] in H.
    apply bindD_inv in H. destruct H as [[u1 [s1 [H1 H]]] | [e1 [H1 _]]].
    2:{ apply call_inv in H1. destruct H1 as [_ H1].
        exists [], scroll_script. split; [exact H1 | left; reflexivity]. }
    apply call_inv in H1. destruct H1 as [_ T1].
    apply bindD_inv in H. destruct H as [[u2 [s2 [H2 H]]] | [e2 [H2 _]]].
    2:{ apply call_inv in H2. destruct H2 as [_ H2].
        exists [EvScript scroll_script], height_script.
        split; [| right; reflexivity].
        rewrite H2, T1, <- app_assoc. reflexivity. }
    apply call_inv in H2. destruct H2 as [_ T2].
    apply bindD_inv in H. destruct H as [[st [s3 [H3 H]]] | [e3 [H3 _]]].
    2:{ apply try_load_more_returns in H3. destruct H3 as [st H3].
        discriminate H3. }
    destruct (quiet_try_load_more driver n _ _ _ H3) as [calls [T3 _]].
    assert (Hrec : forall k,
               load_more_loop driver fuel k s3 = Some (Raise e, s') ->
               exists before script,
                 trace s' = trace s ++ before ++ [EvScript script]
                 /\ (script = scroll_script \/ script = height_script)).
    { intros k Hk. destruct (IH k s3 Hk) as [before [script [T Hs]]].
      exists ([EvScript scroll_script] ++ [EvScript height_script]
              ++ calls ++ before), script.
      split; [| exact Hs].
      rewrite T, T3, T2, T1, <- !app_assoc. reflexivity. }
    destruct st as [k | k | k].
    + discriminate H.
    + apply (Hrec k H).
    + apply (Hrec k H).
Qed.

(** After a first click the scripts of [crashing_driver] raise, and the
    exception leaves the loop from the scroll script. *)
Lemma reveal_raises_only_from_outer_scripts_witness :
  exists before script,
    [EvScript scroll_script; EvScript height_script; EvWait; EvIsDisplayed;
     EvIsDisplayed; EvScript "arguments[0].scrollIntoView();"; EvClick;
     EvScript scroll_script]
    = [] ++ before ++ [EvScript script]
    /\ (script = scroll_script \/ script = height_script).
Proof.
  apply (reveal_raises_only_from_outer_scripts crashing_driver 2 0
           (mkSession 0 [])
           (mkSession 1
              [EvScript scroll_script; EvScript height_script; EvWait;
               EvIsDisplayed; EvIsDisplayed;
               EvScript "arguments[0].scrollIntoView();"; EvClick;
               EvScript scroll_script])
           WebDriverException).
  vm_compute. reflexivity.
Defined.

(** ** The reveal loop: the counter *)

Lemma clicks_app (a b : list event) : clicks (a ++ b) = clicks a + clicks b.
Proof. unfold clicks. rewrite filter_app, length_app. reflexivity. Qed.

(** One pass through the [try] statement: the counter goes up by one
    exactly when the pass ends after a click that returned. *)
Lemma try_load_more_clicks {D B : Type} (driver : WebDriver D B) (n : nat)
    (s s' : session) (st : step) :
  try_load_more driver n s = Some (Ok st, s') ->
  exists calls,
    trace s' = trace s ++ calls
    /\ ((st = Next (n + 1) /\ clicks calls = 1)
        \/ ((st = Break n \/ st = Continue n)
            /\ clicks calls <= 1
            /\ (clicks_succeed driver -> clicks calls = 0))).
Proof.
  unfold try_load_more. intros H.
  apply catchD_inv in H. destruct H as [[a [H Ha]] | [e [s0 [H Hh]]]].
  - injection Ha as <-.
    apply bindD_inv in H. destruct H as [[b [s1 [H1 H]]] | [e [_ He]]];
      [| discriminate He].
    apply call_inv in H1. destruct H1 as [_ T1].
    apply bindD_inv in H. destruct H as [[x [s2 [H2 H]]] | [e [_ He]]];
      [| discriminate He].
    apply call_inv in H2. destruct H2 as [_ T2].
    apply bindD_inv in H. destruct H as [[displayed [s3 [H3 H]]] | [e [_ He]]];
      [| discriminate He].
    apply call_inv in H3. destruct H3 as [_ T3].
    destruct displayed; cbn [negb] in H.
    + apply bindD_inv in H. destruct H as [[y [s4 [H4 H]]] | [e [_ He]]];
        [| discriminate He].
      apply call_inv in H4. destruct H4 as [_ T4].
      apply bindD_inv in H. destruct H as [[z [s5 [H5 H]]] | [e [_ He]]];
        [| discriminate He].
      apply call_inv in H5. destruct H5 as [_ T5].
      injection H as <- <-.
      exists [EvWait; EvIsDisplayed; EvIsDisplayed;
              EvScript "arguments[0].scrollIntoView();"; EvClick].
      split; [| left; split; reflexivity].
      rewrite T5, T4, T3, T2, T1, <- !app_assoc. reflexivity.
    + injection H as <- <-.
      exists [EvWait; EvIsDisplayed; EvIsDisplayed].
      split; [rewrite T3, T2, T1, <- !app_assoc; reflexivity |].
      right. split; [left; reflexivity |].
      split; [vm_compute; auto | intros _; reflexivity].
  - assert (Hst : (st = Break n \/ st = Continue n) /\ s' = s0).
    { destruct e; injection Hh as <- <-; auto. }
    destruct Hst as [Hst ->]. clear Hh.
    assert (Hcalls :
              exists calls,
                trace s0 = trace s ++ calls
                /\ clicks calls <= 1
                /\ (clicks_succeed driver -> clicks calls = 0)).
    { apply bindD_inv in H. destruct H as [[b [s1 [H1 H]]] | [e1 [H1 _]]].
      2:{ apply call_inv in H1. destruct H1 as [_ T1].
          exists [EvWait]. split; [exact T1 |].
          split; [vm_compute; auto | intros _; reflexivity]. }
      apply call_inv in H1. destruct H1 as [_ T1].
      apply bindD_inv in H. destruct H as [[x [s2 [H2 H]]] | [e2 [H2 _]]].
      2:{ apply call_inv in H2. destruct H2 as [_ T2].
          exists [EvWait; EvIsDisplayed].
          split; [rewrite T2, T1, <- !app_assoc; reflexivity |].
          split; [vm_compute; auto | intros _; reflexivity]. }
      apply call_inv in H2. destruct H2 as [_ T2].
      apply bindD_inv in H.
      destruct H as [[displayed [s3 [H3 H]]] | [e3 [H3 _]]].
      2:{ apply call_inv in H3. destruct H3 as [_ T3].
          exists [EvWait; EvIsDisplayed; EvIsDisplayed].
          split; [rewrite T3, T2, T1, <- !app_assoc; reflexivity |].
          split; [vm_compute; auto | intros _; reflexivity]. }
      apply call_inv in H3. destruct H3 as [_ T3].
      destruct displayed; cbn [negb] in H; [| discriminate H].
      apply bindD_inv in H. destruct H as [[y [s4 [H4 H]]] | [e4 [H4 _]]].
      2:{ apply call_inv in H4. destruct H4 as [_ T4].
          exists [EvWait; EvIsDisplayed; EvIsDisplayed;
                  EvScript "arguments[0].scrollIntoView();"].
          split; [rewrite T4, T3, T2, T1, <- !app_assoc; reflexivity |].
          split; [vm_compute; auto | intros _; reflexivity]. }
      apply call_inv in H4. destruct H4 as [_ T4].
      apply bindD_inv in H. destruct H as [[z [s5 [H5 H]]] | [e5 [H5 _]]];
        [discriminate H |].
      apply call_inv in H5. destruct H5 as [R5 T5].
      exists [EvWait; EvIsDisplayed; EvIsDisplayed;
              EvScript "arguments[0].scrollIntoView();"; EvClick].
      split; [rewrite T5, T4, T3, T2, T1, <- !app_assoc; reflexivity |].
      split; [vm_compute; auto |].
      intros Hclick. rewrite (Hclick b (browser s4)) in R5. discriminate R5. }
    destruct Hcalls as [calls [T Hc]].
    exists calls. split; [exact T |]. right. split; [exact Hst | exact Hc].
Qed.

(** X2. When the reveal loop returns, [load_more_count] has not gone down
    and has gone up by at most the number of [click()] calls made; when
    every [click()] returns it has gone up by exactly that number. *)
Theorem load_more_count_counts_clicks {D B : Type}
    (driver : WebDriver D B) (fuel n m : nat) (s s' : session) :
  load_more_loop driver fuel n s = Some (Ok m, s') ->
  exists calls,
    trace s' = trace s ++ calls
    /\ n <= m
    /\ m <= n + clicks calls
    /\ (clicks_succeed driver -> m = n + clicks calls).
Proof.
  revert n s. induction fuel as [| fuel IH]; intros n s H.
  - discriminate H.
  - cbn [load_more_loop] in H.
    apply bindD_inv in H. destruct H as [[u1 [s1 [H1 H]]] | [e [_ He]]];
      [| discriminate He].
    apply call_inv in H1. destruct H1 as [_ T1].
    apply bindD_inv in H. destruct H as [[u2 [s2 [H2 H]]] | [e [_ He]]];
      [| discriminate He].
    apply call_inv in H2. destruct H2 as [_ T2].
    apply bindD_inv in H. destruct H as [[st [s3 [H3 H]]] | [e [_ He]]];
      [| discriminate He].
    destruct (try_load_more_clicks driver n _ _ _ H3) as [calls [T3 Hst]].
    assert (T : trace s3
                = trace s ++ [EvScript scroll_script;
                              EvScript height_script] ++ calls).
    { rewrite T3, T2, T1, <- !app_assoc. reflexivity. }
    assert (Hrec : forall k,
               load_more_loop driver fuel k s3 = Some (Ok m, s') ->
               exists rest,
                 trace s' = trace s ++ ([EvScript scroll_script;
                                         EvScript height_script] ++ calls)
                                   ++ rest
                 /\ k <= m /\ m <= k + clicks rest
                 /\ (clicks_succeed driver -> m = k + clicks rest)).
    { intros k Hk. destruct (IH k s3 Hk) as [rest [Tr Hr]].
      exists rest. split; [| exact Hr].
      rewrite Tr, T, <- !app_assoc. reflexivity. }
    assert (Hpre : forall rest,
               clicks (([EvScript scroll_script; EvScript height_script]
                        ++ calls) ++ rest)
               = clicks calls + clicks rest).
    { intros rest. rewrite !clicks_app. reflexivity. }
    destruct Hst as [[-> Hc] | [[-> | ->] [Hle Hc]]].
    + destruct (Hrec _ H) as [rest [Tr [H1' [H2' H3']]]].
      eexists. split; [exact Tr |]. rewrite Hpre, Hc.
      split; [lia |]. split; [lia |].
      intros Hs. specialize (H3' Hs). lia.
    + injection H as <- <-.
      exists ([EvScript scroll_script; EvScript height_script] ++ calls).
      split; [exact T |].
      split; [lia |]. split; [lia |].
      intros Hs. rewrite clicks_app, (Hc Hs).
      change (clicks [EvScript scroll_script; EvScript height_script])
        with 0.
      lia.
    + destruct (Hrec _ H) as [rest [Tr [H1' [H2' H3']]]].
      eexists. split; [exact Tr |]. rewrite Hpre.
      split; [lia |]. split; [lia |].
      intros Hs. specialize (H3' Hs). rewrite (Hc Hs). lia.
Qed.

(** The run with two clicks: the counter ends at two. *)
Lemma load_more_count_counts_clicks_witness :
  exists calls,
    [EvScript scroll_script; EvScript height_script; EvWait;
     EvIsDisplayed; EvIsDisplayed;
     EvScript "arguments[0].scrollIntoView();"; EvClick;
     EvScript scroll_script; EvScript height_script; EvWait;
     EvIsDisplayed; EvIsDisplayed;
     EvScript "arguments[0].scrollIntoView();"; EvClick;
     EvScript scroll_script; EvScript height_script; EvWait]
    = [] ++ calls
    /\ 0 <= 2
    /\ 2 <= 0 + clicks calls
    /\ (clicks_succeed (sample_driver 2 false false []) ->
        2 = 0 + clicks calls).
Proof.
  apply (load_more_count_counts_clicks (sample_driver 2 false false [])
           3 0 2 (mkSession 0 [])
           (mkSession 2
              [EvScript scroll_script; EvScript height_script; EvWait;
               EvIsDisplayed; EvIsDisplayed;
               EvScript "arguments[0].scrollIntoView();"; EvClick;
               EvScript scroll_script; EvScript height_script; EvWait;
               EvIsDisplayed; EvIsDisplayed;
               EvScript "arguments[0].scrollIntoView();"; EvClick;
               EvScript scroll_script; EvScript height_script; EvWait])).
  vm_compute. reflexivity.
Defined.

(** ** The reveal loop: runs that never end *)

Lemma call_eq {D A : Type} (ev : event) (op : D -> result A * D)
    (s : session) :
  call ev op s
  = Some (fst (op (browser s)),
          mkSession (snd (op (browser s))) (trace s ++ [ev])).
Proof. unfold call. destruct (op (browser s)); reflexivity. Qed.

Lemma bindD_Ok {D A C : Type} (c : @Drv D A) (k : A -> @Drv D C)
    (s s1 : session) (a : A) :
  c s = Some (Ok a, s1) -> bindD c k s = k a s1.
Proof. unfold bindD. intros ->. reflexivity. Qed.

Lemma bindD_Raise {D A C : Type} (c : @Drv D A) (k : A -> @Drv D C)
    (s s1 : session) (e : exn) :
  c s = Some (Raise e, s1) -> bindD c k s = Some (Raise e, s1).
Proof. unfold bindD. intros ->. reflexivity. Qed.

Lemma execute_script_succeeds {D B : Type} (driver : WebDriver D B)
    (script : string) (arg : option B) (s : session) :
  scripts_succeed driver ->
  exists s1, execute_script driver script arg s = Some (Ok tt, s1).
Proof.
  intros H. unfold execute_script. rewrite call_eq, H.
  eexists. reflexivity.
Qed.

Lemma try_load_more_stale {D B : Type} (driver : WebDriver D B) (n : nat)
    (s : session) :
  control_always_stale driver ->
  exists s1, try_load_more driver n s = Some (Ok (Continue n), s1).
Proof.
  intros H. destruct (H (browser s)) as [b [Hwait Hdisp]].
  unfold try_load_more, catchD.
  erewrite bindD_Ok;
    [| unfold wait_presence; rewrite call_eq, Hwait; reflexivity].
  erewrite bindD_Raise;
    [| unfold is_displayed; rewrite call_eq, Hdisp; reflexivity].
  eexists. reflexivity.
Qed.

(** X3. A control that stays stale keeps the loop running: when every
    script returns, the control is always found and [is_displayed()]
    always raises [StaleElementReferenceException], the [continue] of the
    handler is taken in every pass and the loop does not return, whatever
    the number of passes allowed. *)
Theorem stale_control_never_ends {D B : Type} (driver : WebDriver D B)
    (fuel n : nat) (s : session) :
  scripts_succeed driver ->
  control_always_stale driver ->
  load_more_loop driver fuel n s = None.
Proof.
  intros Hscripts Hstale. revert s.
  induction fuel as [| fuel IH]; intros s; [reflexivity |].
  cbn [load_more_loop].
  destruct (execute_script_succeeds driver scroll_script None s Hscripts)
    as [s1 E1].
  rewrite (bindD_Ok _ _ _ _ _ E1).
  destruct (execute_script_succeeds driver height_script None s1 Hscripts)
    as [s2 E2].
  rewrite (bindD_Ok _ _ _ _ _ E2).
  destruct (try_load_more_stale driver n s2 Hstale) as [s3 E3].
  rewrite (bindD_Ok _ _ _ _ _ E3).
  apply IH.
Qed.

Lemma stale_control_never_ends_witness :
  load_more_loop (endless_driver true) 50 0 (mkSession 0 []) = None.
Proof.
  apply (stale_control_never_ends (endless_driver true) 50 0
           (mkSession 0 [])).
  - intros script arg d. reflexivity.
  - intros d. exists tt. split; [reflexivity |].
    intros d'. reflexivity.
Defined.

Lemma try_load_more_visible {D B : Type} (driver : WebDriver D B) (n : nat)
    (s : session) :
  scripts_succeed driver ->
  clicks_succeed driver ->
  control_always_visible driver ->
  exists s1, try_load_more driver n s = Some (Ok (Next (n + 1)), s1).
Proof.
  intros Hscripts Hclicks H. destruct (H (browser s)) as [b [Hwait Hdisp]].
  unfold try_load_more, catchD.
  erewrite bindD_Ok;
    [| unfold wait_presence; rewrite call_eq, Hwait; reflexivity].
  erewrite bindD_Ok;
    [| unfold is_displayed; rewrite call_eq, Hdisp; reflexivity].
  erewrite bindD_Ok;
    [| unfold is_displayed; rewrite call_eq, Hdisp; reflexivity].
  cbn [negb].
  erewrite bindD_Ok;
    [| unfold execute_script; rewrite call_eq, Hscripts; reflexivity].
  erewrite bindD_Ok;
    [| unfold click; rewrite call_eq, Hclicks; reflexivity].
  eexists. reflexivity.
Qed.

(** X4. The loop has no bound of its own on the number of clicks: when
    every script and every click returns and the control is always found
    and displayed, it clicks in every pass and does not return, whatever
    the number of passes allowed. *)
Theorem visible_control_never_ends {D B : Type} (driver : WebDriver D B)
    (fuel n : nat) (s : session) :
  scripts_succeed driver ->
  clicks_succeed driver ->
  control_always_visible driver ->
  load_more_loop driver fuel n s = None.
Proof.
  intros Hscripts Hclicks Hvisible. revert n s.
  induction fuel as [| fuel IH]; intros n s; [reflexivity |].
  cbn [load_more_loop].
  destruct (execute_script_succeeds driver scroll_script None s Hscripts)
    as [s1 E1].
  rewrite (bindD_Ok _ _ _ _ _ E1).
  destruct (execute_script_succeeds driver height_script None s1 Hscripts)
    as [s2 E2].
  rewrite (bindD_Ok _ _ _ _ _ E2).
  destruct (try_load_more_visible driver n s2 Hscripts Hclicks Hvisible)
    as [s3 E3].
  rewrite (bindD_Ok _ _ _ _ _ E3).
  apply IH.
Qed.

Lemma visible_control_never_ends_witness :
  load_more_loop (endless_driver false) 50 0 (mkSession 0 []) = None.
Proof.
  apply (visible_control_never_ends (endless_driver false) 50 0
           (mkSession 0 [])).
  - intros script arg d. reflexivity.
  - intros b d. reflexivity.
  - intros d. exists tt. split; [reflexivity |].
    intros d'. reflexivity.
Defined.

(** ** The scrape: what it returns *)

Lemma contribution_allowed (url : string) (product_list : list WebElement)
    (info : ProductInfo) :
  In info (flat_map (contribution url) product_list) ->
  is_allowed (product_url info) = Ok true.
Proof.
  intros H. apply in_flat_map in H. destruct H as [product [_ H]].
  unfold contribution in H.
  destruct (extract_product_info product url) as [[i |] | e] eqn:E;
    try (destruct H; fail).
  destruct H as [<- | []].
  apply extract_Some_body, extract_body_Some in E. apply E.
Qed.

Lemma contribution_length (url : string) (product_list : list WebElement) :
  List.length (flat_map (contribution url) product_list)
  <= List.length product_list.
Proof.
  induction product_list as [| product rest IH]; simpl; [lia |].
  rewrite length_app. unfold contribution at 1.
  destruct (extract_product_info product url) as [[i |] | e]; simpl; lia.
Qed.

(** X5. What the scrape returns when it returns normally: for an entry URL
    that is not allowed, the empty list, without any call on a browser
    session; otherwise the records of the elements that the item-card
    selector found, in the order found, with the elements that gave no
    record left out.  The list is never longer than the list of elements,
    and the product URL of every record in it passes [is_allowed]. *)
Theorem scrape_returns_allowed_records_in_order {D B : Type}
    (driver : WebDriver D B) (fuel : nat) (url : string)
    (products : list ProductInfo) (calls : list event) :
  scrape_uniqlo_women_tops driver fuel url = Some (Ok products, calls) ->
  (is_allowed url = Ok false /\ products = [] /\ calls = [])
  \/ (is_allowed url = Ok true
      /\ exists d product_list,
           fst (drv_find_elements driver "article.fr-grid-item.w4" d)
           = Ok product_list
           /\ products = flat_map (contribution url) product_list
           /\ List.length products <= List.length product_list
           /\ forall info,
                In info products ->
                is_allowed (product_url info) = Ok true).
Proof.
  unfold scrape_uniqlo_women_tops.
  destruct (is_allowed url) as [[|] | e] eqn:Eallowed.
  - destruct (drv_setup driver) as [d0 | e]; [| discriminate].
    destruct (scrape_session driver fuel url (mkSession d0 [EvSetup]))
      as [[r s'] |] eqn:Erun; [| discriminate].
    intros [= -> <-]. right. split; [reflexivity |].
    unfold scrape_session in Erun.
    apply bindD_inv in Erun.
    destruct Erun as [[u1 [s1 [_ H]]] | [e [_ He]]]; [| discriminate He].
    apply bindD_inv in H.
    destruct H as [[u2 [s2 [_ H]]] | [e [_ He]]]; [| discriminate He].
    apply bindD_inv in H.
    destruct H as [[u3 [s3 [_ H]]] | [e [_ He]]]; [| discriminate He].
    apply bindD_inv in H.
    destruct H as [[m [s4 [_ H]]] | [e [_ He]]]; [| discriminate He].
    apply bindD_inv in H.
    destruct H as [[product_list [s5 [Hfind H]]] | [e [_ He]]];
      [| discriminate He].
    apply bindD_inv in H.
    destruct H as [[ps [s6 [Hcollect H]]] | [e [_ He]]]; [| discriminate He].
    apply bindD_inv in H.
    destruct H as [[u7 [s7 [_ H]]] | [e [_ He]]]; [| discriminate He].
    injection H as <- _.
    apply call_inv in Hfind. destruct Hfind as [Hfind _].
    unfold lift in Hcollect. injection Hcollect as Hcollect _.
    rewrite collect_products_flat_map in Hcollect.
    injection Hcollect as <-.
    exists (browser s4), product_list.
    split; [symmetry; exact Hfind |].
    split; [reflexivity |].
    split; [apply contribution_length |].
    intros info. apply contribution_allowed.
  - intros [= <- <-]. left. repeat split.
  - discriminate.
Qed.

(** The run on the page with two cards, one of them without title. *)
Lemma scrape_returns_allowed_records_in_order_witness :
  (is_allowed sample_url = Ok false
   /\ [sample_info] = [] /\ sample_calls = [])
  \/ (is_allowed sample_url = Ok true
      /\ exists d product_list,
           fst (drv_find_elements
                  (sample_driver 0 false false [sample_card; card_no_title])
                  "article.fr-grid-item.w4" d)
           = Ok product_list
           /\ [sample_info] = flat_map (contribution sample_url) product_list
           /\ List.length [sample_info] <= List.length product_list
           /\ forall info,
                In info [sample_info] ->
                is_allowed (product_url info) = Ok true).
Proof.
  apply (scrape_returns_allowed_records_in_order
           (sample_driver 0 false false [sample_card; card_no_title])
           1 sample_url [sample_info] sample_calls).
  vm_compute. reflexivity.
Defined.

(** ** The record: trimmed texts *)

Lemma strip_trimmed (t : string) : trimmed (PyStr.strip t).
Proof. unfold trimmed. apply (strip_trims t). Qed.

Lemma last_text_trimmed (spans : list WebElement) (p : string) :
  last_text spans = Ok (Some p) -> trimmed p.
Proof.
  intros H. apply last_text_spec in H.
  destruct H as [[_ H] | [front [x [t [_ [_ H]]]]]]; [discriminate H |].
  injection H as ->. apply strip_trimmed.
Qed.

Lemma first_text_trimmed (l : list WebElement) (p : string) :
  first_text l = Ok (Some p) -> trimmed p.
Proof.
  destruct l as [| x rest]; simpl; [discriminate |].
  intros H. apply bind_Ok_inv in H. destruct H as [t [_ H]].
  injection H as <-. apply strip_trimmed.
Qed.

Lemma additional_texts_trimmed (items : list WebElement)
    (tags : list string) :
  additional_texts items = Ok tags -> Forall trimmed tags.
Proof.
  revert tags. induction items as [| item rest IH]; simpl; intros tags H.
  - injection H as <-. constructor.
  - apply bind_Ok_inv in H; destruct H as [dt [_ H]].
    apply bind_Ok_inv in H; destruct H as [keep [_ H]].
    apply bind_Ok_inv in H; destruct H as [here [Hhere H]].
    apply bind_Ok_inv in H; destruct H as [others [Hothers H]].
    injection H as <-.
    apply Forall_app. split; [| apply IH; exact Hothers].
    destruct keep.
    + apply bind_Ok_inv in Hhere; destruct Hhere as [t [_ Hhere]].
      injection Hhere as <-. constructor; [apply strip_trimmed | constructor].
    + injection Hhere as <-. constructor.
Qed.

(** X6. Every text of an emitted record is trimmed: the title, the size
    information, both prices, the limited-offer label and each additional
    tag have no white space at their start or end. *)
Theorem record_texts_are_trimmed (product : WebElement) (base_url : string)
    (info : ProductInfo) :
  extract_product_info product base_url = Ok (Some info) ->
  trimmed (title info)
  /\ trimmed (size_info info)
  /\ (forall p, original_price info = Some p -> trimmed p)
  /\ (forall p, sale_price info = Some p -> trimmed p)
  /\ (forall p, limited_offer info = Some p -> trimmed p)
  /\ Forall trimmed (additional_info info).
Proof.
  intros H. apply extract_Some_body, extract_body_Some in H.
  destruct H as [[_ [_ [_ [Htitle [Hsize [Hprice [_ [Hoffer [Htags _]]]]]]]]]
                   _].
  split; [| split; [| split; [| split; [| split]]]].
  - unfold extract_title in Htitle.
    apply bind_Ok_inv in Htitle; destruct Htitle as [h2 [_ H]].
    apply bind_Ok_inv in H; destruct H as [t [_ H]].
    injection H as <-. apply strip_trimmed.
  - unfold extract_size_info in Hsize.
    apply bind_Ok_inv in Hsize; destruct Hsize as [el [_ H]].
    apply bind_Ok_inv in H; destruct H as [t [_ H]].
    injection H as <-. apply strip_trimmed.
  - unfold extract_prices in Hprice.
    apply bind_Ok_inv in Hprice; destruct Hprice as [pe [_ H]].
    apply bind_Ok_inv in H; destruct H as [originals [_ H]].
    apply bind_Ok_inv in H; destruct H as [original [Ho H]].
    apply bind_Ok_inv in H; destruct H as [limiteds [_ H]].
    apply bind_Ok_inv in H; destruct H as [sale [_ H]].
    injection H as H _. intros p Hp. rewrite Hp in H. subst original.
    apply (last_text_trimmed originals p Ho).
  - unfold extract_prices in Hprice.
    apply bind_Ok_inv in Hprice; destruct Hprice as [pe [_ H]].
    apply bind_Ok_inv in H; destruct H as [originals [_ H]].
    apply bind_Ok_inv in H; destruct H as [original [_ H]].
    apply bind_Ok_inv in H; destruct H as [limiteds [_ H]].
    apply bind_Ok_inv in H; destruct H as [sale [Hs H]].
    injection H as _ H. intros p Hp. rewrite Hp in H.
    destruct (negb (truthy_opt sale)); [discriminate H |]. subst sale.
    apply (last_text_trimmed limiteds p Hs).
  - unfold extract_limited_offer in Hoffer.
    apply bind_Ok_inv in Hoffer; destruct Hoffer as [l [_ H]].
    intros p Hp. rewrite Hp in H. apply (first_text_trimmed l p H).
  - unfold extract_additional_info in Htags.
    apply bind_Ok_inv in Htags; destruct Htags as [items [_ H]].
    apply (additional_texts_trimmed items _ H).
Qed.

Lemma record_texts_are_trimmed_witness :
  trimmed (title sample_info)
  /\ trimmed (size_info sample_info)
  /\ (forall p, original_price sample_info = Some p -> trimmed p)
  /\ (forall p, sale_price sample_info = Some p -> trimmed p)
  /\ (forall p, limited_offer sample_info = Some p -> trimmed p)
  /\ Forall trimmed (additional_info sample_info).
Proof.
  apply (record_texts_are_trimmed sample_card sample_url sample_info).
  vm_compute. reflexivity.
Defined.

(** ** The record: the additional tags *)

Lemma additional_texts_kept (items : list WebElement) (tags : list string) :
  additional_texts items = Ok tags ->
  Forall (fun item =>
            exists data_test,
              get_attribute item "data-test" = Ok (Some data_test)) items
  /\ Forall2 (fun item tag =>
                exists t, text item = Ok t /\ tag = PyStr.strip t)
             (filter keeps_flag items) tags.
Proof.
  revert tags. induction items as [| item rest IH]; simpl; intros tags H.
  - injection H as <-. split; constructor.
  - apply bind_Ok_inv in H; destruct H as [dt [Hdt H]].
    apply bind_Ok_inv in H; destruct H as [keep [Hkeep H]].
    apply bind_Ok_inv in H; destruct H as [here [Hhere H]].
    apply bind_Ok_inv in H; destruct H as [others [Hothers H]].
    injection H as <-.
    destruct (IH others Hothers) as [Hall Hrel].
    destruct dt as [data_test |]; [| discriminate Hkeep].
    injection Hkeep as <-.
    split; [constructor; [exists data_test; exact Hdt | exact Hall] |].
    unfold keeps_flag at 1. rewrite Hdt.
    destruct (negb (PyStr.contains "limited-offer" data_test)).
    + apply bind_Ok_inv in Hhere; destruct Hhere as [t [Ht Hhere]].
      injection Hhere as <-. simpl.
      constructor; [exists t; split; [exact Ht | reflexivity] | exact Hrel].
    + injection Hhere as <-. exact Hrel.
Qed.

(** X7. The additional tags of an emitted record are the trimmed texts of
    the flag list items whose [data-test] attribute does not contain
    "limited-offer", one tag for each such item and in the order of the
    items (duplicates are kept); every flag list item of such a record has
    a [data-test] attribute. *)
Theorem additional_info_keeps_order (product : WebElement)
    (base_url : string) (info : ProductInfo) :
  extract_product_info product base_url = Ok (Some info) ->
  exists items,
    find_elements product "ul.fr-status-flag li" = Ok items
    /\ Forall (fun item =>
                 exists data_test,
                   get_attribute item "data-test" = Ok (Some data_test))
              items
    /\ Forall2 (fun item tag =>
                  exists t, text item = Ok t /\ tag = PyStr.strip t)
               (filter keeps_flag items) (additional_info info).
Proof.
  intros H. apply extract_Some_body, extract_body_Some in H.
  destruct H as [[_ [_ [_ [_ [_ [_ [_ [_ [Htags _]]]]]]]]] _].
  unfold extract_additional_info in Htags.
  apply bind_Ok_inv in Htags; destruct Htags as [items [Hfind H]].
  exists items. split; [exact Hfind |].
  apply additional_texts_kept. exact H.
Qed.

Lemma additional_info_keeps_order_witness :
  exists items,
    find_elements sample_card "ul.fr-status-flag li" = Ok items
    /\ Forall (fun item =>
                 exists data_test,
                   get_attribute item "data-test" = Ok (Some data_test))
              items
    /\ Forall2 (fun item tag =>
                  exists t, text item = Ok t /\ tag = PyStr.strip t)
               (filter keeps_flag items) (additional_info sample_info).
Proof.
  apply (additional_info_keeps_order sample_card sample_url sample_info).
  vm_compute. reflexivity.
Defined.

(** ** The record: the product id *)

Lemma append_assoc_str (a b c : string) : (a +++ b) +++ c = a +++ b +++ c.
Proof. induction a as [| x a IH]; simpl; [| rewrite IH]; reflexivity. Qed.

Lemma drop_append (p rest : string) :
  PyStr.drop (String.length p) (p +++ rest) = rest.
Proof. induction p as [| c p IH]; simpl; [destruct rest |]; auto. Qed.

Lemma join_cons_char (sep : string) (d : ascii) (p : string)
    (ps : list string) :
  PyStr.join sep (String d p :: ps) = String d (PyStr.join sep (p :: ps)).
Proof. destruct ps; reflexivity. Qed.

Lemma join_snoc (sep : string) (init : list string) (x : string) :
  init <> [] ->
  PyStr.join sep (init ++ [x]) = PyStr.join sep init +++ sep +++ x.
Proof.
  induction init as [| a rest IH]; intros Hne; [congruence |].
  destruct rest as [| b rest].
  - reflexivity.
  - change (PyStr.join sep ((a :: b :: rest) ++ [x]))
      with (a +++ sep +++ PyStr.join sep ((b :: rest) ++ [x])).
    rewrite IH by discriminate.
    change (PyStr.join sep (a :: b :: rest))
      with (a +++ sep +++ PyStr.join sep (b :: rest)).
    rewrite !append_assoc_str. reflexivity.
Qed.

(** [sep.join(s.split(sep)) == s], for a separator of one or more
    characters. *)
Lemma split_aux_join (c : ascii) (sep' : string) (skip : nat) (s : string) :
  PyStr.join (String c sep')
    (fst (PyStr.split_aux (String c sep') skip s)
     :: snd (PyStr.split_aux (String c sep') skip s))
  = PyStr.drop skip s.
Proof.
  revert skip. induction s as [| d s IH]; intros skip.
  - destruct skip; reflexivity.
  - destruct skip as [| k].
    + cbn [PyStr.split_aux].
      destruct (String.prefix (String c sep') (String d s)) eqn:E.
      * specialize (IH (String.length (String c sep') - 1)).
        destruct (PyStr.split_aux (String c sep')
                    (String.length (String c sep') - 1) s) as [p ps].
        cbn [fst snd] in *.
        change (PyStr.join (String c sep') (EmptyString :: p :: ps))
          with (String c sep' +++ PyStr.join (String c sep') (p :: ps)).
        rewrite IH.
        apply prefix_append in E. destruct E as [rest E].
        injection E as -> ->.
        cbn [String.length]. rewrite Nat.sub_succ, Nat.sub_0_r.
        rewrite drop_append. reflexivity.
      * specialize (IH 0).
        destruct (PyStr.split_aux (String c sep') 0 s) as [p ps].
        cbn [fst snd] in *.
        rewrite join_cons_char, IH. reflexivity.
    + cbn [PyStr.split_aux PyStr.drop]. apply IH.
Qed.

Lemma split_aux_single (sep : string) (s p : string) :
  PyStr.split_aux sep 0 s = (p, []) -> p = s.
Proof.
  revert p. induction s as [| d s IH]; intros p; cbn [PyStr.split_aux].
  - intros [= <-]. reflexivity.
  - destruct (String.prefix sep (String d s)).
    + destruct (PyStr.split_aux sep (String.length sep - 1) s).
      discriminate.
    + destruct (PyStr.split_aux sep 0 s) as [p' ps'] eqn:E.
      intros [= <- ->]. rewrite (IH p' eq_refl). reflexivity.
Qed.

(** The last piece of [s.split(sep)] holds no occurrence of [sep]. *)
Lemma split_aux_last (c : ascii) (sep' : string) (skip : nat) (s : string) :
  PyStr.contains (String c sep')
    (last (fst (PyStr.split_aux (String c sep') skip s)
           :: snd (PyStr.split_aux (String c sep') skip s)) EmptyString)
  = false.
Proof.
  revert skip. induction s as [| d s IH]; intros skip.
  - destruct skip; reflexivity.
  - destruct skip as [| k].
    + cbn [PyStr.split_aux].
      destruct (String.prefix (String c sep') (String d s)) eqn:E.
      * specialize (IH (String.length (String c sep') - 1)).
        destruct (PyStr.split_aux (String c sep')
                    (String.length (String c sep') - 1) s) as [p ps].
        exact IH.
      * specialize (IH 0).
        destruct (PyStr.split_aux (String c sep') 0 s) as [p ps] eqn:Es.
        cbn [fst snd] in *.
        destruct ps as [| q ps].
        -- apply split_aux_single in Es. subst p.
           cbn [last] in *. cbn [PyStr.contains].
           rewrite E, IH. reflexivity.
        -- exact IH.
    + cbn [PyStr.split_aux]. apply IH.
Qed.

(** X8. The product id of an emitted record is what follows the last
    "product-card-" in the [data-test] attribute of the item: the attribute
    is some text followed by the id, that text is empty (the attribute
    holds no "product-card-", and the id is the whole attribute) or ends
    with "product-card-", and the id itself holds no "product-card-". *)
Theorem product_id_follows_last_marker (product : WebElement)
    (base_url : string) (info : ProductInfo) :
  extract_product_info product base_url = Ok (Some info) ->
  exists data_test pre,
    get_attribute product "data-test" = Ok (Some data_test)
    /\ data_test = pre +++ product_id info
    /\ (pre = EmptyString \/ exists pre', pre = pre' +++ "product-card-")
    /\ PyStr.contains "product-card-" (product_id info) = false.
Proof.
  intros H. apply extract_Some_body, extract_body_Some in H.
  destruct H as [[Hid _] _].
  unfold extract_product_id in Hid.
  apply bind_Ok_inv in Hid; destruct Hid as [v [Hattr H]].
  destruct v as [data_test |]; [| discriminate H].
  cbn [split_last] in H. injection H as H.
  unfold PyStr.split in H.
  pose proof (split_aux_join "p" "roduct-card-" 0 data_test) as Hjoin.
  pose proof (split_aux_last "p" "roduct-card-" 0 data_test) as Hlast.
  destruct (PyStr.split_aux "product-card-" 0 data_test) as [p ps].
  cbn [fst snd PyStr.drop] in *.
  rewrite H in Hlast.
  assert (Hne : p :: ps <> []) by discriminate.
  rewrite (app_removelast_last EmptyString Hne) in Hjoin.
  rewrite H in Hjoin.
  destruct (removelast (p :: ps)) as [| a init] eqn:Einit.
  - exists data_test, EmptyString.
    split; [exact Hattr |]. split; [symmetry; exact Hjoin |].
    split; [left; reflexivity | exact Hlast].
  - rewrite join_snoc in Hjoin by discriminate.
    exists data_test,
      (PyStr.join "product-card-" (a :: init) +++ "product-card-").
    split; [exact Hattr |].
    split; [rewrite append_assoc_str; symmetry; exact Hjoin |].
    split; [right; eexists; reflexivity | exact Hlast].
Qed.

Lemma product_id_follows_last_marker_witness :
  exists data_test pre,
    get_attribute sample_card "data-test" = Ok (Some data_test)
    /\ data_test = pre +++ product_id sample_info
    /\ (pre = EmptyString \/ exists pre', pre = pre' +++ "product-card-")
    /\ PyStr.contains "product-card-" (product_id sample_info) = false.
Proof.
  apply (product_id_follows_last_marker sample_card sample_url sample_info).
  vm_compute. reflexivity.
Defined.

(** ** The record: prices at the edges *)

Lemma price_float_truthy (p : string) (x : PyFloat.float) :
  price_float p = Ok x -> PyStr.truthy p = true.
Proof.
  destruct p; [| reflexivity].
  rewrite price_float_empty. discriminate.
Qed.

Lemma compute_discount_zero (o s : string) (sg : bool) (fs : PyFloat.float) :
  price_float o = Ok (S754_zero sg) ->
  price_float s = Ok fs ->
  compute_discount (Some o) (Some s) = Raise ZeroDivisionError.
Proof.
  intros Ho Hs. unfold compute_discount.
  rewrite (price_float_truthy o _ Ho), (price_float_truthy s _ Hs).
  cbn [andb]. rewrite Ho, Hs. reflexivity.
Qed.

(** X9. An item whose original price parses to zero (of either sign) and
    whose sale price parses as a float yields no record: the division
    raises [ZeroDivisionError], the handler of the discount computation
    handles [ValueError] only, and the handler at the item boundary turns
    the error into [None]. *)
Theorem zero_original_price_no_record (product : WebElement)
    (base_url : string) (o s : string) (sg : bool) (fs : PyFloat.float) :
  extract_prices product = Ok (Some o, Some s) ->
  price_float o = Ok (S754_zero sg) ->
  price_float s = Ok fs ->
  extract_product_info product base_url = Ok None.
Proof.
  intros Hprice Ho Hs.
  pose proof (compute_discount_zero o s sg fs Ho Hs) as Hd.
  unfold extract_product_info, extract_body.
  destruct (extract_product_id product); cbn [bind catch]; [| reflexivity].
  destruct (extract_image product); cbn [bind catch]; [| reflexivity].
  destruct (extract_color_options product); cbn [bind catch];
    [| reflexivity].
  destruct (extract_title product); cbn [bind catch]; [| reflexivity].
  destruct (extract_size_info product); cbn [bind catch]; [| reflexivity].
  rewrite Hprice. cbn [bind catch]. rewrite Hd. reflexivity.
Qed.

Lemma zero_original_price_no_record_witness :
  extract_product_info card_free sample_url = Ok None.
Proof.
  apply (zero_original_price_no_record card_free sample_url
           "RM0.00" "RM5.00" false (PyFloat.of_decimal false 5 0)).
  - vm_compute. reflexivity.
  - vm_compute. reflexivity.
  - vm_compute. reflexivity.
Defined.

Lemma hundred_finite :
  exists m e, PyFloat.hundred = S754_finite false m e.
Proof. vm_compute. eexists. eexists. reflexivity. Qed.

Lemma discount_value_equal (m : positive) (e : Z) :
  discount_value (S754_finite false m e) (S754_finite false m e)
  = Ok (S754_zero false).
Proof.
  unfold discount_value, PyFloat.truediv, PyFloat.sub, SFsub.
  rewrite Z.sub_diag. cbn [binary_normalize bind SFdiv xorb].
  destruct hundred_finite as [mh [eh ->]].
  reflexivity.
Qed.

(** X10. A sale price equal to the original price is not "no discount":
    when both prices of an emitted record parse to the same positive
    finite float, the discount field is the text "0.0%", not [None]. *)
Theorem equal_prices_give_zero_percent (product : WebElement)
    (base_url : string) (info : ProductInfo) (o s : string)
    (m : positive) (e : Z) :
  extract_product_info product base_url = Ok (Some info) ->
  original_price info = Some o ->
  sale_price info = Some s ->
  price_float o = Ok (S754_finite false m e) ->
  price_float s = Ok (S754_finite false m e) ->
  discount info = Some "0.0%".
Proof.
  intros H Horig Hsale Ho Hs.
  apply extract_Some_body, extract_body_Some in H.
  destruct H as [[_ [_ [_ [_ [_ [_ [[d [Hd Hfield]] _]]]]]]] _].
  rewrite Hfield. rewrite Horig, Hsale in Hd.
  unfold compute_discount in Hd.
  rewrite (price_float_truthy o _ Ho), (price_float_truthy s _ Hs) in Hd.
  cbn [andb] in Hd. rewrite Ho, Hs in Hd. cbn [bind] in Hd.
  rewrite discount_value_equal in Hd. cbn [bind catch] in Hd.
  injection Hd as <-. vm_compute. reflexivity.
Qed.

Lemma equal_prices_give_zero_percent_witness :
  exists info,
    extract_product_info card_same_price sample_url = Ok (Some info)
    /\ original_price info = Some "RM59.90"
    /\ sale_price info = Some "RM 59.90"
    /\ discount info = Some "0.0%".
Proof.
  eexists. split; [vm_compute; reflexivity |].
  split; [reflexivity |]. split; [reflexivity |].
  eapply (equal_prices_give_zero_percent card_same_price sample_url _
            "RM59.90" "RM 59.90").
  - vm_compute. reflexivity.
  - reflexivity.
  - reflexivity.
  - vm_compute. reflexivity.
  - vm_compute. reflexivity.
Defined.

(** ** The path policy on the URLs of the site *)

Lemma remove_unsafe_app a b :
  Urllib.remove_unsafe (a +++ b) = Urllib.remove_unsafe a +++ Urllib.remove_unsafe b.
Proof.
  induction a as [| c a IH]; simpl; [reflexivity |].
  destruct (Urllib.unsafe_url_byte c); simpl; rewrite IH; reflexivity.
Qed.

Lemma all_chars_cons p c s : PyStr.all_chars p (String c s) = p c && PyStr.all_chars p s.
Proof. reflexivity. Qed.

Lemma remove_unsafe_clean d :
  PyStr.all_chars (fun c => negb (Urllib.unsafe_url_byte c)) d = true ->
  Urllib.remove_unsafe d = d.
Proof.
  induction d as [| c d IH]; [reflexivity |].
  rewrite all_chars_cons. intros H. apply andb_true_iff in H. destruct H as [Hc Hd].
  simpl. apply negb_true_iff in Hc. rewrite Hc, (IH Hd). reflexivity.
Qed.

Lemma find_app_found c a b i : PyStr.find c a = Some i -> PyStr.find c (a +++ b) = Some i.
Proof.
  revert i. induction a as [| d a IH]; simpl; intros i; [discriminate |].
  destruct (Ascii.eqb c d); [auto |].
  destruct (PyStr.find c a) as [j |]; [| discriminate].
  rewrite (IH j eq_refl). auto.
Qed.

Lemma take_app_le n a b : n <= String.length a -> PyStr.take n (a +++ b) = PyStr.take n a.
Proof.
  revert a. induction n as [| n IH]; intros a H; [destruct a; reflexivity |].
  destruct a as [| c a]; simpl in *; [lia |]. rewrite IH by lia. reflexivity.
Qed.

Lemma drop_app_le n a b :
  n <= String.length a -> PyStr.drop n (a +++ b) = PyStr.drop n a +++ b.
Proof.
  revert a. induction n as [| n IH]; intros a H; [destruct a; reflexivity |].
  destruct a as [| c a]; simpl in *; [lia |]. apply IH. lia.
Qed.

Lemma take_app_ge n a b :
  String.length a <= n ->
  PyStr.take n (a +++ b) = a +++ PyStr.take (n - String.length a) b.
Proof.
  revert n. induction a as [| c a IH]; intros n H; simpl.
  - rewrite Nat.sub_0_r. reflexivity.
  - destruct n as [| n]; simpl in *; [lia |]. rewrite IH by lia. reflexivity.
Qed.

Lemma span_netloc_app host rest :
  PyStr.all_chars (fun c => negb (PyStr.char_in c "/?#")) host = true ->
  String.prefix "/" rest = true ->
  Urllib.span_netloc (host +++ rest) = (host, rest).
Proof.
  intros Hh Hr. apply prefix_append in Hr. destruct Hr as [rest' ->].
  induction host as [| c host IH].
  - reflexivity.
  - rewrite all_chars_cons in Hh. apply andb_true_iff in Hh. destruct Hh as [Hc Hh].
    apply negb_true_iff in Hc.
    cbn [String.append Urllib.span_netloc]. rewrite Hc.
    cbn [String.append] in IH. rewrite (IH Hh). reflexivity.
Qed.

Lemma partition_app c a b :
  PyStr.char_in c a = false ->
  PyStr.partition c (a +++ b)
  = (a +++ fst (PyStr.partition c b), snd (PyStr.partition c b)).
Proof.
  induction a as [| d a IH]; intros H.
  - simpl. destruct (PyStr.partition c b); reflexivity.
  - unfold PyStr.char_in in *. simpl in H. apply orb_false_iff in H.
    destruct H as [Hd Ha].
    cbn [String.append PyStr.partition]. rewrite Hd, (IH Ha). reflexivity.
Qed.

Lemma find_get c s k : PyStr.find c s = Some k -> String.get k s = Some c.
Proof.
  revert k. induction s as [| d s IH]; simpl; intros k; [discriminate |].
  destruct (Ascii.eqb_spec c d) as [-> | Hne].
  - intros [= <-]. reflexivity.
  - destruct (PyStr.find c s) as [j |]; [| discriminate].
    intros [= <-]. simpl. auto.
Qed.

Lemma get_drop j k s : String.get k (PyStr.drop j s) = String.get (j + k) s.
Proof.
  revert s. induction j as [| j IH]; intros s; [reflexivity |].
  destruct s as [| d s]; simpl; [destruct k; reflexivity | apply IH].
Qed.

Lemma get_app_clean c d a n :
  PyStr.char_in c d = false -> String.get n (d +++ a) = Some c -> String.length d <= n.
Proof.
  revert n. induction d as [| x d IH]; intros n Hc Hg; simpl; [lia |].
  unfold PyStr.char_in in *. simpl in Hc. apply orb_false_iff in Hc.
  destruct Hc as [Hx Hd].
  destruct n as [| n]; simpl in Hg.
  - injection Hg as ->. rewrite Ascii.eqb_refl in Hx. discriminate.
  - apply IH in Hg; [lia | exact Hd].
Qed.

Lemma splitparams_keeps d a :
  PyStr.char_in ";" d = false ->
  exists z, fst (Urllib._splitparams (d +++ a)) = d +++ z.
Proof.
  intros Hd. unfold Urllib._splitparams.
  destruct (PyStr.rfind "/" (d +++ a)) as [j |].
  - destruct (PyStr.find ";" (PyStr.drop j (d +++ a))) as [k |] eqn:E.
    + apply find_get in E. rewrite get_drop in E.
      apply (get_app_clean _ _ _ _ Hd) in E.
      cbn [fst]. rewrite take_app_ge by exact E. eexists. reflexivity.
    + exists a. reflexivity.
  - destruct (PyStr.find ";" (d +++ a)) as [i |] eqn:E.
    + apply find_get in E. apply (get_app_clean _ _ _ _ Hd) in E.
      cbn [fst]. rewrite take_app_ge by exact E. eexists. reflexivity.
    + exists a. reflexivity.
Qed.

Lemma clean_path_parts d :
  clean_path d = true ->
  String.prefix "/" d = true
  /\ PyStr.char_in "#" d = false /\ PyStr.char_in "?" d = false
  /\ PyStr.char_in ";" d = false
  /\ Urllib.remove_unsafe d = d.
Proof.
  unfold clean_path. intros H. apply andb_true_iff in H. destruct H as [Hp Hall].
  split; [exact Hp |].
  assert (Hchars : forall c, PyStr.char_in c "#?;" = true -> PyStr.char_in c d = false).
  { intros c Hc. clear Hp. induction d as [| x d IH]; [reflexivity |].
    rewrite all_chars_cons in Hall. apply andb_true_iff in Hall.
    destruct Hall as [Hx Hall].
    apply andb_true_iff in Hx. destruct Hx as [Hx _]. apply negb_true_iff in Hx.
    unfold PyStr.char_in in *. simpl. 
    specialize (IH Hall). simpl in IH. rewrite IH, orb_false_r.
    destruct (Ascii.eqb_spec c x) as [-> |]; [| reflexivity].
    simpl in Hc, Hx. rewrite Hx in Hc. discriminate. }
  split; [apply Hchars; reflexivity |].
  split; [apply Hchars; reflexivity |].
  split; [apply Hchars; reflexivity |].
  apply remove_unsafe_clean. clear Hp Hchars.
  induction d as [| x d IH]; [reflexivity |].
  rewrite all_chars_cons in *. apply andb_true_iff in Hall. destruct Hall as [Hx Hall].
  apply andb_true_iff in Hx. destruct Hx as [_ Hx].
  rewrite Hx, (IH Hall). reflexivity.
Qed.

Lemma site_url_path d x :
  clean_path d = true ->
  exists parsed z,
    Urllib.urlparse (site +++ d +++ x) EmptyString = Ok parsed
    /\ Urllib.path parsed = d +++ z.
Proof.
  intros Hclean.
  destruct (clean_path_parts d Hclean) as [Hslash [Hhash [Hq [Hsemi Hunsafe]]]].
  unfold Urllib.urlparse, Urllib.urlsplit. cbv zeta.
  change (PyStr.lstrip_by Urllib.c0_control_or_space (site +++ d +++ x))
    with (site +++ d +++ x).
  rewrite !remove_unsafe_app, Hunsafe.
  change (Urllib.remove_unsafe site) with site.
  set (x' := Urllib.remove_unsafe x).
  rewrite (find_app_found ":" site (d +++ x') 5 eq_refl).
  change (match site +++ d +++ x' with
          | String c _ => PyStr.is_ascii_alpha c
          | EmptyString => false
          end) with true.
  rewrite (take_app_le 5 site) by (vm_compute; lia).
  change (PyStr.all_chars (fun c => PyStr.char_in c Urllib.scheme_chars)
            (PyStr.take 5 site)) with true.
  cbn [andb].
  rewrite (drop_app_le 6 site) by (vm_compute; lia).
  change (PyStr.drop 6 site) with ("//" +++ "www.uniqlo.com").
  change (PyStr.lower (PyStr.take 5 site)) with "https".
  change (("//" +++ "www.uniqlo.com") +++ d +++ x')
    with ("//" +++ "www.uniqlo.com" +++ d +++ x').
  assert (Hp : String.prefix "//" ("//" +++ "www.uniqlo.com" +++ d +++ x') = true)
    by (apply prefix_append; eexists; reflexivity).
  rewrite Hp.
  unfold Urllib._splitnetloc.
  change (PyStr.drop 2 ("//" +++ "www.uniqlo.com" +++ d +++ x'))
    with ("www.uniqlo.com" +++ d +++ x').
  rewrite span_netloc_app;
    [| reflexivity
     | apply prefix_append; apply prefix_append in Hslash;
       destruct Hslash as [r ->]; eexists; reflexivity].
  change (PyStr.char_in "[" "www.uniqlo.com") with false.
  change (PyStr.char_in "]" "www.uniqlo.com") with false.
  cbn [andb orb negb bind].
  rewrite (partition_app "#" d x' Hhash).
  destruct (PyStr.partition "#" x') as [a1 f1]. cbn [fst snd].
  assert (Hend : forall a qq frag,
             exists parsed z,
               bind (Ok (Urllib.mkSplit "https" "www.uniqlo.com" (d +++ a) qq frag))
                 (fun r =>
                    let '(url0, params) :=
                      if PyStr.mem (Urllib.s_scheme r) Urllib.uses_params
                         && PyStr.char_in ";" (Urllib.s_path r)
                      then Urllib._splitparams (Urllib.s_path r)
                      else (Urllib.s_path r, EmptyString) in
                    Ok (Urllib.mkParse (Urllib.s_scheme r) (Urllib.s_netloc r)
                          url0 params (Urllib.s_query r) (Urllib.s_fragment r)))
               = Ok parsed
               /\ Urllib.path parsed = d +++ z).
  { intros a qq frag.
    cbn [bind Urllib.s_scheme Urllib.s_path Urllib.s_netloc Urllib.s_query
         Urllib.s_fragment].
    change (PyStr.mem "https" Urllib.uses_params) with true. cbn [andb].
    destruct (PyStr.char_in ";" (d +++ a)).
    - destruct (splitparams_keeps d a Hsemi) as [z Hz].
      destruct (Urllib._splitparams (d +++ a)) as [u p]. cbn [fst] in Hz. subst u.
      eexists. exists z. split; reflexivity.
    - eexists. exists a. split; reflexivity. }
  destruct f1 as [f1 |];
    rewrite (partition_app "?" d a1 Hq);
    destruct (PyStr.partition "?" a1) as [a [q |]]; cbn [fst snd];
    apply Hend.
Qed.

Lemma disallowed_paths_clean (d : string) :
  In d disallowed_paths -> clean_path d = true.
Proof.
  intros [<- | [<- | [<- | [<- | []]]]]; vm_compute; reflexivity.
Qed.

(** X11. [is_allowed] refuses every URL of the site whose path begins with
    a disallowed prefix, whatever follows the prefix: more path, parameters,
    a query, a fragment, or characters that [urlsplit] removes. *)
Theorem is_allowed_refuses_site_urls_under_prefix (d x : string) :
  In d disallowed_paths ->
  is_allowed (site +++ d +++ x) = Ok false.
Proof.
  intros Hin.
  destruct (site_url_path d x (disallowed_paths_clean d Hin))
    as [parsed [z [Hparse Hpath]]].
  unfold is_allowed. rewrite Hparse. cbn [bind].
  assert (H : existsb (fun disallowed =>
                         PyStr.startswith (Urllib.path parsed) disallowed)
                      disallowed_paths = true).
  { apply disallowed_prefix_found. exists d, z. split; assumption. }
  rewrite H. reflexivity.
Qed.

Lemma is_allowed_refuses_site_urls_under_prefix_witness :
  is_allowed (site +++ "/my/en/search" +++ "/results;p=1?q=airism#top")
  = Ok false.
Proof.
  apply (is_allowed_refuses_site_urls_under_prefix "/my/en/search"
           "/results;p=1?q=airism#top").
  simpl. right. left. reflexivity.
Defined.

(** X12. [is_allowed] accepts every URL of the site under the product
    pages and under the women's pages, whatever follows the prefix. *)
Theorem is_allowed_accepts_product_and_women_pages (x : string) :
  is_allowed (site +++ "/my/en/products/" +++ x) = Ok true
  /\ is_allowed (site +++ "/my/en/women/" +++ x) = Ok true.
Proof.
  split.
  - destruct (site_url_path "/my/en/products/" x eq_refl)
      as [parsed [z [Hparse Hpath]]].
    unfold is_allowed. rewrite Hparse. cbn [bind]. rewrite Hpath.
    vm_compute. reflexivity.
  - destruct (site_url_path "/my/en/women/" x eq_refl)
      as [parsed [z [Hparse Hpath]]].
    unfold is_allowed. rewrite Hparse. cbn [bind]. rewrite Hpath.
    vm_compute. reflexivity.
Qed.

(** * The files written *)

(** ** Texts read from the left *)

Lemma append_cancel_l (a x y : string) : a +++ x = a +++ y -> x = y.
Proof.
  induction a as [| c a IH]; simpl; intros H; [exact H |].
  injection H as H. auto.
Qed.

Lemma append_nil_r (a : string) : a +++ EmptyString = a.
Proof. induction a as [| c a IH]; simpl; [| rewrite IH]; reflexivity. Qed.

Lemma span_unique (p : ascii -> bool) (a b r1 r2 : string) :
  PyStr.all_chars p a = true -> PyStr.all_chars p b = true ->
  stops p r1 -> stops p r2 ->
  a +++ r1 = b +++ r2 -> a = b /\ r1 = r2.
Proof.
  revert b. induction a as [| c a IH]; intros [| d b] Ha Hb H1 H2 H; simpl in H.
  - auto.
  - subst r1. simpl in H1. rewrite all_chars_cons in Hb.
    apply andb_prop in Hb. destruct Hb as [Hd _]. congruence.
  - subst r2. simpl in H2. rewrite all_chars_cons in Ha.
    apply andb_prop in Ha. destruct Ha as [Hc _]. congruence.
  - injection H as Hcd H. subst d.
    rewrite all_chars_cons in Ha, Hb.
    apply andb_prop in Ha. apply andb_prop in Hb.
    destruct (IH b) as [E1 E2]; try tauto. subst b. auto.
Qed.

Lemma join_cons2 (sep x y : string) (l : list string) :
  PyStr.join sep (x :: y :: l) = x +++ sep +++ PyStr.join sep (y :: l).
Proof. reflexivity. Qed.

Section Sequences.

Context {A : Type} (P : A -> string) (sep close : string)
  (ok : string -> Prop).
Hypothesis sep_ok : forall r, ok (sep +++ r).
Hypothesis close_ok : forall r, ok (close +++ r).
Hypothesis sep_not_close : forall x y, sep +++ x <> close +++ y.

(** A sequence of items, separated by [sep] and closed by [close], can
    be read back when each item can. *)
Lemma delimited_sequence (l : list A) :
  Forall (delimited ok P) l ->
  forall l' r1 r2,
    l <> [] -> l' <> [] ->
    PyStr.join sep (map P l) +++ close +++ r1
    = PyStr.join sep (map P l') +++ close +++ r2 ->
    l = l' /\ r1 = r2.
Proof.
  induction 1 as [| a l Ha Hl IH]; intros l' r1 r2 Hne Hne' H;
    [congruence |].
  destruct l' as [| b l']; [congruence |].
  destruct l as [| a2 l]; destruct l' as [| b2 l'].
  - simpl in H. apply Ha in H; auto.
    destruct H as [-> H]. apply append_cancel_l in H. auto.
  - change (map P [a]) with [P a] in H.
    change (map P (b :: b2 :: l')) with (P b :: P b2 :: map P l') in H.
    rewrite join_cons2 in H. simpl PyStr.join in H at 1.
    rewrite !append_assoc_str in H.
    apply Ha in H; auto. destruct H as [_ H].
    symmetry in H. apply sep_not_close in H. contradiction.
  - change (map P [b]) with [P b] in H.
    change (map P (a :: a2 :: l)) with (P a :: P a2 :: map P l) in H.
    rewrite join_cons2 in H. simpl PyStr.join in H at 2.
    rewrite !append_assoc_str in H.
    apply Ha in H; auto. destruct H as [_ H].
    apply sep_not_close in H. contradiction.
  - change (map P (a :: a2 :: l)) with (P a :: P a2 :: map P l) in H.
    change (map P (b :: b2 :: l')) with (P b :: P b2 :: map P l') in H.
    rewrite !join_cons2 in H. rewrite !append_assoc_str in H.
    apply Ha in H; auto. destruct H as [-> H].
    apply append_cancel_l in H.
    change (P a2 :: map P l) with (map P (a2 :: l)) in H.
    change (P b2 :: map P l') with (map P (b2 :: l')) in H.
    apply IH in H; try discriminate.
    destruct H as [H ->]. rewrite H. auto.
Qed.

End Sequences.

(** ** Decimal numbers *)

Lemma digits_of_uint (d : Decimal.uint) :
  PyStr.all_chars PyStr.is_digit (DecimalString.NilEmpty.string_of_uint d) = true.
Proof.
  induction d; simpl; try reflexivity; rewrite all_chars_cons; exact IHd.
Qed.

Lemma of_nat_digits (n : nat) :
  PyStr.all_chars PyStr.is_digit (PyRepr.of_nat n) = true.
Proof.
  unfold PyRepr.of_nat, DecimalString.NilZero.string_of_uint.
  destruct (Nat.to_uint n) eqn:E; try apply digits_of_uint. reflexivity.
Qed.

Lemma to_uint_not_nil (n : nat) : Nat.to_uint n <> Decimal.Nil.
Proof.
  intros H. pose proof (DecimalNat.Unsigned.of_to n) as E. rewrite H in E.
  simpl in E. subst n. discriminate H.
Qed.

Lemma of_nat_inj (n m : nat) : PyRepr.of_nat n = PyRepr.of_nat m -> n = m.
Proof.
  unfold PyRepr.of_nat. intros H.
  apply (f_equal DecimalString.NilZero.uint_of_string) in H.
  rewrite !DecimalString.NilZero.usu in H by apply to_uint_not_nil.
  injection H as H. apply (f_equal Nat.of_uint) in H.
  now rewrite !DecimalNat.Unsigned.of_to in H.
Qed.

Lemma of_nat_head (n : nat) :
  exists c s, PyRepr.of_nat n = String c s /\ PyStr.is_digit c = true.
Proof.
  pose proof (of_nat_digits n) as H.
  destruct (PyRepr.of_nat n) as [| c s] eqn:E.
  - exfalso. unfold PyRepr.of_nat in E.
    apply (f_equal DecimalString.NilZero.uint_of_string) in E.
    rewrite DecimalString.NilZero.usu in E by apply to_uint_not_nil. discriminate E.
  - rewrite all_chars_cons in H. apply andb_prop in H.
    exists c, s. tauto.
Qed.

Lemma of_nat_delimited (n : nat) :
  delimited (stops PyStr.is_digit) PyRepr.of_nat n.
Proof.
  intros m r1 r2 H1 H2 H.
  apply span_unique with (p := PyStr.is_digit) in H;
    auto using of_nat_digits.
  destruct H as [H ->]. apply of_nat_inj in H. auto.
Qed.

(** ** JSON strings *)

Lemma json_read1_escape (c : ascii) (r : string) :
  json_read1 (Json.escape_char c +++ r) = Some (c, r).
Proof.
  destruct c as [[] [] [] [] [] [] [] []]; reflexivity.
Qed.

Lemma json_escape_delimited (s t r1 r2 : string) :
  Json.escape s +++ String PyRepr.double_quote r1
  = Json.escape t +++ String PyRepr.double_quote r2 ->
  s = t /\ r1 = r2.
Proof.
  revert t. induction s as [| c s IH]; intros [| d t] H; simpl in H.
  - injection H as H. auto.
  - apply (f_equal json_read1) in H. rewrite append_assoc_str in H.
    rewrite json_read1_escape in H. discriminate H.
  - apply (f_equal json_read1) in H. rewrite append_assoc_str in H.
    rewrite json_read1_escape in H. discriminate H.
  - apply (f_equal json_read1) in H. rewrite !append_assoc_str in H.
    rewrite !json_read1_escape in H. injection H as -> H.
    apply IH in H. destruct H as [-> ->]. auto.
Qed.

Lemma encode_basestring_delimited (s : string) :
  delimited any_rest Json.encode_basestring s.
Proof.
  intros t r1 r2 _ _ H. unfold Json.encode_basestring in H.
  simpl in H. injection H as H. rewrite !append_assoc_str in H.
  apply json_escape_delimited in H. exact H.
Qed.

(** ** JSON values *)

Lemma pyval_induction (P : pyval -> Prop) :
  P PNone -> (forall n, P (PInt n)) -> (forall s, P (PStr s)) ->
  (forall l, Forall P l -> P (PList l)) ->
  forall v, P v.
Proof.
  intros HNone HInt HStr HList.
  fix IH 1. intros [| n | s | l].
  - exact HNone.
  - apply HInt.
  - apply HStr.
  - apply HList. induction l as [| v l IHl]; constructor.
    + apply IH.
    + exact IHl.
Qed.

Lemma is_digit_kind (c : ascii) :
  PyStr.is_digit c = true -> kind_of_char c = 1.
Proof.
  unfold kind_of_char. intros H. rewrite H.
  destruct (Ascii.eqb_spec c "n") as [-> |]; [discriminate H | reflexivity].
Qed.

Lemma iterencode_head (level : nat) (v : pyval) :
  exists c s, Json.iterencode level v = String c s /\ kind_of_char c = kind v.
Proof.
  destruct v as [| n | s | [| x l]].
  - exists "n"%char, "ull". auto.
  - destruct (of_nat_head n) as (c & s & E & H).
    exists c, s. split; [exact E | now apply is_digit_kind].
  - eexists _, _. split; reflexivity.
  - eexists _, _. split; reflexivity.
  - eexists _, _. split; reflexivity.
Qed.

Lemma iterencode_kind (level : nat) (v b : pyval) (r1 r2 : string) :
  Json.iterencode level v +++ r1 = Json.iterencode level b +++ r2 ->
  kind v = kind b.
Proof.
  destruct (iterencode_head level v) as (c & s & -> & <-).
  destruct (iterencode_head level b) as (c' & s' & -> & <-).
  simpl. intros H. injection H as -> _. reflexivity.
Qed.

Lemma iterencode_list_eq (level : nat) (l : list pyval) :
  l <> [] ->
  Json.iterencode level (PList l)
  = "[" +++ Json.newline_indent (S level)
    +++ PyStr.join ("," +++ Json.newline_indent (S level))
          (map (Json.iterencode (S level)) l)
    +++ Json.newline_indent level +++ "]".
Proof. destruct l; [congruence | reflexivity]. Qed.

Lemma comma_not_newline (n m : nat) (x y : string) :
  ("," +++ Json.newline_indent n) +++ x <> Json.newline_indent m +++ y.
Proof. simpl. intros H. discriminate H. Qed.

Lemma stops_digit_comma (n : nat) (r : string) :
  stops PyStr.is_digit (("," +++ Json.newline_indent n) +++ r).
Proof. reflexivity. Qed.

Lemma stops_digit_newline (n : nat) (r : string) :
  stops PyStr.is_digit (Json.newline_indent n +++ r).
Proof. reflexivity. Qed.

Lemma iterencode_delimited (v : pyval) :
  forall level, delimited (stops PyStr.is_digit) (Json.iterencode level) v.
Proof.
  induction v as [| n | s | l IH] using pyval_induction;
    intros level b r1 r2 H1 H2 H;
    pose proof (iterencode_kind _ _ _ _ _ H) as K;
    destruct b as [| m | t | l']; try discriminate K; clear K.
  - simpl in H. injection H as H. auto.
  - simpl in H. apply of_nat_delimited in H; auto.
    destruct H as [-> ->]. auto.
  - simpl in H. apply encode_basestring_delimited in H; try exact I.
    destruct H as [-> ->]. auto.
  - destruct l as [| x l]; destruct l' as [| y l'].
    + simpl in H. injection H as H. auto.
    + simpl in H. discriminate H.
    + simpl in H. discriminate H.
    + rewrite !iterencode_list_eq in H by discriminate.
      rewrite !append_assoc_str in H.
      apply append_cancel_l in H. apply append_cancel_l in H.
      apply delimited_sequence with (ok := stops PyStr.is_digit) in H;
        try discriminate;
        auto using comma_not_newline, stops_digit_comma, stops_digit_newline.
      * destruct H as [-> H]. apply append_cancel_l in H. auto.
      * eapply Forall_impl; [| exact IH]. intros a Ha. apply Ha.
Qed.

Lemma iterencode_item_delimited (level : nat) (item : string * pyval) :
  delimited (stops PyStr.is_digit) (Json.iterencode_item level) item.
Proof.
  intros [k' v'] r1 r2 H1 H2 H. destruct item as [k v].
  unfold Json.iterencode_item in H. simpl fst in H. simpl snd in H.
  rewrite !append_assoc_str in H.
  apply encode_basestring_delimited in H; try exact I.
  destruct H as [-> H]. apply append_cancel_l in H.
  apply iterencode_delimited in H; auto.
  destruct H as [-> ->]. auto.
Qed.

Lemma iterencode_dict_eq (level : nat) (d : pydict) :
  d <> [] ->
  Json.iterencode_dict level d
  = "{" +++ Json.newline_indent (S level)
    +++ PyStr.join ("," +++ Json.newline_indent (S level))
          (map (Json.iterencode_item (S level)) d)
    +++ Json.newline_indent level +++ "}".
Proof. destruct d; [congruence | reflexivity]. Qed.

Lemma iterencode_dict_delimited (level : nat) (d : pydict) :
  delimited any_rest (Json.iterencode_dict level) d.
Proof.
  intros d' r1 r2 _ _ H.
  destruct d as [| x d]; destruct d' as [| y d'].
  - simpl in H. injection H as H. auto.
  - simpl in H. discriminate H.
  - simpl in H. discriminate H.
  - rewrite !iterencode_dict_eq in H by discriminate.
    rewrite !append_assoc_str in H.
    apply append_cancel_l in H. apply append_cancel_l in H.
    apply delimited_sequence with (ok := stops PyStr.is_digit) in H;
      try discriminate;
      auto using comma_not_newline, stops_digit_comma, stops_digit_newline.
    + destruct H as [-> H]. apply append_cancel_l in H. auto.
    + apply Forall_forall. intros a _. apply iterencode_item_delimited.
Qed.

Lemma dumps_eq (products : list pydict) :
  products <> [] ->
  Json.dumps products
  = "[" +++ Json.newline_indent 1
    +++ PyStr.join ("," +++ Json.newline_indent 1)
          (map (Json.iterencode_dict 1) products)
    +++ Json.newline_indent 0 +++ "]".
Proof. destruct products; [congruence | reflexivity]. Qed.

Lemma dumps_injective (ds ds' : list pydict) :
  Json.dumps ds = Json.dumps ds' -> ds = ds'.
Proof.
  intros H. destruct ds as [| x ds]; destruct ds' as [| y ds'].
  - reflexivity.
  - simpl in H. discriminate H.
  - simpl in H. discriminate H.
  - rewrite !dumps_eq in H by discriminate.
    apply append_cancel_l in H. apply append_cancel_l in H.
    apply delimited_sequence with (ok := any_rest) in H;
      try discriminate; try (intros; exact I);
      auto using comma_not_newline.
    + tauto.
    + apply Forall_forall. intros a _. apply iterencode_dict_delimited.
Qed.

(** ** The records as dictionaries *)

Lemma of_optional_inj (a b : option string) :
  of_optional a = of_optional b -> a = b.
Proof. destruct a, b; simpl; congruence. Qed.

Lemma map_PStr_inj (l l' : list string) :
  map PStr l = map PStr l' -> l = l'.
Proof.
  revert l'. induction l as [| a l IH]; intros [| b l'] H;
    try discriminate H; [reflexivity |].
  simpl in H. injection H as -> H. f_equal. auto.
Qed.

Lemma as_dict_inj (p q : ProductInfo) : as_dict p = as_dict q -> p = q.
Proof.
  destruct p, q. unfold as_dict. simpl. intros H.
  injection H as H1 H2 H3 H4 H5 H6 H7 H8 H9 H10 H11.
  apply of_optional_inj in H3, H6, H7, H8, H9.
  apply map_PStr_inj in H10. congruence.
Qed.

Lemma map_as_dict_inj (ps qs : list ProductInfo) :
  map as_dict ps = map as_dict qs -> ps = qs.
Proof.
  revert qs. induction ps as [| p ps IH]; intros [| q qs] H;
    try discriminate H; [reflexivity |].
  cbn [map] in H.
  remember (as_dict p) as dp eqn:Ep. remember (as_dict q) as dq eqn:Eq.
  injection H as H1 H. subst dp dq. apply as_dict_inj in H1.
  f_equal; auto.
Qed.

Lemma Some_inj {A : Type} (a b : A) : Some a = Some b -> a = b.
Proof. congruence. Qed.

(** X13. The JSON file loses nothing: two lists of records for which
    [save_to_json] does the same (writes the same text, or writes no file
    for either) are the same list, whatever characters the texts of the
    records hold. *)
Theorem json_file_determines_records (ps qs : list ProductInfo) :
  save_to_json (map as_dict ps) = save_to_json (map as_dict qs) <->
  ps = qs.
Proof.
  split; [| now intros ->].
  intros H. apply map_as_dict_inj.
  unfold save_to_json in H.
  destruct (map as_dict ps) as [| x xs] eqn:E1;
    destruct (map as_dict qs) as [| y ys] eqn:E2;
    try discriminate H; [reflexivity |].
  apply Some_inj in H. apply dumps_injective in H. exact H.
Qed.

(** ** CSV fields *)

Lemma needs_quotes_plain (f : string) :
  Csv.needs_quotes f = negb (PyStr.all_chars plain f).
Proof.
  unfold Csv.needs_quotes, PyStr.all_chars, plain.
  induction f as [| c f IH]; simpl; [reflexivity |].
  rewrite IH. now destruct (Csv.special c).
Qed.

Lemma after_field_stops (r : string) : after_field r -> stops plain r.
Proof.
  destruct r as [| c r]; simpl; [tauto |].
  unfold plain. intros [-> _]. reflexivity.
Qed.

Lemma double_quotes_delimited (f g r1 r2 : string) :
  after_field r1 -> after_field r2 ->
  Csv.double_quotes f +++ String PyRepr.double_quote r1
  = Csv.double_quotes g +++ String PyRepr.double_quote r2 ->
  f = g /\ r1 = r2.
Proof.
  intros H1 H2. revert g.
  induction f as [| c f IH]; intros [| d g] H; simpl in H.
  - injection H as H. auto.
  - destruct (Ascii.eqb_spec d PyRepr.double_quote) as [-> | Hd].
    + simpl in H. injection H as H. subst r1. simpl in H1.
      destruct H1 as [_ H1]. discriminate H1.
    + simpl in H. injection H as H _. congruence.
  - destruct (Ascii.eqb_spec c PyRepr.double_quote) as [-> | Hc].
    + simpl in H. injection H as H. subst r2. simpl in H2.
      destruct H2 as [_ H2]. discriminate H2.
    + simpl in H. injection H as H _. congruence.
  - destruct (Ascii.eqb_spec c PyRepr.double_quote) as [-> | Hc];
      destruct (Ascii.eqb_spec d PyRepr.double_quote) as [-> | Hd]; simpl in H.
    + injection H as H. apply IH in H. destruct H as [-> ->]. auto.
    + injection H as H _. congruence.
    + injection H as H _. congruence.
    + injection H as -> H. apply IH in H. destruct H as [-> ->]. auto.
Qed.

Lemma field_delimited (f : string) : delimited after_field Csv.field f.
Proof.
  intros g r1 r2 H1 H2 H. unfold Csv.field in H.
  rewrite !needs_quotes_plain in H.
  destruct (PyStr.all_chars plain f) eqn:Ef;
    destruct (PyStr.all_chars plain g) eqn:Eg; simpl negb in H; cbv iota in H.
  - apply span_unique with (p := plain) in H; auto using after_field_stops.
  - unfold Csv.quoted in H. simpl in H.
    destruct f as [| c f]; simpl in H.
    + subst r1. simpl in H1. destruct H1 as [_ H1]. discriminate H1.
    + injection H as -> _. rewrite all_chars_cons in Ef.
      apply andb_prop in Ef. destruct Ef as [Ef _]. discriminate Ef.
  - unfold Csv.quoted in H. simpl in H.
    destruct g as [| c g]; simpl in H.
    + subst r2. simpl in H2. destruct H2 as [_ H2]. discriminate H2.
    + injection H as <- _. rewrite all_chars_cons in Eg.
      apply andb_prop in Eg. destruct Eg as [Eg _]. discriminate Eg.
  - unfold Csv.quoted in H. simpl in H. injection H as H.
    rewrite !append_assoc_str in H.
    apply double_quotes_delimited in H; auto.
Qed.

(** ** CSV lines *)

Lemma length_append (a b : string) :
  String.length (a +++ b) = String.length a + String.length b.
Proof. induction a as [| c a IH]; simpl; [| rewrite IH]; reflexivity. Qed.

Lemma writerow_eq (row : list pyval) :
  2 <= length row ->
  Csv.writerow row
  = PyStr.join "," (map Csv.field (field_texts row)) +++ Csv.lineterminator.
Proof.
  intros H. unfold Csv.writerow, field_texts. rewrite map_map.
  destruct row as [| x [| y row]]; simpl in H; try lia.
  change (map ?f (x :: y :: row)) with (f x :: f y :: map f row).
  rewrite join_cons2.
  replace (String.length _ =? 0) with false; [now rewrite andb_false_r |].
  symmetry. apply Nat.eqb_neq. rewrite !length_append. simpl. lia.
Qed.

Lemma writerow_not_empty (row : list pyval) (r : string) :
  Csv.writerow row +++ r <> EmptyString.
Proof.
  intros H. apply (f_equal String.length) in H.
  unfold Csv.writerow in H. rewrite !length_append in H.
  simpl in H. lia.
Qed.

Lemma writerow_delimited (row row' : list pyval) (r1 r2 : string) :
  2 <= length row -> 2 <= length row' ->
  Csv.writerow row +++ r1 = Csv.writerow row' +++ r2 ->
  field_texts row = field_texts row' /\ r1 = r2.
Proof.
  intros L L' H. rewrite !writerow_eq in H by assumption.
  rewrite !append_assoc_str in H.
  apply delimited_sequence with (ok := after_field) in H.
  - exact H.
  - intros r. simpl. split; reflexivity.
  - intros r. simpl. split; reflexivity.
  - intros x y E. simpl in E. discriminate E.
  - apply Forall_forall. intros f _. apply field_delimited.
  - unfold field_texts. destruct row; simpl in *; [lia | discriminate].
  - unfold field_texts. destruct row'; simpl in *; [lia | discriminate].
Qed.

(** ** repr of strings and of lists of strings *)

Lemma repr_read1_quote (c : ascii) (r : string) :
  repr_read1 PyRepr.apostrophe (PyRepr.repr_char PyRepr.apostrophe c +++ r)
  = Some (c, r).
Proof. destruct c as [[] [] [] [] [] [] [] []]; reflexivity. Qed.

Lemma repr_read1_dquote (c : ascii) (r : string) :
  repr_read1 PyRepr.double_quote (PyRepr.repr_char PyRepr.double_quote c +++ r)
  = Some (c, r).
Proof. destruct c as [[] [] [] [] [] [] [] []]; reflexivity. Qed.

Lemma quote_of_cases (s : string) :
  PyRepr.quote_of s = PyRepr.apostrophe
  \/ PyRepr.quote_of s = PyRepr.double_quote.
Proof. unfold PyRepr.quote_of. destruct (_ && _); auto. Qed.

Lemma repr_read1_char (q c : ascii) (r : string) :
  q = PyRepr.apostrophe \/ q = PyRepr.double_quote ->
  repr_read1 q (PyRepr.repr_char q c +++ r) = Some (c, r).
Proof.
  intros [-> | ->]; [apply repr_read1_quote | apply repr_read1_dquote].
Qed.

Lemma repr_chars_delimited (q : ascii) (s t r1 r2 : string) :
  q = PyRepr.apostrophe \/ q = PyRepr.double_quote ->
  PyRepr.repr_chars q s +++ String q r1
  = PyRepr.repr_chars q t +++ String q r2 ->
  s = t /\ r1 = r2.
Proof.
  intros Hq. revert t.
  assert (Hend : forall r, repr_read1 q (String q r) = None).
  { intros r. simpl. now rewrite Ascii.eqb_refl. }
  induction s as [| c s IH]; intros [| d t] H; simpl in H.
  - injection H as H. auto.
  - apply (f_equal (repr_read1 q)) in H. rewrite append_assoc_str in H.
    rewrite repr_read1_char, Hend in H by exact Hq. discriminate H.
  - apply (f_equal (repr_read1 q)) in H. rewrite append_assoc_str in H.
    rewrite repr_read1_char, Hend in H by exact Hq. discriminate H.
  - apply (f_equal (repr_read1 q)) in H. rewrite !append_assoc_str in H.
    rewrite !repr_read1_char in H by exact Hq.
    apply Some_inj in H. injection H as -> H.
    apply IH in H. destruct H as [-> ->]. auto.
Qed.

Lemma of_str_delimited (s : string) : delimited any_rest PyRepr.of_str s.
Proof.
  intros t r1 r2 _ _ H. unfold PyRepr.of_str in H.
  cbn [String.append] in H.
  remember (PyRepr.quote_of s) as q eqn:Eq.
  remember (PyRepr.quote_of t) as q' eqn:Eq'.
  injection H as <- H.
  rewrite !append_assoc_str in H. unfold PyRepr.str1 in H.
  cbn [String.append] in H.
  apply repr_chars_delimited in H; [exact H |].
  subst q. apply quote_of_cases.
Qed.

Lemma repr_strings (l : list string) :
  PyRepr.repr (PList (map PStr l))
  = "[" +++ PyStr.join ", " (map PyRepr.of_str l) +++ "]".
Proof.
  cbn [PyRepr.repr]. rewrite map_map. reflexivity.
Qed.

Lemma of_str_head (s : string) :
  exists r, PyRepr.of_str s = String (PyRepr.quote_of s) r.
Proof. eexists. reflexivity. Qed.

Lemma join_of_str_head (x : string) (l : list string) :
  exists c r, PyStr.join ", " (map PyRepr.of_str (x :: l)) = String c r
              /\ (c = PyRepr.apostrophe \/ c = PyRepr.double_quote).
Proof.
  exists (PyRepr.quote_of x).
  destruct l as [| y l].
  - eexists. split; [reflexivity | apply quote_of_cases].
  - eexists. split; [reflexivity | apply quote_of_cases].
Qed.

Lemma repr_strings_inj (l l' : list string) :
  PyRepr.repr (PList (map PStr l)) = PyRepr.repr (PList (map PStr l')) ->
  l = l'.
Proof.
  rewrite !repr_strings. intros H. apply append_cancel_l in H.
  destruct l as [| x l]; destruct l' as [| y l'].
  - reflexivity.
  - destruct (join_of_str_head y l') as (c & r & E & Hc).
    rewrite E in H. simpl in H. injection H as H _.
    destruct Hc as [-> | ->]; vm_compute in H; discriminate H.
  - destruct (join_of_str_head x l) as (c & r & E & Hc).
    rewrite E in H. simpl in H. injection H as H _.
    destruct Hc as [-> | ->]; vm_compute in H; discriminate H.
  - change "]" with ("]" +++ EmptyString) in H.
    apply delimited_sequence with (ok := any_rest) in H.
    + tauto.
    + intros; exact I.
    + intros; exact I.
    + intros a b E. simpl in E. discriminate E.
    + apply Forall_forall. intros a _. apply of_str_delimited.
    + discriminate.
    + discriminate.
Qed.

(** ** The CSV file of the records *)

Lemma dict_to_list_as_dict (p0 p : ProductInfo) :
  Csv.dict_to_list (dict_keys (as_dict p0)) (as_dict p)
  = Ok (map snd (as_dict p)).
Proof. reflexivity. Qed.

Lemma writerows_as_dict (p0 : ProductInfo) (ps : list ProductInfo) :
  Csv.writerows (dict_keys (as_dict p0)) (map as_dict ps)
  = (csv_lines ps, Ok tt).
Proof.
  induction ps as [| p ps IH]; [reflexivity |].
  cbn [map Csv.writerows]. rewrite dict_to_list_as_dict, IH. reflexivity.
Qed.

Lemma save_to_csv_records (p : ProductInfo) (ps : list ProductInfo) :
  save_to_csv (map as_dict (p :: ps))
  = (Some (csv_header +++ csv_lines (p :: ps)), Ok tt).
Proof.
  unfold save_to_csv. cbn [map].
  change (as_dict p :: map as_dict ps) with (map as_dict (p :: ps)).
  rewrite writerows_as_dict. reflexivity.
Qed.

Lemma field_text_optional (a b : option string) :
  Csv.field_text (of_optional a) = Csv.field_text (of_optional b) <->
  empty_to_none a = empty_to_none b.
Proof.
  destruct a as [[| c a] |]; destruct b as [[| d b] |]; simpl;
    split; congruence.
Qed.

Lemma field_text_empty_to_none (a : option string) :
  Csv.field_text (of_optional (empty_to_none a))
  = Csv.field_text (of_optional a).
Proof. destruct a as [[| c a] |]; reflexivity. Qed.

Lemma csv_line_absent_if_empty (p : ProductInfo) :
  csv_line (absent_if_empty p) = csv_line p.
Proof.
  unfold csv_line, Csv.writerow. f_equal.
  destruct p as [i t im c s o sa d lo ad u].
  unfold as_dict, absent_if_empty.
  cbn [map snd length product_id title image color_options size_info
       original_price sale_price discount limited_offer additional_info
       product_url].
  rewrite !field_text_empty_to_none. reflexivity.
Qed.

Lemma csv_lines_absent_if_empty (ps : list ProductInfo) :
  csv_lines (map absent_if_empty ps) = csv_lines ps.
Proof.
  induction ps as [| p ps IH]; [reflexivity |].
  cbn [map csv_lines]. now rewrite csv_line_absent_if_empty, IH.
Qed.

Lemma field_texts_determine (p q : ProductInfo) :
  field_texts (map snd (as_dict p)) = field_texts (map snd (as_dict q)) ->
  absent_if_empty p = absent_if_empty q.
Proof.
  destruct p as [i t im c s o sa d lo ad u].
  destruct q as [i' t' im' c' s' o' sa' d' lo' ad' u'].
  unfold as_dict, absent_if_empty, field_texts.
  cbn [map snd product_id title image color_options size_info
       original_price sale_price discount limited_offer additional_info
       product_url].
  intros H.
  assert (E : forall (a b : string) l l', a :: l = b :: l' ->
                                          a = b /\ l = l')
    by (intros; split; congruence).
  repeat (apply E in H; let H' := fresh "F" in destruct H as [H' H]).
  apply field_text_optional in F1, F4, F5, F6, F7.
  cbn [Csv.field_text PyRepr.str] in F, F0, F2, F3, F8, F9.
  apply of_nat_inj in F2. apply repr_strings_inj in F8.
  congruence.
Qed.

Lemma csv_lines_determine (ps qs : list ProductInfo) :
  csv_lines ps = csv_lines qs ->
  map absent_if_empty ps = map absent_if_empty qs.
Proof.
  revert qs. induction ps as [| p ps IH]; intros [| q qs] H.
  - reflexivity.
  - symmetry in H. apply writerow_not_empty in H. contradiction.
  - apply writerow_not_empty in H. contradiction.
  - cbn [csv_lines] in H. unfold csv_line in H.
    apply writerow_delimited in H; [| simpl; lia | simpl; lia].
    destruct H as [H1 H]. apply field_texts_determine in H1.
    apply IH in H. cbn [map]. congruence.
Qed.

(** X14. On the records of the scraper [save_to_csv] does not raise: every
    record has the keys of the first one.  The file starts with the line
    of the eleven keys, in the order of the dictionary literal, and goes
    on with the row of each record, in the order of the list. *)
Theorem csv_rows_follow_records (p : ProductInfo) (ps : list ProductInfo) :
  save_to_csv (map as_dict (p :: ps))
  = (Some (csv_header +++ csv_lines (p :: ps)), Ok tt)
  /\ Csv.writeheader (dict_keys (as_dict p)) = csv_header
  /\ forall q, In q (p :: ps) ->
               Csv.dict_to_list (dict_keys (as_dict p)) (as_dict q)
               = Ok (map snd (as_dict q))
               /\ csv_line q
                  = PyStr.join ","
                      (map Csv.field (field_texts (map snd (as_dict q))))
                    +++ Csv.lineterminator.
Proof.
  split; [apply save_to_csv_records |].
  split; [reflexivity |].
  intros q _. split; [apply dict_to_list_as_dict |].
  unfold csv_line. apply writerow_eq. simpl. lia.
Qed.

(** X15. The CSV file loses one thing only: two lists of records for which
    [save_to_csv] does the same are the same list once every optional
    text that is empty is taken as absent, and two such lists are written
    alike.  In the file an image, a price or an offer that is the empty
    string cannot be told from one that is [None]; commas, quotes and
    line breaks inside the texts lose nothing. *)
Theorem csv_file_determines_records_up_to_empty (ps qs : list ProductInfo) :
  save_to_csv (map as_dict ps) = save_to_csv (map as_dict qs) <->
  map absent_if_empty ps = map absent_if_empty qs.
Proof.
  split; intros H.
  - destruct ps as [| p ps]; destruct qs as [| q qs].
    + reflexivity.
    + rewrite save_to_csv_records in H. discriminate H.
    + rewrite save_to_csv_records in H. discriminate H.
    + rewrite !save_to_csv_records in H.
      assert (E : csv_header +++ csv_lines (p :: ps)
                  = csv_header +++ csv_lines (q :: qs)) by congruence.
      apply append_cancel_l in E. now apply csv_lines_determine.
  - destruct ps as [| p ps]; destruct qs as [| q qs];
      try discriminate H; [reflexivity |].
    rewrite !save_to_csv_records.
    rewrite <- (csv_lines_absent_if_empty (p :: ps)).
    rewrite <- (csv_lines_absent_if_empty (q :: qs)).
    now rewrite H.
Qed.

(** ** The script *)

Lemma has_key_as_dict (ps : list ProductInfo) :
  forallb (has_key "product_id") (map as_dict ps) = true
  /\ forallb (has_key "title") (map as_dict ps) = true
  /\ forallb (has_key "image") (map as_dict ps) = true.
Proof.
  induction ps as [| p ps [IH1 [IH2 IH3]]]; [repeat split |].
  cbn [map forallb]. rewrite IH1, IH2, IH3. repeat split.
Qed.

Lemma sanity_checks_records (p : ProductInfo) (ps : list ProductInfo) :
  sanity_checks (map as_dict (p :: ps)) = ChecksPassed.
Proof.
  unfold sanity_checks.
  destruct (has_key_as_dict (p :: ps)) as [-> [-> ->]]. reflexivity.
Qed.

(** X16. A run of the script ends in one of three ways, and in no other:
    the scrape raises, the exception is caught by nothing and no file is
    written; the scrape returns no record, no file is written and the
    first check fails; the scrape returns records, both files are written
    with all the records, the CSV file first, and the checks pass.  The
    three checks on the keys cannot fail. *)
Theorem script_ends {D B : Type} (driver : WebDriver D B) (fuel : nat)
    (e : run_end) (files : list (string * string)) (calls : list event) :
  main driver fuel = Some (e, files, calls) <->
  (exists x, scrape_uniqlo_women_tops driver fuel entry_url
             = Some (Raise x, calls)
             /\ e = Uncaught x /\ files = [])
  \/ (scrape_uniqlo_women_tops driver fuel entry_url = Some (Ok [], calls)
      /\ e = AssertionError "No products were scraped" /\ files = [])
  \/ (exists products,
        scrape_uniqlo_women_tops driver fuel entry_url
        = Some (Ok products, calls)
        /\ products <> [] /\ e = ChecksPassed
        /\ files = files_of products).
Proof.
  unfold main. split.
  - destruct (scrape_uniqlo_women_tops driver fuel entry_url)
      as [[[products | x] calls'] |]; [| | discriminate].
    + destruct products as [| p ps].
      * intros H. injection H as <- <- <-. right. left. auto.
      * rewrite save_to_csv_records. cbv iota beta.
        rewrite sanity_checks_records.
        intros H. injection H as <- <- <-. right. right.
        exists (p :: ps). repeat split. discriminate.
    + intros H. injection H as <- <- <-. left. exists x. auto.
  - intros [[x [-> [-> ->]]] | [[-> [-> ->]] | [ps [-> [Hne [-> ->]]]]]].
    + reflexivity.
    + reflexivity.
    + destruct ps as [| p ps]; [congruence |].
      rewrite save_to_csv_records. cbv iota beta.
      rewrite sanity_checks_records. reflexivity.
Qed.

(** ** Runs of the sinks and of the script *)

(** The CSV file of the sample record: the list of tags is written as
    Python shows it, between quotes because of its comma. *)
Example csv_of_sample_record :
  save_to_csv [as_dict sample_info]
  = (Some
       (csv_header
        +++ "E465755-000,AIRism Cotton T-Shirt,"
        +++ "https://image.uniqlo.com/UQ/ST3/465755/item.jpg,2,XS-XXL,"
        +++ "RM100.00,RM75.00,25.0%,Limited Offer From 1 Jan,"
        +++ dquote +++ "['New', 'Online Only']" +++ dquote
        +++ ",https://www.uniqlo.com/my/en/products/E465755-000"
        +++ Csv.lineterminator),
     Ok tt).
Proof. vm_compute. reflexivity. Qed.

(** A record without image and one whose image is the empty string are
    written alike to the CSV file, and differently to the JSON file. *)
Example csv_confuses_absent_and_empty :
  let without := mkProductInfo "E1" "T" None 0 "S" None None None None [] "u" in
  let blank := mkProductInfo "E1" "T" (Some EmptyString) 0 "S" None None None
                 None [] "u" in
  save_to_csv [as_dict without] = save_to_csv [as_dict blank]
  /\ save_to_json [as_dict without] <> save_to_json [as_dict blank].
Proof. split; vm_compute; [reflexivity | discriminate]. Qed.

(** The script on the page with two cards, and on a page without cards. *)
Example script_on_sample_pages :
  main (sample_driver 0 false false [sample_card; card_no_title]) 1
  = Some (ChecksPassed, files_of [sample_info], sample_calls)
  /\ main (sample_driver 0 false false []) 1
     = Some (AssertionError "No products were scraped", [], sample_calls)
  /\ main (sample_driver 0 false true [sample_card]) 1
     = Some (Uncaught WebDriverException, [], [EvSetup; EvGet entry_url]).
Proof. repeat split; vm_compute; reflexivity. Qed.

(** * The calls on the session *)

Section Traces.

Context {D : Type} (Q : list event -> Prop).
Hypothesis Q_nil : Q [].
Hypothesis Q_app : forall l1 l2, Q l1 -> Q l2 -> Q (l1 ++ l2).

Lemma traces_ret {A : Type} (a : A) : traces Q (@ret D A a).
Proof.
  intros s r s' [= <- <-]. exists []. rewrite app_nil_r. auto.
Qed.

Lemma traces_lift {A : Type} (c : result A) : traces Q (@lift D A c).
Proof.
  intros s r s' [= <- <-]. exists []. rewrite app_nil_r. auto.
Qed.

Lemma traces_call {A : Type} (ev : event) (op : D -> result A * D) :
  Q [ev] -> traces Q (call ev op).
Proof.
  intros Hev s r s' H. apply call_inv in H. destruct H as [_ H].
  exists [ev]. auto.
Qed.

Lemma traces_bindD {A C : Type} (c : @Drv D A) (k : A -> @Drv D C) :
  traces Q c -> (forall a, traces Q (k a)) -> traces Q (bindD c k).
Proof.
  intros Hc Hk s r s' H.
  apply bindD_inv in H. destruct H as [[a [s1 [H1 H2]]] | [e [H1 _]]].
  - destruct (Hc _ _ _ H1) as [l1 [E1 N1]].
    destruct (Hk a _ _ _ H2) as [l2 [E2 N2]].
    exists (l1 ++ l2). rewrite E2, E1, app_assoc. auto.
  - exact (Hc _ _ _ H1).
Qed.

Lemma traces_catchD {A : Type} (c : @Drv D A) (h : exn -> @Drv D A) :
  traces Q c -> (forall e, traces Q (h e)) -> traces Q (catchD c h).
Proof.
  intros Hc Hh s r s' H.
  apply catchD_inv in H. destruct H as [[a [H1 _]] | [e [s1 [H1 H2]]]].
  - exact (Hc _ _ _ H1).
  - destruct (Hc _ _ _ H1) as [l1 [E1 N1]].
    destruct (Hh e _ _ _ H2) as [l2 [E2 N2]].
    exists (l1 ++ l2). rewrite E2, E1, app_assoc. auto.
Qed.

End Traces.

(** ** The reveal loop: what comes before a click *)

Lemma clicks_prepared_nil : clicks_prepared [].
Proof. intros [| b before] after H; discriminate H. Qed.

Lemma clicks_prepared_app (l1 l2 : list event) :
  clicks_prepared l1 -> clicks_prepared l2 -> clicks_prepared (l1 ++ l2).
Proof.
  intros H1 H2 before after H.
  apply app_eq_app in H. destruct H as [l [[E1 E2] | [E1 E2]]].
  - destruct l as [| x l].
    + simpl in E2. symmetry in E2.
      destruct (H2 [] after E2) as [earlier E].
      destruct earlier; discriminate E.
    + injection E2 as <- E2. apply (H1 before l). exact E1.
  - destruct (H2 l after E2) as [earlier ->].
    exists (l1 ++ earlier). rewrite E1, app_assoc. reflexivity.
Qed.

Lemma clicks_prepared_other (ev : event) :
  ev <> EvClick -> clicks_prepared [ev].
Proof.
  intros Hev [| b [| b' before]] after H; try discriminate H.
  injection H as H _. contradiction.
Qed.

Lemma clicks_prepared_pass : clicks_prepared (click_prelude ++ [EvClick]).
Proof.
  intros before after H. exists [].
  destruct before as [| b1 [| b2 [| b3 [| b4 [| b5 before]]]]];
    try discriminate H.
  - injection H as <- <- <- <- _. reflexivity.
  - injection H as _ _ _ _ _ H. destruct before; discriminate H.
Qed.

Lemma try_load_more_prepared {D B : Type} (driver : WebDriver D B)
    (n : nat) :
  traces clicks_prepared (try_load_more driver n).
Proof.
  assert (P1 : forall ev, ev <> EvClick -> clicks_prepared [ev])
    by apply clicks_prepared_other.
  unfold try_load_more. intros s r s' H.
  assert (Hend : exists s1 x,
             trace s' = trace s1
             /\ bindD (wait_presence driver load_more_xpath)
                  (fun load_more_button =>
                     bindD (is_displayed driver load_more_button)
                       (fun _ =>
                          bindD (is_displayed driver load_more_button)
                            (fun displayed =>
                               if negb displayed then ret (Break n)
                               else
                                 bindD (execute_script driver
                                          "arguments[0].scrollIntoView();"
                                          (Some load_more_button))
                                   (fun _ =>
                                      bindD (click driver load_more_button)
                                        (fun _ => ret (Next (n + 1)))))))
                  s = Some (x, s1)).
  { apply catchD_inv in H. destruct H as [[a [H1 _]] | [e [s1 [H1 H2]]]].
    - eauto.
    - exists s1, (Raise e). split; [| exact H1].
      destruct e; injection H2 as _ <-; reflexivity. }
  clear H. destruct Hend as [s1 [x [-> H]]].
  apply bindD_inv in H. destruct H as [[b [s2 [H1 H]]] | [e [H1 _]]].
  2:{ apply call_inv in H1. destruct H1 as [_ T1].
      exists [EvWait]. split; [exact T1 | apply P1; discriminate]. }
  apply call_inv in H1. destruct H1 as [_ T1].
  apply bindD_inv in H. destruct H as [[u2 [s3 [H2 H]]] | [e [H2 _]]].
  2:{ apply call_inv in H2. destruct H2 as [_ T2].
      exists ([EvWait] ++ [EvIsDisplayed]). split.
      - rewrite T2, T1, <- app_assoc. reflexivity.
      - apply clicks_prepared_app; apply P1; discriminate. }
  apply call_inv in H2. destruct H2 as [_ T2].
  apply bindD_inv in H. destruct H as [[shown [s4 [H3 H]]] | [e [H3 _]]].
  2:{ apply call_inv in H3. destruct H3 as [_ T3].
      exists ([EvWait] ++ [EvIsDisplayed] ++ [EvIsDisplayed]). split.
      - rewrite T3, T2, T1, <- !app_assoc. reflexivity.
      - repeat apply clicks_prepared_app; apply P1; discriminate. }
  apply call_inv in H3. destruct H3 as [_ T3].
  destruct (negb shown).
  { injection H as _ <-.
    exists ([EvWait] ++ [EvIsDisplayed] ++ [EvIsDisplayed]). split.
    - rewrite T3, T2, T1, <- !app_assoc. reflexivity.
    - repeat apply clicks_prepared_app; apply P1; discriminate. }
  apply bindD_inv in H. destruct H as [[u4 [s5 [H4 H]]] | [e [H4 _]]].
  2:{ apply call_inv in H4. destruct H4 as [_ T4].
      exists ([EvWait] ++ [EvIsDisplayed] ++ [EvIsDisplayed]
              ++ [EvScript "arguments[0].scrollIntoView();"]). split.
      - rewrite T4, T3, T2, T1, <- !app_assoc. reflexivity.
      - repeat apply clicks_prepared_app; apply P1; discriminate. }
  apply call_inv in H4. destruct H4 as [_ T4].
  assert (T5 : trace s1 = trace s5 ++ [EvClick]).
  { apply bindD_inv in H. destruct H as [[u5 [s6 [H5 H]]] | [e [H5 _]]].
    - apply call_inv in H5. destruct H5 as [_ T5].
      injection H as _ <-. exact T5.
    - apply call_inv in H5. destruct H5 as [_ T5]. exact T5. }
  exists (click_prelude ++ [EvClick]). split.
  - rewrite T5, T4, T3, T2, T1, <- !app_assoc. reflexivity.
  - apply clicks_prepared_pass.
Qed.

(** X17. In the reveal loop every [click()] comes right after the wait for
    the control, two calls of [is_displayed()] and the script that scrolls
    the control into view, in that order, whether the loop returns or
    raises. *)
Theorem every_click_is_prepared {D B : Type} (driver : WebDriver D B)
    (fuel n : nat) (s s' : session) (r : result nat) :
  load_more_loop driver fuel n s = Some (r, s') ->
  exists calls,
    trace s' = trace s ++ calls /\ clicks_prepared calls.
Proof.
  revert n s r s'.
  change (forall n, traces clicks_prepared (load_more_loop driver fuel n)).
  induction fuel as [| fuel IH]; intros n.
  - intros s r s' H. discriminate H.
  - cbn [load_more_loop].
    apply traces_bindD; try apply clicks_prepared_app.
    { apply traces_call. apply clicks_prepared_other. discriminate. }
    intros _.
    apply traces_bindD; try apply clicks_prepared_app.
    { apply traces_call. apply clicks_prepared_other. discriminate. }
    intros _.
    apply traces_bindD; try apply clicks_prepared_app.
    { apply try_load_more_prepared. }
    intros st. destruct st; [| apply IH | apply IH].
    apply traces_ret. apply clicks_prepared_nil.
Qed.

(** A run that clicks twice and then waits in vain for the control. *)
Lemma every_click_is_prepared_witness :
  exists calls,
    [EvScript scroll_script; EvScript height_script; EvWait; EvIsDisplayed;
     EvIsDisplayed; EvScript "arguments[0].scrollIntoView();"; EvClick;
     EvScript scroll_script; EvScript height_script; EvWait; EvIsDisplayed;
     EvIsDisplayed; EvScript "arguments[0].scrollIntoView();"; EvClick;
     EvScript scroll_script; EvScript height_script; EvWait]
    = [] ++ calls
    /\ clicks_prepared calls.
Proof.
  apply (every_click_is_prepared (sample_driver 2 false false []) 3 0
           (mkSession 0 []) (mkSession 2 _) (Ok 2)).
  vm_compute. reflexivity.
Defined.

(** ** The scrape: sessions and navigations *)

Lemma stays_load_more_loop {D B : Type} (driver : WebDriver D B)
    (fuel n : nat) :
  traces (Forall stays_on_page) (load_more_loop driver fuel n).
Proof.
  assert (Happ : forall l1 l2 : list event,
             Forall stays_on_page l1 -> Forall stays_on_page l2 ->
             Forall stays_on_page (l1 ++ l2))
    by (intros; apply Forall_app; auto).
  assert (Hone : forall ev, stays_on_page ev -> Forall stays_on_page [ev])
    by (intros; constructor; auto).
  revert n. induction fuel as [| fuel IH]; intros n.
  - intros s r s' H. discriminate H.
  - cbn [load_more_loop].
    apply traces_bindD; auto. { apply traces_call, Hone. exact I. }
    intros _.
    apply traces_bindD; auto. { apply traces_call, Hone. exact I. }
    intros _.
    apply traces_bindD; auto.
    + unfold try_load_more. apply traces_catchD; auto.
      * apply traces_bindD; auto. { apply traces_call, Hone. exact I. }
        intros b.
        apply traces_bindD; auto. { apply traces_call, Hone. exact I. }
        intros _.
        apply traces_bindD; auto. { apply traces_call, Hone. exact I. }
        intros shown. destruct (negb shown); [apply traces_ret; auto |].
        apply traces_bindD; auto. { apply traces_call, Hone. exact I. }
        intros _.
        apply traces_bindD; auto. { apply traces_call, Hone. exact I. }
        intros _. apply traces_ret; auto.
      * intros e. destruct e; apply traces_ret; auto.
    + intros st. destruct st; [apply traces_ret; auto | apply IH | apply IH].
Qed.

(** X18. A run of the scrape calls a browser only if [is_allowed] accepted
    the entry URL.  It then opens one session and navigates once, to the
    entry URL, as its first call; no later call opens a session or
    navigates, however the run ends. *)
Theorem scrape_navigates_once_to_allowed_url {D B : Type}
    (driver : WebDriver D B) (fuel : nat) (url : string)
    (r : result (list ProductInfo)) (calls : list event) :
  scrape_uniqlo_women_tops driver fuel url = Some (r, calls) ->
  calls = []
  \/ (is_allowed url = Ok true
      /\ exists rest,
           calls = EvSetup :: EvGet url :: rest
           /\ Forall stays_on_page rest).
Proof.
  assert (Happ : forall l1 l2 : list event,
             Forall stays_on_page l1 -> Forall stays_on_page l2 ->
             Forall stays_on_page (l1 ++ l2))
    by (intros; apply Forall_app; auto).
  assert (Hone : forall ev, stays_on_page ev -> Forall stays_on_page [ev])
    by (intros; constructor; auto).
  unfold scrape_uniqlo_women_tops.
  destruct (is_allowed url) as [[|] | e] eqn:Eallowed.
  - destruct (drv_setup driver) as [d0 | e].
    2:{ intros [= <- <-]. left. reflexivity. }
    destruct (scrape_session driver fuel url (mkSession d0 [EvSetup]))
      as [[r' s'] |] eqn:Erun; [| discriminate].
    intros [= <- <-]. right. split; [reflexivity |].
    unfold scrape_session in Erun.
    apply bindD_inv in Erun.
    destruct Erun as [[u1 [s1 [H1 H]]] | [e [H1 _]]].
    2:{ apply call_inv in H1. destruct H1 as [_ ->].
        exists []. split; [reflexivity | constructor]. }
    apply call_inv in H1. destruct H1 as [_ T1].
    assert (Hrest : exists rest,
               trace s' = trace s1 ++ rest /\ Forall stays_on_page rest).
    { revert H. generalize s1 r' s'.
      change (traces (Forall stays_on_page)
                (bindD (execute_script driver
                          "return document.body.scrollHeight" None)
                   (fun _ =>
                      bindD (driver_title driver)
                        (fun _ =>
                           bindD (scroll_and_click_load_more driver fuel)
                             (fun _ =>
                                bindD (driver_find_elements driver
                                         "article.fr-grid-item.w4")
                                  (fun product_list =>
                                     bindD (lift (collect_products
                                                    product_list url))
                                       (fun products =>
                                          bindD (quit driver)
                                            (fun _ => ret products)))))))).
      apply traces_bindD; auto. { apply traces_call, Hone. exact I. }
      intros _.
      apply traces_bindD; auto. { apply traces_call, Hone. exact I. }
      intros _.
      apply traces_bindD; auto. { apply stays_load_more_loop. }
      intros _.
      apply traces_bindD; auto. { apply traces_call, Hone. exact I. }
      intros product_list.
      apply traces_bindD; auto. { apply traces_lift; auto. }
      intros products.
      apply traces_bindD; auto. { apply traces_call, Hone. exact I. }
      intros _. apply traces_ret; auto. }
    destruct Hrest as [rest [T H']].
    exists rest. split; [| exact H'].
    rewrite T, T1. reflexivity.
  - intros [= <- <-]. left. reflexivity.
  - intros [= <- <-]. left. reflexivity.
Qed.

(** The run on the page with two cards. *)
Lemma scrape_navigates_once_to_allowed_url_witness :
  sample_calls = []
  \/ (is_allowed sample_url = Ok true
      /\ exists rest,
           sample_calls = EvSetup :: EvGet sample_url :: rest
           /\ Forall stays_on_page rest).
Proof.
  apply (scrape_navigates_once_to_allowed_url
           (sample_driver 0 false false [sample_card; card_no_title])
           1 sample_url (Ok [sample_info])).
  vm_compute. reflexivity.
Defined.

(** * The links of the items *)

Lemma site_url_split d x sch :
  clean_path d = true ->
  Urllib.urlsplit (site +++ d +++ x) sch
  = (let x' := Urllib.remove_unsafe x in
     let '(u, fragment) :=
       match PyStr.partition "#" x' with
       | (u, Some f) => (u, f)
       | (u, None) => (u, EmptyString)
       end in
     let '(u, query) :=
       match PyStr.partition "?" u with
       | (u, Some q) => (u, q)
       | (u, None) => (u, EmptyString)
       end in
     Ok (Urllib.mkSplit "https" "www.uniqlo.com" (d +++ u) query fragment)).
Proof.
  intros Hclean.
  destruct (clean_path_parts d Hclean) as [Hslash [Hhash [Hq [Hsemi Hunsafe]]]].
  unfold Urllib.urlsplit. cbv zeta.
  change (PyStr.lstrip_by Urllib.c0_control_or_space (site +++ d +++ x))
    with (site +++ d +++ x).
  rewrite !remove_unsafe_app, Hunsafe.
  change (Urllib.remove_unsafe site) with site.
  set (x' := Urllib.remove_unsafe x).
  rewrite (find_app_found ":" site (d +++ x') 5 eq_refl).
  change (match site +++ d +++ x' with
          | String c _ => PyStr.is_ascii_alpha c
          | EmptyString => false
          end) with true.
  rewrite (take_app_le 5 site) by (vm_compute; lia).
  change (PyStr.all_chars (fun c => PyStr.char_in c Urllib.scheme_chars)
            (PyStr.take 5 site)) with true.
  cbn [andb].
  rewrite (drop_app_le 6 site) by (vm_compute; lia).
  change (PyStr.drop 6 site) with ("//" +++ "www.uniqlo.com").
  change (PyStr.lower (PyStr.take 5 site)) with "https".
  change (("//" +++ "www.uniqlo.com") +++ d +++ x')
    with ("//" +++ "www.uniqlo.com" +++ d +++ x').
  assert (Hp : String.prefix "//" ("//" +++ "www.uniqlo.com" +++ d +++ x')
               = true)
    by (apply prefix_append; eexists; reflexivity).
  rewrite Hp.
  unfold Urllib._splitnetloc.
  change (PyStr.drop 2 ("//" +++ "www.uniqlo.com" +++ d +++ x'))
    with ("www.uniqlo.com" +++ d +++ x').
  rewrite span_netloc_app;
    [| reflexivity
     | apply prefix_append; apply prefix_append in Hslash;
       destruct Hslash as [r ->]; eexists; reflexivity].
  change (PyStr.char_in "[" "www.uniqlo.com") with false.
  change (PyStr.char_in "]" "www.uniqlo.com") with false.
  cbn [andb orb negb bind].
  rewrite (partition_app "#" d x' Hhash).
  destruct (PyStr.partition "#" x') as [a1 f1]. cbn [fst snd].
  destruct f1 as [f1 |];
    rewrite (partition_app "?" d a1 Hq);
    destruct (PyStr.partition "?" a1) as [a [q |]]; cbn [fst snd];
    reflexivity.
Qed.

Lemma site_url_parse_exact (d sch : string) :
  clean_path d = true ->
  Urllib.urlparse (site +++ d) sch
  = Ok (Urllib.mkParse "https" "www.uniqlo.com" d EmptyString EmptyString
          EmptyString).
Proof.
  intros Hclean.
  destruct (clean_path_parts d Hclean) as [_ [_ [_ [Hsemi _]]]].
  unfold Urllib.urlparse.
  rewrite <- (append_nil_r d) at 1.
  rewrite (site_url_split d EmptyString sch Hclean).
  cbv zeta. change (Urllib.remove_unsafe EmptyString) with EmptyString.
  cbn [PyStr.partition bind Urllib.s_scheme Urllib.s_path Urllib.s_netloc
       Urllib.s_query Urllib.s_fragment].
  rewrite append_nil_r, Hsemi. rewrite andb_false_r. reflexivity.
Qed.

Lemma urlunparse_site (d : string) :
  String.prefix "/" d = true ->
  Urllib.urlunparse
    (Urllib.mkParse "https" "www.uniqlo.com" d EmptyString EmptyString
       EmptyString)
  = site +++ d.
Proof.
  intros H. apply prefix_append in H. destruct H as [r ->].
  destruct r; vm_compute; reflexivity.
Qed.

Lemma urljoin_site_link (base d : string) (r : option string) :
  clean_path d = true ->
  Urllib.urljoin base (Some (site +++ d)) = Ok r ->
  r = Some (site +++ d).
Proof.
  intros Hclean.
  destruct (clean_path_parts d Hclean) as [Hslash _].
  unfold Urllib.urljoin.
  destruct (negb (PyStr.truthy base)); [congruence |].
  change (negb (PyStr.truthy (site +++ d))) with false. cbv iota.
  destruct (Urllib.urlparse base EmptyString) as [b | e];
    [| discriminate].
  cbn [bind]. rewrite (site_url_parse_exact d _ Hclean). cbn [bind].
  cbn [Urllib.scheme Urllib.netloc].
  destruct (negb ("https" =? Urllib.scheme b)%string
            || negb (PyStr.mem "https" Urllib.uses_relative));
    [congruence |].
  change (PyStr.mem "https" Urllib.uses_netloc
          && PyStr.truthy "www.uniqlo.com") with true.
  cbv iota. rewrite (urlunparse_site d Hslash). congruence.
Qed.

Lemma extract_product_url_site_link (product a : WebElement)
    (base_url d : string) (r : option string) :
  find_element product "a" = Ok a ->
  get_attribute a "href" = Ok (Some (site +++ d)) ->
  clean_path d = true ->
  extract_product_url product base_url = Ok r ->
  r = Some (site +++ d).
Proof.
  intros Ha Hhref Hclean Hurl.
  unfold extract_product_url in Hurl. rewrite Ha in Hurl. cbn [bind] in Hurl.
  rewrite Hhref in Hurl. cbn [bind] in Hurl.
  apply urljoin_site_link in Hurl; assumption.
Qed.

(** X19. A link that is an absolute URL of the site with a plain path (no
    parameters, query or fragment) is stored as it is: the product URL of
    the record is the [href] itself, whatever the base URL of the page. *)
Theorem site_links_are_kept (product a : WebElement)
    (base_url d : string) (info : ProductInfo) :
  extract_product_info product base_url = Ok (Some info) ->
  find_element product "a" = Ok a ->
  get_attribute a "href" = Ok (Some (site +++ d)) ->
  clean_path d = true ->
  product_url info = site +++ d.
Proof.
  intros H Ha Hhref Hclean.
  apply extract_Some_body in H. apply extract_body_Some in H.
  destruct H as [H _]. unfold extracted in H.
  assert (Hurl : extract_product_url product base_url
                 = Ok (Some (product_url info))) by tauto.
  apply (extract_product_url_site_link _ _ _ _ _ Ha Hhref Hclean) in Hurl.
  congruence.
Qed.

Lemma site_links_are_kept_witness :
  product_url sample_info = site +++ "/my/en/products/E465755-000".
Proof.
  apply (site_links_are_kept sample_card sample_anchor sample_url
           "/my/en/products/E465755-000" sample_info);
    vm_compute; reflexivity.
Defined.

(** X20. An item whose link is an absolute URL of the site with a plain
    path under a disallowed prefix yields no record, whatever the rest of
    the item holds and whatever the base URL. *)
Theorem disallowed_site_link_no_record (product a : WebElement)
    (base_url d x : string) :
  find_element product "a" = Ok a ->
  get_attribute a "href" = Ok (Some (site +++ d +++ x)) ->
  In d disallowed_paths ->
  clean_path (d +++ x) = true ->
  extract_product_info product base_url = Ok None.
Proof.
  intros Ha Hhref Hin Hclean.
  destruct (extract_product_info product base_url) as [[info |] | e] eqn:E.
  - exfalso.
    apply extract_Some_body in E. apply extract_body_Some in E.
    destruct E as [E Hallowed]. unfold extracted in E.
    assert (Hurl : extract_product_url product base_url
                   = Ok (Some (product_url info))) by tauto.
    apply (extract_product_url_site_link _ _ _ _ _ Ha Hhref Hclean) in Hurl.
    assert (Hp : product_url info = site +++ d +++ x) by congruence.
    rewrite Hp in Hallowed.
    destruct (site_url_path d x (disallowed_paths_clean d Hin))
      as [parsed [z [Hparse Hpath]]].
    unfold is_allowed in Hallowed. rewrite Hparse in Hallowed.
    cbn [bind] in Hallowed.
    assert (H : existsb (fun disallowed =>
                           PyStr.startswith (Urllib.path parsed) disallowed)
                        disallowed_paths = true).
    { apply disallowed_prefix_found. exists d, z. split; assumption. }
    rewrite H in Hallowed. discriminate Hallowed.
  - reflexivity.
  - pose proof (extract_product_info_total product base_url) as T.
    rewrite E in T. destruct T as [T | [? T]]; discriminate T.
Qed.

Lemma disallowed_site_link_no_record_witness :
  extract_product_info card_site_disallowed sample_url = Ok None.
Proof.
  apply (disallowed_site_link_no_record card_site_disallowed
           (element EmptyString
              [("href", "https://www.uniqlo.com/my/en/cms/campaign")] [])
           sample_url "/my/en/cms/" "campaign").
  - reflexivity.
  - reflexivity.
  - simpl. left. reflexivity.
  - vm_compute. reflexivity.
Defined.
